(** * Agentic maritime pipeline: stage graph, memory, validator, loitering detector

  A shallow embedding of the deterministic core of [agentic_pipeline]:
  - [services/memory_manager.py]   (module [MemoryManager]),
  - [utils/validators.py] and [services/plan_validator.py]
    (modules [Validators], [PlanValidator], [RelativeTime]),
  - [services/loitering_service.py] (module [LoiteringService]),
  - [core/graph.py] and [main.py]   (module [Graph]),
  - [services/vessel_resolver.py] and [services/response_builder.py]
    (modules [VesselResolver], [ResponseBuilder], [ResponseFormats]).

  Conventions.
  - A Python [str] is a [string] of ASCII characters; where Python treats
    characters outside ASCII in a way of its own (white space, digits,
    letter case) the theorems take the text to be ASCII ([Py.is_ascii]).
  - The speeds, positions and dwell times of the detector are IEEE 754
    double-precision numbers (module [Float], on the Standard Library's
    [SpecFloat]), with NaN, infinities and rounding; the comparisons and the
    division are those of the processor.  What pandas computes inside a
    reduction or a conversion ([Timedelta.total_seconds], [Series.mean],
    [Series.sum], [Series.max]) is given by what it returns
    ([Pandas.Numerics]).
  - The schema's [distance_nm], which is compared with zero only, is a
    rational number.
  - A pandas [datetime64[ns]] timestamp is an integer number of nanoseconds
    ([Z]); differences of timestamps are taken to fit 64 bits.
  - A [DataFrame] is the list of its rows, and the empty frame
    [pd.DataFrame()] is the empty list. *)

From Stdlib Require Import String Ascii List ZArith QArith Bool Lia Arith.
From Stdlib Require Import DecimalString Sorted Permutation Lqa SpecFloat.
Import ListNotations.

Open Scope Z_scope.

(* ================================================================== *)
(** * Double-precision numbers *)
(* ================================================================== *)

Module Float.

(** A Python [float] or numpy [float64]: a zero, an infinity, NaN, or a
    finite number [(-1)^s * m * 2^e]; the doubles are the values that
    [valid] accepts. *)
Definition t : Type := spec_float.
Definition prec : Z := 53.
Definition emax : Z := 1024.
Definition valid (x : t) : bool := valid_binary prec emax x.

Definition nan : t := S754_nan.

Definition is_nan (x : t) : bool :=
  match x with
  | S754_nan => true
  | _ => false
  end.

(** The double nearest to an integer ([float(n)], and the literals [2.0],
    [4.0], [3600]). *)
Definition of_Z (n : Z) : t := binary_normalize prec emax n 0 false.

(** [x / y], [x + y], rounded to nearest, ties to even. *)
Definition div (x y : t) : t := SFdiv prec emax x y.
Definition add (x y : t) : t := SFadd prec emax x y.

(** [x < y], [x <= y], [x == y]: false as soon as one side is NaN. *)
Definition ltb (x y : t) : bool := SFltb x y.
Definition leb (x y : t) : bool := SFleb x y.
Definition eqb (x y : t) : bool := SFeqb x y.

End Float.

(* ================================================================== *)
(** * Python built-ins used by the services *)
(* ================================================================== *)

Module Py.

(** [sub in s] on strings: substring search. *)
Fixpoint contains (sub s : string) : bool :=
  if String.prefix sub s then true
  else match s with
       | EmptyString => false
       | String _ s' => contains sub s'
       end.

(** A text of ASCII characters only ([str.isascii()]).  On such a text
    [lower], [strip] and the digit class of [re] below do what Python does;
    Python also folds the case of letters, strips white space and matches
    digits outside ASCII, which the model does not represent. *)
Definition is_ascii (s : string) : bool :=
  forallb (fun c => (nat_of_ascii c <? 128)%nat) (list_ascii_of_string s).

(** [str.lower()] restricted to ASCII. *)
Definition lower_ascii (c : ascii) : ascii :=
  let n := nat_of_ascii c in
  if ((65 <=? n) && (n <=? 90))%nat then ascii_of_nat (n + 32) else c.

Fixpoint lower (s : string) : string :=
  match s with
  | EmptyString => EmptyString
  | String c s' => String (lower_ascii c) (lower s')
  end.

(** Truth value of a [str], of an [Optional[str]], of a list, and of a
    float: only the two zeros are false, NaN is true. *)
Definition truthy_str (s : string) : bool := negb (String.eqb s EmptyString).

Definition truthy_opt_str (o : option string) : bool :=
  match o with
  | None => false
  | Some s => truthy_str s
  end.

Definition truthy_list {A} (l : list A) : bool :=
  match l with
  | [] => false
  | _ :: _ => true
  end.

Definition truthy_float (x : Float.t) : bool :=
  match x with
  | S754_zero _ => false
  | _ => true
  end.

(** [any(p(x) for x in l)]. *)
Definition any {A} (p : A -> bool) (l : list A) : bool := existsb p l.

(** [l[i:]] with Python's treatment of a negative or too large start. *)
Definition slice_from {A} (l : list A) (i : Z) : list A :=
  let n := Z.of_nat (List.length l) in
  let start := if i <? 0 then Z.max (n + i) 0 else Z.min i n in
  skipn (Z.to_nat start) l.

(** [str(n)] of an [int]. *)
Definition str_int (n : Z) : string := NilZero.string_of_int (Z.to_int n).

(** [sep.join(l)]. *)
Fixpoint join (sep : string) (l : list string) : string :=
  match l with
  | [] => EmptyString
  | [x] => x
  | x :: rest => (x ++ sep ++ join sep rest)%string
  end.

(** [str.strip()] restricted to ASCII: the characters Python treats as
    white space are 9..13, 28..31 and 32. *)
Definition is_space (c : ascii) : bool :=
  let n := nat_of_ascii c in
  (((9 <=? n) && (n <=? 13)) || ((28 <=? n) && (n <=? 32)))%nat.

Fixpoint lstrip (s : string) : string :=
  match s with
  | EmptyString => EmptyString
  | String c s' => if is_space c then lstrip s' else s
  end.

Fixpoint rstrip (s : string) : string :=
  match s with
  | EmptyString => EmptyString
  | String c s' =>
      match rstrip s' with
      | EmptyString => if is_space c then EmptyString else String c EmptyString
      | r => String c r
      end
  end.

Definition strip (s : string) : string := rstrip (lstrip s).

(** [repr(s)] of an ASCII [str]: single quotes unless the text holds a single
    quote and no double quote; backslash, the chosen quote, tab, newline and
    carriage return are escaped, other control characters are written in
    hexadecimal. *)
Definition squote : ascii := ascii_of_nat 39.
Definition dquote : ascii := ascii_of_nat 34.
Definition backslash : ascii := ascii_of_nat 92.

Definition mem_char (c : ascii) (s : string) : bool :=
  existsb (Ascii.eqb c) (list_ascii_of_string s).

Definition hex_digit (n : nat) : ascii :=
  if (n <? 10)%nat then ascii_of_nat (48 + n) else ascii_of_nat (87 + n).

Definition repr_char (q c : ascii) : string :=
  let n := nat_of_ascii c in
  if Ascii.eqb c backslash then String backslash (String backslash EmptyString)
  else if Ascii.eqb c q then String backslash (String q EmptyString)
  else if (n =? 9)%nat then String backslash "t"
  else if (n =? 10)%nat then String backslash "n"
  else if (n =? 13)%nat then String backslash "r"
  else if ((n <? 32) || (n =? 127))%nat
       then String backslash
              (String "x" (String (hex_digit (n / 16))
                             (String (hex_digit (n mod 16)) EmptyString)))
  else String c EmptyString.

Fixpoint repr_body (q : ascii) (s : string) : string :=
  match s with
  | EmptyString => EmptyString
  | String c s' => (repr_char q c ++ repr_body q s')%string
  end.

Definition repr_str (s : string) : string :=
  let q := if mem_char squote s && negb (mem_char dquote s)
           then dquote else squote in
  String q (repr_body q s ++ String q EmptyString).

Definition repr_opt {A} (repr : A -> string) (o : option A) : string :=
  match o with
  | None => "None"
  | Some x => repr x
  end.

(** [repr] of a list whose items are already rendered. *)
Definition repr_list (items : list string) : string :=
  ("[" ++ join ", " items ++ "]")%string.

(** The outcome of a call that may raise: the value, or the text [str(e)]
    of the exception. *)
Inductive result (A : Type) : Type :=
| Ok (a : A)
| Raise (e : string).
Arguments Ok {A} a.
Arguments Raise {A} e.

End Py.

(* ================================================================== *)
(** * services/memory_manager.py *)
(* ================================================================== *)

Module MemoryManager.

Record Message : Type := mkMessage {
  role : string;
  content : string
}.

(** The object's attributes. *)
Record t : Type := mk {
  max_history : Z;
  conversation_history : list Message;
  last_mentioned_vessels : list string;
  last_intent : option string
}.

(** [__init__]. *)
Definition init (max_history : Z) : t :=
  mk max_history [] [] None.

Definition set_history (self : t) (h : list Message) : t :=
  mk (max_history self) h (last_mentioned_vessels self) (last_intent self).

(** [add_message]: append, then keep [history[-max_history:]] when the
    length exceeds [max_history]. *)
Definition add_message (self : t) (role content : string) : t :=
  let self1 :=
    set_history self (conversation_history self ++ [mkMessage role content]) in
  if Z.of_nat (List.length (conversation_history self1)) >? max_history self1
  then set_history self1
         (Py.slice_from (conversation_history self1) (- max_history self1))
  else self1.

(** [update_vessel_context]: guarded by the truth value of the list. *)
Definition update_vessel_context (self : t) (vessels : list string) : t :=
  if Py.truthy_list vessels
  then mk (max_history self) (conversation_history self) vessels
          (last_intent self)
  else self.

(** [update_intent_context]: unconditional overwrite. *)
Definition update_intent_context (self : t) (intent : string) : t :=
  mk (max_history self) (conversation_history self)
     (last_mentioned_vessels self) (Some intent).

(** The dictionary returned by [resolve_references]. *)
Record Resolved : Type := mkResolved {
  vessels : list string;
  intent : option string;
  has_reference : bool
}.

Definition pronouns : list string :=
  ["it"; "its"; "them"; "their"; "that vessel"; "those vessels";
   "the vessel"; "the ship"]%string.

Definition intent_refs : list string := ["same"; "again"; "also"]%string.

Definition resolve_references (self : t) (query : string) : Resolved :=
  let query_lower := Py.lower query in
  let resolved := mkResolved [] None false in
  let has_pronoun :=
    Py.any (fun pronoun => Py.contains pronoun query_lower) pronouns in
  let resolved :=
    if has_pronoun && Py.truthy_list (last_mentioned_vessels self)
    then mkResolved (last_mentioned_vessels self) (intent resolved) true
    else resolved in
  let resolved :=
    if Py.any (fun ref => Py.contains ref query_lower) intent_refs
       && Py.truthy_opt_str (last_intent self)
    then mkResolved (vessels resolved) (last_intent self) true
    else resolved in
  resolved.

(** A sequence of [add_message] calls. *)
Definition add_messages (self : t) (msgs : list Message) : t :=
  fold_left (fun s m => add_message s (role m) (content m)) msgs self.

End MemoryManager.


(* ================================================================== *)
(** * config/schemas.py and config/settings.py *)
(* ================================================================== *)

(** Each [Literal[...]] field is an enumeration with its Python text. *)

Module Domain.
Inductive t : Type := trajectory | loitering | prediction | listing.
Definition str (d : t) : string :=
  match d with
  | trajectory => "trajectory"
  | loitering => "loitering"
  | prediction => "prediction"
  | listing => "listing"
  end.
End Domain.

Module Task.
Inductive t : Type := show | predict | detect | list.
Definition str (x : t) : string :=
  match x with
  | show => "show"
  | predict => "predict"
  | detect => "detect"
  | list => "list"
  end.
End Task.

Module VesselScope.
Inductive t : Type := single | multiple | all.
Definition str (x : t) : string :=
  match x with
  | single => "single"
  | multiple => "multiple"
  | all => "all"
  end.
End VesselScope.

Module TimeMode.
Inductive t : Type := relative | absolute.
Definition str (x : t) : string :=
  match x with
  | relative => "relative"
  | absolute => "absolute"
  end.
End TimeMode.

Module SpatialType.
Inductive t : Type := none | coastal_distance | polygon.
Definition str (x : t) : string :=
  match x with
  | none => "none"
  | coastal_distance => "coastal_distance"
  | polygon => "polygon"
  end.
End SpatialType.

Module DataSource.
Inductive t : Type := raw_ais | ml_predictions | model_inference.
Definition str (x : t) : string :=
  match x with
  | raw_ais => "raw_ais"
  | ml_predictions => "ml_predictions"
  | model_inference => "model_inference"
  end.
End DataSource.

Module OutputFormat.
Inductive t : Type := map | table | summary.
Definition str (x : t) : string :=
  match x with
  | map => "map"
  | table => "table"
  | summary => "summary"
  end.
End OutputFormat.

Module Schemas.

Record VesselIdentifier : Type := mkVesselIdentifier {
  imo : option string;
  mmsi : option string;
  name : option string
}.

Record TimeConstraint : Type := mkTimeConstraint {
  mode : TimeMode.t;
  relative : option string;
  start : option string;
  end_ : option string
}.

Record SpatialConstraint : Type := mkSpatialConstraint {
  type : SpatialType.t;
  distance_nm : option Q;
  polygon_type : option string;
  polygon_id : option string
}.

Record ExecutionMode : Type := mkExecutionMode {
  data_source : DataSource.t;
  model_name : option string
}.

Record OutputConfig : Type := mkOutputConfig {
  format : OutputFormat.t;
  limit : Z
}.

Record CanonicalIntent : Type := mkCanonicalIntent {
  domain_intent : Domain.t;
  task_intent : Task.t;
  vessel_scope : VesselScope.t;
  vessels : list VesselIdentifier;
  time_constraint : TimeConstraint;
  spatial_constraint : SpatialConstraint;
  execution_mode : ExecutionMode;
  output : OutputConfig
}.

Section Serialization.

(** [repr] of a [float]; the text Python prints is not in the repository. *)
Variable repr_float : Q -> string.

(** [str(d)] for the nested dictionaries of [model_dump()]: the keys are the
    field names, in declaration order. *)
Definition str_vessel (v : VesselIdentifier) : string :=
  ("{'imo': " ++ Py.repr_opt Py.repr_str (imo v)
   ++ ", 'mmsi': " ++ Py.repr_opt Py.repr_str (mmsi v)
   ++ ", 'name': " ++ Py.repr_opt Py.repr_str (name v) ++ "}")%string.

Definition str_time_constraint (c : TimeConstraint) : string :=
  ("{'mode': " ++ Py.repr_str (TimeMode.str (mode c))
   ++ ", 'relative': " ++ Py.repr_opt Py.repr_str (relative c)
   ++ ", 'start': " ++ Py.repr_opt Py.repr_str (start c)
   ++ ", 'end': " ++ Py.repr_opt Py.repr_str (end_ c) ++ "}")%string.

Definition str_spatial_constraint (c : SpatialConstraint) : string :=
  ("{'type': " ++ Py.repr_str (SpatialType.str (type c))
   ++ ", 'distance_nm': " ++ Py.repr_opt repr_float (distance_nm c)
   ++ ", 'polygon_type': " ++ Py.repr_opt Py.repr_str (polygon_type c)
   ++ ", 'polygon_id': " ++ Py.repr_opt Py.repr_str (polygon_id c)
   ++ "}")%string.

Definition str_execution_mode (m : ExecutionMode) : string :=
  ("{'data_source': " ++ Py.repr_str (DataSource.str (data_source m))
   ++ ", 'model_name': " ++ Py.repr_opt Py.repr_str (model_name m)
   ++ "}")%string.

Definition str_output (o : OutputConfig) : string :=
  ("{'format': " ++ Py.repr_str (OutputFormat.str (format o))
   ++ ", 'limit': " ++ Py.str_int (limit o) ++ "}")%string.

(** [str(intent.to_dict())]. *)
Definition str_to_dict (i : CanonicalIntent) : string :=
  ("{'domain_intent': " ++ Py.repr_str (Domain.str (domain_intent i))
   ++ ", 'task_intent': " ++ Py.repr_str (Task.str (task_intent i))
   ++ ", 'vessel_scope': " ++ Py.repr_str (VesselScope.str (vessel_scope i))
   ++ ", 'vessels': " ++ Py.repr_list (List.map str_vessel (vessels i))
   ++ ", 'time_constraint': " ++ str_time_constraint (time_constraint i)
   ++ ", 'spatial_constraint': "
   ++ str_spatial_constraint (spatial_constraint i)
   ++ ", 'execution_mode': " ++ str_execution_mode (execution_mode i)
   ++ ", 'output': " ++ str_output (output i) ++ "}")%string.

End Serialization.

End Schemas.

Module Settings.
Definition max_conversation_history : Z := 10.
Definition loitering_speed_threshold_knots : Float.t := Float.of_Z 2.
Definition loitering_dwell_time_hours : Float.t := Float.of_Z 4.
End Settings.

(* ================================================================== *)
(** * utils/validators.py *)
(* ================================================================== *)

Module Validators.

Definition is_digit (c : ascii) : bool :=
  let n := nat_of_ascii c in ((48 <=? n) && (n <=? 57))%nat.

(** The text left after [n] leading decimal digits, if there are that many. *)
Fixpoint match_digits (n : nat) (s : string) : option string :=
  match n with
  | O => Some s
  | S n' =>
      match s with
      | EmptyString => None
      | String c s' => if is_digit c then match_digits n' s' else None
      end
  end.

(** [re.match(r'^\d{9}$', s)]: nine digits, then the end of the text or one
    final newline. *)
Definition re_match_nine_digits (s : string) : bool :=
  match match_digits 9 s with
  | None => false
  | Some rest =>
      String.eqb rest EmptyString
      || String.eqb rest (String (ascii_of_nat 10) EmptyString)
  end.

Definition validate_mmsi (mmsi : string) : bool :=
  if negb (Py.truthy_str mmsi) then false
  else
    let mmsi := Py.strip mmsi in
    re_match_nine_digits mmsi.

Section TimeRange.

(** [datetime], [datetime.fromisoformat] (which raises [ValueError]) and the
    comparison [<] of two datetimes (which raises [TypeError] between a naive
    and an aware value) belong to Python's library. *)
Variable datetime : Type.
Variable fromisoformat : string -> Py.result datetime.
Variable datetime_lt : datetime -> datetime -> Py.result bool.

Definition validate_time_range (start end_ : option string) : bool :=
  if negb (Py.truthy_opt_str start) || negb (Py.truthy_opt_str end_) then false
  else
    match start, end_ with
    | Some start, Some end_ =>
        match fromisoformat start with
        | Py.Raise _ => false
        | Py.Ok start_dt =>
            match fromisoformat end_ with
            | Py.Raise _ => false
            | Py.Ok end_dt =>
                match datetime_lt start_dt end_dt with
                | Py.Raise _ => false
                | Py.Ok b => b
                end
            end
        end
    | _, _ => false
    end.

End TimeRange.

End Validators.

(* ================================================================== *)
(** * services/plan_validator.py *)
(* ================================================================== *)

Module PlanValidator.

Import Schemas.
Local Open Scope string_scope.

Definition unsafe_keywords : list string :=
  ["exec"; "eval"; "import"; "os."; "subprocess"; "__"]%string.

(** [if c: errors.append(msg)]. *)
Definition append_if (c : bool) (msg : string) (errors : list string)
  : list string :=
  if c then (errors ++ [msg])%list else errors.

Section Validate.

Variable repr_float : Q -> string.
Variable datetime : Type.
Variable fromisoformat : string -> Py.result datetime.
Variable datetime_lt : datetime -> datetime -> Py.result bool.

Definition validate (intent : CanonicalIntent) : list string :=
  let errors : list string := [] in
  (* 1. vessel scope consistency *)
  let errors :=
    append_if
      (String.eqb (VesselScope.str (vessel_scope intent)) "single"
       && negb (Nat.eqb (List.length (vessels intent)) 1))
      "vessel_scope is 'single' but vessels list does not contain exactly 1 vessel"
      errors in
  let errors :=
    append_if
      (String.eqb (VesselScope.str (vessel_scope intent)) "multiple"
       && (List.length (vessels intent) <? 2)%nat)
      "vessel_scope is 'multiple' but vessels list contains less than 2 vessels"
      errors in
  let errors :=
    append_if
      (String.eqb (VesselScope.str (vessel_scope intent)) "all"
       && (0 <? List.length (vessels intent))%nat)
      "vessel_scope is 'all' but vessels list is not empty"
      errors in
  (* 2. MMSI format *)
  let errors :=
    fold_left
      (fun errors vessel =>
         match mmsi vessel with
         | Some m =>
             append_if (Py.truthy_str m && negb (Validators.validate_mmsi m))
               ("Invalid MMSI format: " ++ m) errors
         | None => errors
         end)
      (vessels intent) errors in
  (* 3. time constraints *)
  let tc := time_constraint intent in
  let errors :=
    if String.eqb (TimeMode.str (mode tc)) "relative"
    then append_if (negb (Py.truthy_opt_str (relative tc)))
           "Time mode is 'relative' but no relative expression provided"
           errors
    else errors in
  let errors :=
    if String.eqb (TimeMode.str (mode tc)) "absolute"
    then
      if negb (Py.truthy_opt_str (start tc))
         || negb (Py.truthy_opt_str (end_ tc))
      then (errors ++ ["Time mode is 'absolute' but start/end not provided"])%list
      else
        append_if
          (negb (Validators.validate_time_range datetime fromisoformat
                   datetime_lt (start tc) (end_ tc)))
          "Invalid time range: start must be before end" errors
    else errors in
  (* 4. spatial constraints *)
  let sc := spatial_constraint intent in
  let errors :=
    if String.eqb (SpatialType.str (type sc)) "coastal_distance"
    then
      append_if
        (match distance_nm sc with
         | None => true
         | Some d => Qle_bool d 0
         end)
        "Spatial type is 'coastal_distance' but distance_nm is invalid" errors
    else errors in
  let errors :=
    if String.eqb (SpatialType.str (type sc)) "polygon"
    then append_if (negb (Py.truthy_opt_str (polygon_type sc)))
           "Spatial type is 'polygon' but polygon_type not provided" errors
    else errors in
  (* 5. execution mode *)
  let em := execution_mode intent in
  let errors :=
    if String.eqb (DataSource.str (data_source em)) "model_inference"
    then append_if (negb (Py.truthy_opt_str (model_name em)))
           "Execution mode is 'model_inference' but model_name not provided"
           errors
    else errors in
  (* 6. domain / task compatibility *)
  let errors :=
    append_if
      (String.eqb (Domain.str (domain_intent intent)) "loitering"
       && negb (existsb (String.eqb (Task.str (task_intent intent)))
                  ["detect"; "show"]%string))
      ("Incompatible: domain_intent 'loitering' with task_intent '"
       ++ Task.str (task_intent intent) ++ "'")
      errors in
  let errors :=
    append_if
      (String.eqb (Domain.str (domain_intent intent)) "prediction"
       && negb (String.eqb (Task.str (task_intent intent)) "predict"))
      ("Incompatible: domain_intent 'prediction' with task_intent '"
       ++ Task.str (task_intent intent) ++ "'")
      errors in
  (* 7. safety checks *)
  let query_str := str_to_dict repr_float intent in
  let errors :=
    fold_left
      (fun errors keyword =>
         append_if (Py.contains keyword query_str)
           ("Unsafe keyword detected: " ++ keyword) errors)
      unsafe_keywords errors in
  errors.

Definition is_valid (intent : CanonicalIntent) : bool :=
  Nat.eqb (List.length (validate intent)) 0.

End Validate.

End PlanValidator.

(* ================================================================== *)
(** * pandas operations used by the loitering service *)
(* ================================================================== *)

Module Pandas.

(** [sort_values]: the rows in ascending order of the key, here by a stable
    insertion sort.  pandas does not fix the order of rows with equal keys;
    the service reads the sorted keys, and per segment the least and
    greatest key, the count and the means of the segment's rows: the keys,
    the rows of every segment and their count do not depend on that order,
    and the means are taken over the same values. *)
Section Sort.
Context {A : Type}.
Variable leb : A -> A -> bool.

Fixpoint insert (x : A) (l : list A) : list A :=
  match l with
  | [] => [x]
  | y :: l' => if leb x y then x :: l else y :: insert x l'
  end.

(** The rows are inserted from the last to the first, each before the first
    row that is not smaller: equal rows keep their order. *)
Fixpoint sort (l : list A) : list A :=
  match l with
  | [] => []
  | x :: l' => insert x (sort l')
  end.
End Sort.

(** [df.groupby(key)]: one group per distinct key, keys ascending, each group
    holding its rows in their original order. *)
Section GroupBy.
Context {A K : Type}.
Variable eqb : K -> K -> bool.
Variable leb : K -> K -> bool.
Variable key : A -> K.

Fixpoint unique (l : list K) : list K :=
  match l with
  | [] => []
  | k :: l' => if existsb (eqb k) l' then unique l' else k :: unique l'
  end.

Definition groupby (rows : list A) : list (K * list A) :=
  List.map (fun k => (k, filter (fun r => eqb (key r) k) rows))
    (sort leb (unique (List.map key rows))).
End GroupBy.

(** [Series.diff()]: the first entry is missing ([NaN]/[NaT]). *)
Fixpoint diff_from (prev : Z) (l : list Z) : list (option Z) :=
  match l with
  | [] => []
  | x :: l' => Some (x - prev) :: diff_from x l'
  end.

Definition diff (l : list Z) : list (option Z) :=
  match l with
  | [] => []
  | x :: l' => None :: diff_from x l'
  end.

(** [Series.cumsum()] of booleans. *)
Fixpoint cumsum_from (acc : nat) (l : list bool) : list nat :=
  match l with
  | [] => []
  | b :: l' =>
      let acc' := (acc + (if b then 1 else 0))%nat in
      acc' :: cumsum_from acc' l'
  end.

Definition cumsum (l : list bool) : list nat := cumsum_from 0 l.

(** [Series.dt.total_seconds()] of a column of differences in nanoseconds.
    The detector reads this column through the test [> 1.0] on its
    entries divided by 3600 only, and for a whole number of nanoseconds
    that test on the doubles gives what it gives on the exact quotients
    (one hour is 3600000000000 ns exactly, and one nanosecond more already
    gives a double above 1.0): the column is kept exact. *)
Definition total_seconds (ns : Z) : Q := inject_Z ns / inject_Z 1000000000.

(** [Series.min()], [Series.max()] of a non-empty column of timestamps. *)
Definition min (x : Z) (l : list Z) : Z := fold_left Z.min l x.
Definition max (x : Z) (l : list Z) : Z := fold_left Z.max l x.

(** What pandas computes in double precision, in an order and with a
    treatment of missing values of its own: [Timedelta.total_seconds()] of
    a difference in nanoseconds, and [Series.mean()], [Series.sum()] and
    [Series.max()] of a column of floats.  They are given by what they
    return. *)
Record Numerics : Type := mkNumerics {
  timedelta_total_seconds : Z -> Float.t;
  series_mean : list Float.t -> Float.t;
  series_sum : list Float.t -> Float.t;
  series_max : list Float.t -> Float.t
}.

End Pandas.

(* ================================================================== *)
(** * services/loitering_service.py *)
(* ================================================================== *)

Module TrackPoint.
Record t : Type := mk {
  timestamp : Z;
  mmsi : string;
  latitude : Float.t;
  longitude : Float.t;
  sog : Float.t;
  cog : Float.t;
  interpolated : bool
}.
End TrackPoint.

Module LoiteringEvent.
Record t : Type := mk {
  mmsi : string;
  start_time : Z;
  end_time : Z;
  dwell_time_hours : Float.t;
  center_latitude : Float.t;
  center_longitude : Float.t;
  num_points : nat;
  avg_speed : Float.t
}.
End LoiteringEvent.

Module LoiteringService.

Import TrackPoint.

Definition Qlt_bool (x y : Q) : bool := negb (Qle_bool y x).

(** The object's attributes, read from the settings by [__init__]. *)
Record t : Type := mk {
  speed_threshold : Float.t;
  dwell_time_hours : Float.t
}.

Definition init : t :=
  mk Settings.loitering_speed_threshold_knots
     Settings.loitering_dwell_time_hours.

(** [x or default] on an optional float. *)
Definition or_default (x : option Float.t) (default : Float.t) : Float.t :=
  match x with
  | Some v => if Py.truthy_float v then v else default
  | None => default
  end.

(** Step 1: [df[df['sog'] < speed_threshold]]. *)
Definition filter_slow (speed_threshold : Float.t) (df : list TrackPoint.t)
  : list TrackPoint.t :=
  filter (fun p => Float.ltb (sog p) speed_threshold) df.

(** Step 3: the columns [time_diff] (hours), [new_event] and [event_id]
    of one vessel's sorted rows. *)
Definition hours (ns : Z) : Q := Pandas.total_seconds ns / inject_Z 3600.

Definition time_diff (group : list TrackPoint.t) : list (option Q) :=
  List.map (option_map hours) (Pandas.diff (List.map timestamp group)).

Definition new_event (group : list TrackPoint.t) : list bool :=
  List.map (fun d => match d with
                     | Some h => Qlt_bool 1 h
                     | None => true
                     end)
    (time_diff group).

Definition event_id (group : list TrackPoint.t) : list nat :=
  Pandas.cumsum (new_event group).

(** [group.groupby('event_id')]: the rows of each event. *)
Definition event_groups (group : list TrackPoint.t)
  : list (nat * list TrackPoint.t) :=
  List.map (fun g => (fst g, List.map snd (snd g)))
    (Pandas.groupby Nat.eqb Nat.leb fst (combine (event_id group) group)).

Section Detector.

Variable pd : Pandas.Numerics.

(** [(end_time - start_time).total_seconds() / 3600]. *)
Definition dwell_time (start_time end_time : Z) : Float.t :=
  Float.div (Pandas.timedelta_total_seconds pd (end_time - start_time))
    (Float.of_Z 3600).

(** Step 4: the body of the loop over the events of one vessel. *)
Definition event_of (dwell_time_hours : Float.t) (mmsi : string)
  (event_group : list TrackPoint.t) : list LoiteringEvent.t :=
  if (List.length event_group <? 2)%nat then []
  else
    match List.map timestamp event_group with
    | [] => []
    | t0 :: ts =>
        let start_time := Pandas.min t0 ts in
        let end_time := Pandas.max t0 ts in
        let dwell_time := dwell_time start_time end_time in
        if Float.leb dwell_time_hours dwell_time then
          let center_lat :=
            Pandas.series_mean pd (List.map latitude event_group) in
          let center_lon :=
            Pandas.series_mean pd (List.map longitude event_group) in
          [LoiteringEvent.mk mmsi start_time end_time dwell_time
             center_lat center_lon (List.length event_group)
             (Pandas.series_mean pd (List.map sog event_group))]
        else []
    end.

(** The body of the loop over the vessels. *)
Definition vessel_events (dwell_time_hours : Float.t) (mmsi : string)
  (group : list TrackPoint.t) : list LoiteringEvent.t :=
  let group := Pandas.sort (fun a b => timestamp a <=? timestamp b) group in
  flat_map (fun g => event_of dwell_time_hours mmsi (snd g))
    (event_groups group).

Definition _apply_spatial_filter (df : list LoiteringEvent.t)
  (spatial_constraint : Schemas.SpatialConstraint)
  : list LoiteringEvent.t :=
  if String.eqb (SpatialType.str (Schemas.type spatial_constraint))
       "coastal_distance"
  then df
  else if String.eqb (SpatialType.str (Schemas.type spatial_constraint))
            "polygon"
  then df
  else df.

Definition detect_loitering (self : t) (df : list TrackPoint.t)
  (speed_threshold dwell_time_hours : option Float.t)
  (spatial_constraint : option Schemas.SpatialConstraint)
  : list LoiteringEvent.t :=
  match df with
  | [] => []
  | _ :: _ =>
      let speed_threshold :=
        or_default speed_threshold (LoiteringService.speed_threshold self) in
      let dwell_time_hours :=
        or_default dwell_time_hours (LoiteringService.dwell_time_hours self) in
      let df_slow := filter_slow speed_threshold df in
      match df_slow with
      | [] => []
      | _ :: _ =>
          let loitering_events :=
            flat_map (fun g => vessel_events dwell_time_hours (fst g) (snd g))
              (Pandas.groupby String.eqb String.leb mmsi df_slow) in
          match loitering_events with
          | [] => []
          | _ :: _ =>
              match spatial_constraint with
              | Some sc =>
                  if negb (String.eqb (SpatialType.str (Schemas.type sc))
                             "none")
                  then _apply_spatial_filter loitering_events sc
                  else loitering_events
              | None => loitering_events
              end
          end
      end
  end.

End Detector.

End LoiteringService.

(* ================================================================== *)
(** * services/vessel_resolver.py, response_builder.py *)
(* ================================================================== *)

(** The frame held in [state["dataframe"]]: track points fetched by the
    trajectory stage, or the events produced by the loitering stage. *)
Module DataFrame.
Inductive t : Type :=
| Points (rows : list TrackPoint.t)
| Events (rows : list LoiteringEvent.t).

Definition len (df : t) : nat :=
  match df with
  | Points rows => List.length rows
  | Events rows => List.length rows
  end.

Definition empty (df : t) : bool := Nat.eqb (len df) 0.
End DataFrame.

Module VesselResolver.

(** [resolve]: only a present MMSI that the dataset knows is kept;
    [_verify_mmsi_exists] queries the store and never raises. *)
Definition resolve (_verify_mmsi_exists : string -> bool)
  (vessels : list Schemas.VesselIdentifier) : list string :=
  fold_left
    (fun resolved_mmsis vessel =>
       match Schemas.mmsi vessel with
       | Some m =>
           if Py.truthy_str m
           then if _verify_mmsi_exists m then resolved_mmsis ++ [m]
                else resolved_mmsis
           else resolved_mmsis
       | None => resolved_mmsis
       end)
    vessels [].

End VesselResolver.

Module ResponseBuilder.

(** The dictionary returned by [build_response]; [data] is the formatted
    payload, [message] a key that a response may lack. *)
Record Response (Data : Type) : Type := mkResponse {
  format : string;
  data : option Data;
  message : option string;
  count : Z
}.
Arguments mkResponse {Data} _ _ _ _.
Arguments format {Data} _.
Arguments data {Data} _.
Arguments message {Data} _.
Arguments count {Data} _.

(** [build_response]: a missing or empty frame gives the fixed answer;
    otherwise one of the three formatters ([formatter]) runs on the first
    [limit] rows. *)
Definition build_response {Data : Type}
  (formatter : DataFrame.t -> OutputFormat.t -> Z -> Py.result (Response Data))
  (df : option DataFrame.t) (output_format : OutputFormat.t) (limit : Z)
  : Py.result (Response Data) :=
  match df with
  | None =>
      Py.Ok (mkResponse (OutputFormat.str output_format) None
               (Some "No results found"%string) 0)
  | Some d =>
      if DataFrame.empty d
      then Py.Ok (mkResponse (OutputFormat.str output_format) None
                    (Some "No results found"%string) 0)
      else formatter d output_format limit
  end.

End ResponseBuilder.

(* ================================================================== *)
(** * core/state.py and core/graph.py *)
(* ================================================================== *)

Module Graph.

Import Schemas.
Local Open Scope string_scope.

Section Graph.

(** Python's [datetime] and the formatted payload of a response. *)
Context {datetime Data : Type}.

Let Response : Type := ResponseBuilder.Response Data.

(** [AgentState] (core/state.py). *)
Record AgentState : Type := mkState {
  user_query : string;
  conversation_history : list MemoryManager.Message;
  canonical_intent : option CanonicalIntent;
  validation_errors : list string;
  vessel_ids : list string;
  resolved_time_range : option (datetime * datetime);
  dataframe : option DataFrame.t;
  result : option Response;
  execution_log : list string;
  error : option string;
  model_name : string
}.

(** [create_initial_state]. *)
Definition create_initial_state (query : string)
  (history : option (list MemoryManager.Message)) (model_name : string)
  : AgentState :=
  mkState query
    (match history with
     | Some h => if Py.truthy_list h then h else []
     | None => []
     end)
    None [] [] None None None [] None model_name.

(** Item assignments [state[key] = value]. *)
Definition set_canonical_intent (s : AgentState) (v : CanonicalIntent) :=
  mkState (user_query s) (conversation_history s) (Some v)
    (validation_errors s) (vessel_ids s) (resolved_time_range s)
    (dataframe s) (result s) (execution_log s) (error s) (model_name s).

Definition set_validation_errors (s : AgentState) (v : list string) :=
  mkState (user_query s) (conversation_history s) (canonical_intent s)
    v (vessel_ids s) (resolved_time_range s)
    (dataframe s) (result s) (execution_log s) (error s) (model_name s).

Definition set_vessel_ids (s : AgentState) (v : list string) :=
  mkState (user_query s) (conversation_history s) (canonical_intent s)
    (validation_errors s) v (resolved_time_range s)
    (dataframe s) (result s) (execution_log s) (error s) (model_name s).

Definition set_resolved_time_range (s : AgentState)
  (v : datetime * datetime) :=
  mkState (user_query s) (conversation_history s) (canonical_intent s)
    (validation_errors s) (vessel_ids s) (Some v)
    (dataframe s) (result s) (execution_log s) (error s) (model_name s).

Definition set_dataframe (s : AgentState) (v : DataFrame.t) :=
  mkState (user_query s) (conversation_history s) (canonical_intent s)
    (validation_errors s) (vessel_ids s) (resolved_time_range s)
    (Some v) (result s) (execution_log s) (error s) (model_name s).

Definition set_result (s : AgentState) (v : Response) :=
  mkState (user_query s) (conversation_history s) (canonical_intent s)
    (validation_errors s) (vessel_ids s) (resolved_time_range s)
    (dataframe s) (Some v) (execution_log s) (error s) (model_name s).

Definition set_error (s : AgentState) (v : string) :=
  mkState (user_query s) (conversation_history s) (canonical_intent s)
    (validation_errors s) (vessel_ids s) (resolved_time_range s)
    (dataframe s) (result s) (execution_log s) (Some v) (model_name s).

(** [state["execution_log"].append(entry)]. *)
Definition log (s : AgentState) (entry : string) :=
  mkState (user_query s) (conversation_history s) (canonical_intent s)
    (validation_errors s) (vessel_ids s) (resolved_time_range s)
    (dataframe s) (result s) (execution_log s ++ [entry])%list (error s)
    (model_name s).

(** The services held in the module's globals once [_initialize_services]
    has run.  The planner, the position store, the clock and the response
    formatters are outside the repository's core and are given by what they
    return; [plan_validator] is the [validate] method of the validator
    instance, [loitering_service] the detector instance, [pandas] the
    reductions of pandas that the detector calls.
    [parse_relative_time] reads the clock; it raises on a count that the
    calendar or [int] refuses. *)
Record Services : Type := mkServices {
  intent_parser_parse :
    string -> list MemoryManager.Message -> string
    -> Py.result CanonicalIntent;
  plan_validator : CanonicalIntent -> list string;
  get_all_mmsis : Py.result (list string);
  _verify_mmsi_exists : string -> bool;
  parse_relative_time : string -> Py.result (datetime * datetime);
  fromisoformat : string -> Py.result datetime;
  db_fetch_trajectory :
    list string -> datetime -> datetime -> Z
    -> Py.result (list TrackPoint.t);
  loitering_service : LoiteringService.t;
  pandas : Pandas.Numerics;
  formatter :
    DataFrame.t -> OutputFormat.t -> Z -> Py.result Response;
  str_datetime : datetime -> string
}.

Variable svc : Services.

(** The memory manager is a global shared by the nodes: a node maps the pair
    of the memory and the state to the new pair. *)
Definition World : Type := (MemoryManager.t * AgentState)%type.

(** [str(e)] of the [AttributeError] and [TypeError] raised on [None]. *)
Definition none_has_no_attribute (attr : string) : string :=
  "'NoneType' object has no attribute '" ++ attr ++ "'".
Definition none_not_subscriptable : string :=
  "'NoneType' object is not subscriptable".
Definition fromisoformat_none : string :=
  "fromisoformat: argument must be str".

Definition repr_bool (b : bool) : string := if b then "True" else "False".

(** [str(resolved)] of the dictionary returned by [resolve_references]. *)
Definition str_resolved (r : MemoryManager.Resolved) : string :=
  "{'vessels': "
  ++ Py.repr_list (List.map Py.repr_str (MemoryManager.vessels r))
  ++ ", 'intent': " ++ Py.repr_opt Py.repr_str (MemoryManager.intent r)
  ++ ", 'has_reference': " ++ repr_bool (MemoryManager.has_reference r)
  ++ "}".

Definition str_nat (n : nat) : string := Py.str_int (Z.of_nat n).

Definition resolve_references_node (w : World) : World :=
  let (mm, state) := w in
  let state := log state "Resolving references" in
  let resolved := MemoryManager.resolve_references mm (user_query state) in
  let state :=
    if MemoryManager.has_reference resolved
    then log state ("Resolved references: " ++ str_resolved resolved)
    else state in
  (mm, state).

Definition parse_intent_node (w : World) : World :=
  let (mm, state) := w in
  let state := log state "Parsing intent with LLM" in
  match intent_parser_parse svc (user_query state)
          (conversation_history state) (model_name state) with
  | Py.Ok canonical_intent =>
      let state := set_canonical_intent state canonical_intent in
      let state :=
        log state ("Intent: " ++ Domain.str (domain_intent canonical_intent)
                   ++ "/" ++ Task.str (task_intent canonical_intent)) in
      (mm, state)
  | Py.Raise e => (mm, set_error state ("Intent parsing failed: " ++ e))
  end.

Definition validate_plan_node (w : World) : World :=
  let (mm, state) := w in
  let state := log state "Validating plan" in
  match canonical_intent state with
  | Some intent =>
      let errors := plan_validator svc intent in
      let state := set_validation_errors state errors in
      let state :=
        if Py.truthy_list errors
        then set_error state ("Validation failed: " ++ Py.join "; " errors)
        else log state "Plan validated successfully" in
      (mm, state)
  | None =>
      (mm, set_error state ("Plan validation failed: "
                            ++ none_has_no_attribute "vessel_scope"))
  end.

Definition resolve_vessels_node (w : World) : World :=
  let (mm, state) := w in
  let state := log state "Resolving vessel identifiers" in
  let fail (state : AgentState) (e : string) : World :=
    (mm, set_error state ("Vessel resolution failed: " ++ e)) in
  match canonical_intent state with
  | None => fail state (none_has_no_attribute "vessel_scope")
  | Some intent =>
      let resolved_ids :=
        if String.eqb (VesselScope.str (vessel_scope intent)) "all"
        then get_all_mmsis svc
        else Py.Ok (VesselResolver.resolve (_verify_mmsi_exists svc)
                      (vessels intent)) in
      match resolved_ids with
      | Py.Raise e => fail state e
      | Py.Ok ids =>
          let state := set_vessel_ids state ids in
          let state :=
            log state ("Resolved " ++ str_nat (List.length ids)
                       ++ " vessel(s)") in
          let tc := time_constraint intent in
          if String.eqb (TimeMode.str (mode tc)) "relative"
          then
            match relative tc with
            | None => fail state (none_has_no_attribute "lower")
            | Some r =>
                match parse_relative_time svc r with
                | Py.Raise e => fail state e
                | Py.Ok (start, end_) =>
                    let state :=
                      set_resolved_time_range state (start, end_) in
                    let state :=
                      log state ("Time range: " ++ str_datetime svc start
                                 ++ " to " ++ str_datetime svc end_) in
                    (mm, state)
                end
            end
          else
            match Schemas.start tc with
            | None => fail state fromisoformat_none
            | Some s =>
                match fromisoformat svc s with
                | Py.Raise e => fail state e
                | Py.Ok start =>
                    match Schemas.end_ tc with
                    | None => fail state fromisoformat_none
                    | Some e' =>
                        match fromisoformat svc e' with
                        | Py.Raise e => fail state e
                        | Py.Ok end_ =>
                            (mm, set_resolved_time_range state (start, end_))
                        end
                    end
                end
            end
      end
  end.

(** [TrajectoryService.fetch_raw_trajectory]: reads the two ends of the time
    range and queries the store; any exception is re-raised. *)
Definition fetch_raw_trajectory (vessel_ids : list string)
  (time_range : option (datetime * datetime)) (limit : Z)
  : Py.result (list TrackPoint.t) :=
  match time_range with
  | None => Py.Raise none_not_subscriptable
  | Some (start, end_) => db_fetch_trajectory svc vessel_ids start end_ limit
  end.

Definition trajectory_pipeline_node (w : World) : World :=
  let (mm, state) := w in
  let state := log state "Fetching trajectory data" in
  let fail (e : string) : World :=
    (mm, set_error state ("Trajectory fetch failed: " ++ e)) in
  match canonical_intent state with
  | None => fail (none_has_no_attribute "output")
  | Some intent =>
      match fetch_raw_trajectory (vessel_ids state)
              (resolved_time_range state) (limit (output intent)) with
      | Py.Raise e => fail e
      | Py.Ok df =>
          let state := set_dataframe state (DataFrame.Points df) in
          let state :=
            log state ("Fetched " ++ str_nat (List.length df)
                       ++ " trajectory points") in
          (mm, state)
      end
  end.

Definition loitering_pipeline_node (w : World) : World :=
  let (mm, state) := w in
  let state := log state "Detecting loitering" in
  let fail (e : string) : World :=
    (mm, set_error state ("Loitering detection failed: " ++ e)) in
  match canonical_intent state with
  | None => fail (none_has_no_attribute "output")
  | Some intent =>
      match fetch_raw_trajectory (vessel_ids state)
              (resolved_time_range state) (limit (output intent) * 10) with
      | Py.Raise e => fail e
      | Py.Ok df =>
          let loitering_df :=
            LoiteringService.detect_loitering (pandas svc)
              (loitering_service svc) df
              None None (Some (spatial_constraint intent)) in
          let state := set_dataframe state (DataFrame.Events loitering_df) in
          let state :=
            log state ("Detected " ++ str_nat (List.length loitering_df)
                       ++ " loitering events") in
          (mm, state)
      end
  end.

Definition response_builder_node (w : World) : World :=
  let (mm, state) := w in
  let state := log state "Building response" in
  let fail (e : string) : World :=
    (mm, set_error state ("Response building failed: " ++ e)) in
  match canonical_intent state with
  | None => fail (none_has_no_attribute "output")
  | Some intent =>
      match ResponseBuilder.build_response (formatter svc) (dataframe state)
              (format (output intent)) (limit (output intent)) with
      | Py.Raise e => fail e
      | Py.Ok response =>
          let state := set_result state response in
          let state := log state "Response built successfully" in
          (* Update memory *)
          let mm := MemoryManager.add_message mm "user" (user_query state) in
          let mm :=
            MemoryManager.add_message mm "assistant"
              (match ResponseBuilder.message response with
               | Some m => m
               | None => EmptyString
               end) in
          let mm := MemoryManager.update_vessel_context mm (vessel_ids state) in
          let mm :=
            MemoryManager.update_intent_context mm
              (Domain.str (domain_intent intent)) in
          (mm, state)
      end
  end.

(** ** Conditional routing *)

Definition should_continue_after_validation (state : AgentState) : string :=
  if Py.truthy_opt_str (error state) || Py.truthy_list (validation_errors state)
  then "error"
  else "continue".

Definition route_by_domain (state : AgentState) : Py.result string :=
  match canonical_intent state with
  | None => Py.Raise (none_has_no_attribute "domain_intent")
  | Some intent =>
      let domain := Domain.str (domain_intent intent) in
      if existsb (String.eqb domain) ["trajectory"; "listing"]
      then Py.Ok "trajectory"
      else if String.eqb domain "loitering" then Py.Ok "loitering"
      else if String.eqb domain "prediction" then Py.Ok "trajectory"
      else Py.Ok "trajectory"
  end.

(** ** Graph construction *)

Inductive Node : Type :=
| resolve_references
| parse_intent
| validate_plan
| resolve_vessels
| trajectory_pipeline
| loitering_pipeline
| response_builder.

Inductive Target : Type :=
| To (n : Node)
| END.

(** [add_node]. *)
Definition node_fn (n : Node) : World -> World :=
  match n with
  | resolve_references => resolve_references_node
  | parse_intent => parse_intent_node
  | validate_plan => validate_plan_node
  | resolve_vessels => resolve_vessels_node
  | trajectory_pipeline => trajectory_pipeline_node
  | loitering_pipeline => loitering_pipeline_node
  | response_builder => response_builder_node
  end.

Definition entry_point : Node := resolve_references.

(** The two mappings given to [add_conditional_edges]. *)
Definition validation_edges : list (string * Target) :=
  [("error", END); ("continue", To resolve_vessels)].

Definition domain_edges : list (string * Target) :=
  [("trajectory", To trajectory_pipeline);
   ("loitering", To loitering_pipeline)].

Fixpoint lookup (key : string) (m : list (string * Target))
  : Py.result Target :=
  match m with
  | [] => Py.Raise ("KeyError: " ++ key)
  | (k, v) :: m' => if String.eqb k key then Py.Ok v else lookup key m'
  end.

(** [add_edge] and [add_conditional_edges]: where the run goes after a node. *)
Definition next (n : Node) (state : AgentState) : Py.result Target :=
  match n with
  | resolve_references => Py.Ok (To parse_intent)
  | parse_intent => Py.Ok (To validate_plan)
  | validate_plan =>
      lookup (should_continue_after_validation state) validation_edges
  | resolve_vessels =>
      match route_by_domain state with
      | Py.Ok key => lookup key domain_edges
      | Py.Raise e => Py.Raise e
      end
  | trajectory_pipeline => Py.Ok (To response_builder)
  | loitering_pipeline => Py.Ok (To response_builder)
  | response_builder => Py.Ok END
  end.

(** One run of the compiled graph: the final memory and state, the stages
    executed in order, and the exception that left the graph, if any. *)
Record Run : Type := mkRun {
  world : World;
  path : list Node;
  raised : option string
}.

(** The number of steps after which the graph library gives up. *)
Definition recursion_limit : nat := 25.

Fixpoint invoke_from (fuel : nat) (n : Node) (w : World) (done : list Node)
  : Run :=
  match fuel with
  | O => mkRun w done (Some "Recursion limit reached")
  | S fuel' =>
      let w' := node_fn n w in
      let done' := (done ++ [n])%list in
      match next n (snd w') with
      | Py.Raise e => mkRun w' done' (Some e)
      | Py.Ok END => mkRun w' done' None
      | Py.Ok (To n') => invoke_from fuel' n' w' done'
      end
  end.

Definition invoke (mm : MemoryManager.t) (initial_state : AgentState) : Run :=
  invoke_from recursion_limit entry_point (mm, initial_state) [].

(** ** main.py: [run_query] *)

Record QueryResult : Type := mkQueryResult {
  qr_success : bool;
  qr_result : option Response;
  qr_execution_log : list string;
  qr_error : option string;
  qr_canonical_intent : option CanonicalIntent;
  qr_vessel_count : nat
}.

Definition is_none {A} (o : option A) : bool :=
  match o with
  | None => true
  | Some _ => false
  end.

(** The dictionary returned by [run_query] and the memory after the run. *)
Definition run_query (mm : MemoryManager.t) (user_query : string)
  (conversation_history : option (list MemoryManager.Message))
  (model_name : string) : MemoryManager.t * QueryResult :=
  let initial_state :=
    create_initial_state user_query conversation_history model_name in
  let r := invoke mm initial_state in
  match raised r with
  | Some e =>
      (fst (world r), mkQueryResult false None [] (Some e) None 0)
  | None =>
      let final_state := snd (world r) in
      (fst (world r),
       mkQueryResult (is_none (error final_state)) (result final_state)
         (execution_log final_state) (error final_state)
         (canonical_intent final_state)
         (List.length (vessel_ids final_state)))
  end.

End Graph.

Arguments AgentState : clear implicits.
Arguments Services : clear implicits.
Arguments World : clear implicits.
Arguments Run : clear implicits.
Arguments QueryResult : clear implicits.

End Graph.

(* ================================================================== *)
(** * Vocabulary of the specification *)
(* ================================================================== *)

Module Spec.

(** A marker occurs in a query, letter case ignored: some part of the query
    reads as the marker once put in lower case. *)
Definition occurs_ci (marker query : string) : Prop :=
  exists pre mid post,
    query = (pre ++ mid ++ post)%string /\ Py.lower mid = marker.

(** The [k]-th most recent entry of a transcript, counted from 1. *)
Definition nth_most_recent {A} (k : nat) (l : list A) : option A :=
  match k with
  | O => None
  | S k' => nth_error (rev l) k'
  end.

(** The last [n] entries of a list. *)
Definition last_n {A} (n : nat) (l : list A) : list A :=
  skipn (List.length l - n) l.

(** The gap between two timestamps, in hours. *)
Definition gap_hours (a b : Z) : Q := LoiteringService.hours (b - a).

(** Every two consecutive timestamps are at most one hour apart. *)
Fixpoint gaps_within_hour (ts : list Z) : Prop :=
  match ts with
  | a :: ((b :: _) as ts') => (gap_hours a b <= 1)%Q /\ gaps_within_hour ts'
  | _ => True
  end.

(** Every segment is followed by one that starts more than one hour after
    its last timestamp. *)
Fixpoint separated (segs : list (list Z)) : Prop :=
  match segs with
  | s1 :: ((s2 :: _) as segs') =>
      (exists a b, hd_error (rev s1) = Some a /\ hd_error s2 = Some b
                   /\ (1 < gap_hours a b)%Q)
      /\ separated segs'
  | _ => True
  end.

(** [lo] and [hi] are the least and the greatest of the timestamps [ts]. *)
Definition bounds (ts : list Z) (lo hi : Z) : Prop :=
  In lo ts /\ In hi ts /\ forall t, In t ts -> lo <= t <= hi.

(** The segmentation as one scan from left to right: a row joins the segment
    of the row after it unless that row is more than one hour later. *)
Definition gap_exceeds (a b : TrackPoint.t) : bool :=
  LoiteringService.Qlt_bool 1
    (gap_hours (TrackPoint.timestamp a) (TrackPoint.timestamp b)).

Fixpoint segments (rows : list TrackPoint.t) : list (list TrackPoint.t) :=
  match rows with
  | [] => []
  | x :: rows' =>
      match rows' with
      | [] => [[x]]
      | y :: _ =>
          if gap_exceeds x y then [x] :: segments rows'
          else match segments rows' with
               | s :: ss => (x :: s) :: ss
               | [] => [[x]]
               end
      end
  end.

(** The analytical stage that answers a domain. *)
Definition stage_of_domain (d : Domain.t) : Graph.Node :=
  match d with
  | Domain.trajectory => Graph.trajectory_pipeline
  | Domain.listing => Graph.trajectory_pipeline
  | Domain.prediction => Graph.trajectory_pipeline
  | Domain.loitering => Graph.loitering_pipeline
  end.

(** The first trace entry of each analytical stage. *)
Definition fetch_marker : string := "Fetching trajectory data".
Definition detect_marker : string := "Detecting loitering".

End Spec.

(* ================================================================== *)
(** * Concrete inputs used by the examples *)
(* ================================================================== *)

Module Examples.

Definition msg_a : MemoryManager.Message :=
  MemoryManager.mkMessage "user" "first".
Definition msg_b : MemoryManager.Message :=
  MemoryManager.mkMessage "assistant" "second".
Definition msg_c : MemoryManager.Message :=
  MemoryManager.mkMessage "user" "third".

(** The reductions of pandas on the inputs of the examples: a time span is
    its nanoseconds divided by 1e9, a column without missing values is
    added up from left to right, its mean is the sum divided by the count,
    and its maximum is found by comparison.  The tracks below span whole
    seconds and every sum of their speeds is exact, so that these are the
    values pandas returns on them whatever its order of summation. *)
Definition numerics : Pandas.Numerics :=
  let sum := fun l => fold_left Float.add l (Float.of_Z 0) in
  Pandas.mkNumerics
    (fun ns => Float.div (Float.of_Z ns) (Float.of_Z 1000000000))
    (fun l => Float.div (sum l) (Float.of_Z (Z.of_nat (List.length l))))
    sum
    (fun l => fold_left (fun a b => if Float.ltb a b then b else a) l
                (hd Float.nan l)).

(** The literals [0.1], [0.5], [1.0], [1.5], [3.0]. *)
Definition tenth : Float.t := Float.div (Float.of_Z 1) (Float.of_Z 10).
Definition half : Float.t := Float.div (Float.of_Z 1) (Float.of_Z 2).
Definition one : Float.t := Float.of_Z 1.
Definition one_and_half : Float.t := Float.div (Float.of_Z 3) (Float.of_Z 2).
Definition three : Float.t := Float.of_Z 3.

(** A track point of a vessel, [minutes] after the epoch, at [knots]. *)
Definition point (vessel : string) (minutes : Z) (knots : Float.t)
  : TrackPoint.t :=
  TrackPoint.mk (minutes * 60 * 1000000000) vessel (Float.of_Z 0)
    (Float.of_Z 0) knots (Float.of_Z 0) false.

(** One vessel, five slow points half an hour to an hour apart (given out of
    order), spanning exactly four hours. *)
Definition dwell_track : list TrackPoint.t :=
  [point "A" 60 one; point "A" 0 one; point "A" 120 half;
   point "A" 240 (Float.of_Z 0); point "A" 180 one].

(** Two points of one vessel six minutes apart, at one knot. *)
Definition short_track : list TrackPoint.t :=
  [point "B" 0 one; point "B" 6 one].

(** The five points of [dwell_track] among points that are not slow: two
    at three knots, one at exactly two knots, and one without a speed. *)
Definition mixed_track : list TrackPoint.t :=
  [point "A" 30 three; point "A" 60 one; point "A" 0 one;
   point "A" 90 (Float.of_Z 2); point "A" 120 half;
   point "A" 240 (Float.of_Z 0); point "A" 150 Float.nan;
   point "A" 180 one; point "A" 300 three].

(** The example of the schema: one vessel by MMSI, the last six hours. *)
Definition schema_example : Schemas.CanonicalIntent :=
  Schemas.mkCanonicalIntent Domain.trajectory Task.show VesselScope.single
    [Schemas.mkVesselIdentifier None (Some "123456789"%string) None]
    (Schemas.mkTimeConstraint TimeMode.relative (Some "last_6h"%string)
       None None)
    (Schemas.mkSpatialConstraint SpatialType.none None None None)
    (Schemas.mkExecutionMode DataSource.raw_ais None)
    (Schemas.mkOutputConfig OutputFormat.table 50).

(** A query for all vessels over the last six hours, as the planner would
    return it. *)
Definition all_vessels_intent : Schemas.CanonicalIntent :=
  Schemas.mkCanonicalIntent Domain.trajectory Task.show VesselScope.all
    []
    (Schemas.mkTimeConstraint TimeMode.relative (Some "last_6h"%string)
       None None)
    (Schemas.mkSpatialConstraint SpatialType.none None None None)
    (Schemas.mkExecutionMode DataSource.raw_ais None)
    (Schemas.mkOutputConfig OutputFormat.table 50).

(** A formatter that reports the number of rows. *)
Definition count_rows (df : DataFrame.t) (fmt : OutputFormat.t) (limit : Z)
  : Py.result (ResponseBuilder.Response unit) :=
  Py.Ok (ResponseBuilder.mkResponse (OutputFormat.str fmt) (Some tt)
           (Some ("Found " ++ Py.str_int (Z.of_nat (DataFrame.len df))
                  ++ " results")%string)
           (Z.of_nat (DataFrame.len df))).

(** Services around a planner that returns [all_vessels_intent]: the
    validator, the list of all vessels and the answer of the position store
    are given; datetimes are integers. *)
Definition services (validate : Schemas.CanonicalIntent -> list string)
  (all_mmsis : Py.result (list string))
  (fetched : Py.result (list TrackPoint.t)) : Graph.Services Z unit :=
  Graph.mkServices
    (fun _ _ _ => Py.Ok all_vessels_intent)
    validate
    all_mmsis
    (fun _ => true)
    (fun _ => Py.Ok (0, 21600000000000))
    (fun _ => Py.Raise "Invalid isoformat string"%string)
    (fun _ _ _ _ => fetched)
    LoiteringService.init
    numerics
    count_rows
    Py.str_int.

(** The validator as shipped, with a rendering of floats and an ISO parser
    that accepts nothing (neither is reached by the examples). *)
Definition shipped_validate : Schemas.CanonicalIntent -> list string :=
  PlanValidator.validate (fun _ => "0.0"%string) Z
    (fun _ => Py.Raise "Invalid isoformat string"%string)
    (fun a b => Py.Ok (a <? b)).

Definition shipped : Graph.Services Z unit :=
  services shipped_validate (Py.Ok ["111111111"%string]) (Py.Ok []).

Definition query : string := "show all vessels".

Definition fresh_state : Graph.AgentState Z unit :=
  Graph.create_initial_state query None "llama3".

End Examples.

(* ================================================================== *)
(** * services/memory_manager.py: the remaining methods *)
(* ================================================================== *)

Module MemoryManagerOps.

Import MemoryManager.

(** [get_recent_context(n)]: [conversation_history[-n:]]. *)
Definition get_recent_context (self : t) (n : Z) : list Message :=
  Py.slice_from (conversation_history self) (- n).

(** [get_context_summary]. *)
Definition get_context_summary (self : t) : string :=
  let summary_parts : list string := [] in
  let summary_parts :=
    if Py.truthy_list (last_mentioned_vessels self)
    then summary_parts
           ++ [("Last vessels: "
                ++ Py.join ", " (last_mentioned_vessels self))%string]
    else summary_parts in
  let summary_parts :=
    match last_intent self with
    | Some i =>
        if Py.truthy_str i
        then summary_parts ++ [("Last intent: " ++ i)%string]
        else summary_parts
    | None => summary_parts
    end in
  let summary_parts :=
    summary_parts
    ++ [("History length: "
         ++ Py.str_int (Z.of_nat (List.length (conversation_history self))))
        %string] in
  Py.join " | " summary_parts.

(** [clear]. *)
Definition clear (self : t) : t := mk (max_history self) [] [] None.

End MemoryManagerOps.

(* ================================================================== *)
(** * The validator's checks, one by one *)
(* ================================================================== *)

Module ValidatorChecks.

Import Schemas.
Local Open Scope string_scope.

(** Every character of [s] satisfies [p]. *)
Definition all_chars (p : ascii -> bool) (s : string) : bool :=
  forallb p (list_ascii_of_string s).

(** An optional text that Python's [not] takes as absent: [None] or the empty
    string. *)
Definition blank (o : option string) : Prop :=
  o = None \/ o = Some EmptyString.

Section Checks.

Variable repr_float : Q -> string.
Variable datetime : Type.
Variable fromisoformat : string -> Py.result datetime.
Variable datetime_lt : datetime -> datetime -> Py.result bool.

(** The check made on one vessel identifier: whether it fires, and its
    message. *)
Definition mmsi_check (vessel : VesselIdentifier) : bool * string :=
  match mmsi vessel with
  | Some m =>
      (Py.truthy_str m && negb (Validators.validate_mmsi m),
       "Invalid MMSI format: " ++ m)
  | None => (false, EmptyString)
  end.

(** Every check of [validate] in the order of the code, each with the
    condition under which it fires and the message it then appends. *)
Definition checks (intent : CanonicalIntent) : list (bool * string) :=
  let tc := time_constraint intent in
  let sc := spatial_constraint intent in
  let em := execution_mode intent in
  [ (String.eqb (VesselScope.str (vessel_scope intent)) "single"
     && negb (Nat.eqb (List.length (vessels intent)) 1),
     "vessel_scope is 'single' but vessels list does not contain exactly 1 vessel");
    (String.eqb (VesselScope.str (vessel_scope intent)) "multiple"
     && (List.length (vessels intent) <? 2)%nat,
     "vessel_scope is 'multiple' but vessels list contains less than 2 vessels");
    (String.eqb (VesselScope.str (vessel_scope intent)) "all"
     && (0 <? List.length (vessels intent))%nat,
     "vessel_scope is 'all' but vessels list is not empty") ]%list
  ++ List.map mmsi_check (vessels intent)
  ++ [ (String.eqb (TimeMode.str (mode tc)) "relative"
        && negb (Py.truthy_opt_str (relative tc)),
        "Time mode is 'relative' but no relative expression provided");
       (String.eqb (TimeMode.str (mode tc)) "absolute"
        && (negb (Py.truthy_opt_str (start tc))
            || negb (Py.truthy_opt_str (end_ tc))),
        "Time mode is 'absolute' but start/end not provided");
       (String.eqb (TimeMode.str (mode tc)) "absolute"
        && negb (negb (Py.truthy_opt_str (start tc))
                 || negb (Py.truthy_opt_str (end_ tc)))
        && negb (Validators.validate_time_range datetime fromisoformat
                   datetime_lt (start tc) (end_ tc)),
        "Invalid time range: start must be before end");
       (String.eqb (SpatialType.str (type sc)) "coastal_distance"
        && match distance_nm sc with
           | None => true
           | Some d => Qle_bool d 0
           end,
        "Spatial type is 'coastal_distance' but distance_nm is invalid");
       (String.eqb (SpatialType.str (type sc)) "polygon"
        && negb (Py.truthy_opt_str (polygon_type sc)),
        "Spatial type is 'polygon' but polygon_type not provided");
       (String.eqb (DataSource.str (data_source em)) "model_inference"
        && negb (Py.truthy_opt_str (model_name em)),
        "Execution mode is 'model_inference' but model_name not provided");
       (String.eqb (Domain.str (domain_intent intent)) "loitering"
        && negb (existsb (String.eqb (Task.str (task_intent intent)))
                   ["detect"; "show"]%string),
        ("Incompatible: domain_intent 'loitering' with task_intent '"
         ++ Task.str (task_intent intent) ++ "'")%string);
       (String.eqb (Domain.str (domain_intent intent)) "prediction"
        && negb (String.eqb (Task.str (task_intent intent)) "predict"),
        ("Incompatible: domain_intent 'prediction' with task_intent '"
         ++ Task.str (task_intent intent) ++ "'")%string) ]%list
  ++ List.map
       (fun keyword =>
          (Py.contains keyword (str_to_dict repr_float intent),
           "Unsafe keyword detected: " ++ keyword))
       PlanValidator.unsafe_keywords.

(** The messages of the checks that fire, in order. *)
Definition fired (cs : list (bool * string)) : list string :=
  List.map snd (filter fst cs).

End Checks.

(** The free-text values of an intent: the identifiers of its vessels and
    the optional texts of its constraints and execution mode. *)
Definition texts (o : option string) : list string :=
  match o with
  | Some s => [s]
  | None => []
  end.

Definition text_values (intent : CanonicalIntent) : list string :=
  flat_map (fun v => texts (imo v) ++ texts (mmsi v) ++ texts (name v))%list
    (vessels intent)
  ++ texts (relative (time_constraint intent))
  ++ texts (start (time_constraint intent))
  ++ texts (end_ (time_constraint intent))
  ++ texts (polygon_type (spatial_constraint intent))
  ++ texts (polygon_id (spatial_constraint intent))
  ++ texts (model_name (execution_mode intent)).

End ValidatorChecks.

(* ================================================================== *)
(** * Reading a run: stage entries and the state without its trace *)
(* ================================================================== *)

Module StageTrace.

Import Graph.
Local Open Scope string_scope.

(** The entry that each stage appends to the trace before anything else. *)
Definition stage_entry (n : Node) : string :=
  match n with
  | resolve_references => "Resolving references"
  | parse_intent => "Parsing intent with LLM"
  | validate_plan => "Validating plan"
  | resolve_vessels => "Resolving vessel identifiers"
  | trajectory_pipeline => "Fetching trajectory data"
  | loitering_pipeline => "Detecting loitering"
  | response_builder => "Building response"
  end.

(** A state with its trace left out. *)
Definition without_log {datetime Data : Type}
  (s : AgentState datetime Data) : AgentState datetime Data :=
  mkState (user_query s) (conversation_history s) (canonical_intent s)
    (validation_errors s) (vessel_ids s) (resolved_time_range s)
    (dataframe s) (result s) [] (error s) (model_name s).

End StageTrace.

(* ================================================================== *)
(** * services/response_builder.py: the three formatters *)
(* ================================================================== *)

Module ResponseFormats.

Import ResponseBuilder.
Local Open Scope string_scope.

(** [df.head(n)]: the first [n] rows, and for a negative [n] all rows but
    the last [-n]. *)
Definition head {A} (n : Z) (rows : list A) : list A :=
  if (0 <=? n)%Z then firstn (Z.to_nat n) rows
  else firstn (Z.to_nat (Z.of_nat (List.length rows) + n)) rows.

Definition head_frame (n : Z) (df : DataFrame.t) : DataFrame.t :=
  match df with
  | DataFrame.Points rows => DataFrame.Points (head n rows)
  | DataFrame.Events rows => DataFrame.Events (head n rows)
  end.

(** [list(df.columns)]: the columns selected by the trajectory query, and
    the keys of the event dictionaries of the detector.  (The column-less
    frame [pd.DataFrame()] is empty and is answered by [build_response]
    before a formatter runs.) *)
Definition columns (df : DataFrame.t) : list string :=
  match df with
  | DataFrame.Points _ =>
      ["timestamp"; "latitude"; "longitude"; "mmsi"; "sog"; "cog";
       "interpolated"]
  | DataFrame.Events _ =>
      ["mmsi"; "start_time"; "end_time"; "dwell_time_hours";
       "center_latitude"; "center_longitude"; "num_points"; "avg_speed"]
  end.

(** One feature of the map: [coordinates] is [[longitude, latitude]], the
    properties are the other columns of the row. *)
Record Feature : Type := mkFeature {
  coordinates : Float.t * Float.t;
  prop_timestamp : Z;
  prop_mmsi : string;
  prop_sog : Float.t;
  prop_cog : Float.t;
  prop_interpolated : bool
}.

(** The values under ["data"] (for a table, with the value under
    ["columns"]). *)
Inductive Payload : Type :=
| Table (cols : list string) (records : DataFrame.t)
| FeatureCollection (features : list Feature)
| Text (s : string).

Definition str_len (n : nat) : string := Py.str_int (Z.of_nat n).

Definition build_table_response (df : DataFrame.t) : Response Payload :=
  mkResponse "table" (Some (Table (columns df) df))
    (Some ("Found " ++ str_len (DataFrame.len df) ++ " results"))
    (Z.of_nat (DataFrame.len df)).

Definition feature_of (row : TrackPoint.t) : Feature :=
  mkFeature (TrackPoint.longitude row, TrackPoint.latitude row)
    (TrackPoint.timestamp row) (TrackPoint.mmsi row) (TrackPoint.sog row)
    (TrackPoint.cog row) (TrackPoint.interpolated row).

Definition build_map_response (df : DataFrame.t) : Response Payload :=
  if negb (existsb (String.eqb "latitude") (columns df))
     || negb (existsb (String.eqb "longitude") (columns df))
  then build_table_response df
  else
    match df with
    | DataFrame.Points rows =>
        let features := List.map feature_of rows in
        mkResponse "map" (Some (FeatureCollection features))
          (Some ("Found " ++ str_len (List.length features) ++ " points"))
          (Z.of_nat (List.length features))
    | DataFrame.Events _ => build_table_response df
    end.

Section Summary.

(** [f"{x:.2f}"] and [str] of a timestamp belong to Python and pandas, and
    so do the reductions of a column. *)
Variable format_2f : Float.t -> string.
Variable str_timestamp : Z -> string.
Variable pd : Pandas.Numerics.

Definition build_summary (df : DataFrame.t) : Response Payload :=
  if DataFrame.empty df
  then mkResponse "summary" (Some (Text "No results found")) None 0
  else
    let summary_parts : list string :=
      [("Found " ++ str_len (DataFrame.len df) ++ " records")%string] in
    let mmsis :=
      match df with
      | DataFrame.Points rows => List.map TrackPoint.mmsi rows
      | DataFrame.Events rows => List.map LoiteringEvent.mmsi rows
      end in
    let summary_parts :=
      if existsb (String.eqb "mmsi") (columns df)
      then (summary_parts
            ++ [("from "
                 ++ str_len (List.length (Pandas.unique String.eqb mmsis))
                 ++ " vessel(s)")%string])%list
      else summary_parts in
    let summary_parts :=
      match df with
      | DataFrame.Points (row :: rows) =>
          let ts := List.map TrackPoint.timestamp rows in
          let start_time := Pandas.min (TrackPoint.timestamp row) ts in
          let end_time := Pandas.max (TrackPoint.timestamp row) ts in
          (summary_parts
           ++ [("between " ++ str_timestamp start_time ++ " and "
                ++ str_timestamp end_time)%string])%list
      | _ => summary_parts
      end in
    let summary_parts :=
      match df with
      | DataFrame.Points (row :: rows) =>
          let avg_speed :=
            Pandas.series_mean pd (List.map TrackPoint.sog (row :: rows)) in
          let max_speed :=
            Pandas.series_max pd (List.map TrackPoint.sog (row :: rows)) in
          (summary_parts
           ++ [("Average speed: " ++ format_2f avg_speed
                ++ " knots, Max speed: " ++ format_2f max_speed
                ++ " knots")%string])%list
      | _ => summary_parts
      end in
    let summary_parts :=
      match df with
      | DataFrame.Events rows =>
          let dwell := List.map LoiteringEvent.dwell_time_hours rows in
          let total_dwell := Pandas.series_sum pd dwell in
          let avg_dwell := Pandas.series_mean pd dwell in
          (summary_parts
           ++ [("Total dwell time: " ++ format_2f total_dwell
                ++ " hours, Average: " ++ format_2f avg_dwell
                ++ " hours")%string])%list
      | _ => summary_parts
      end in
    let summary_text := Py.join ". " summary_parts ++ "." in
    mkResponse "summary" (Some (Text summary_text)) (Some summary_text)
      (Z.of_nat (DataFrame.len df)).

(** The part of [build_response] after the test for an empty frame: the
    limit, then the formatter of the requested format.  No formatter
    raises. *)
Definition formatter (df : DataFrame.t) (output_format : OutputFormat.t)
  (limit : Z) : Py.result (Response Payload) :=
  let df_limited := head_frame limit df in
  if String.eqb (OutputFormat.str output_format) "table"
  then Py.Ok (build_table_response df_limited)
  else if String.eqb (OutputFormat.str output_format) "map"
  then Py.Ok (build_map_response df_limited)
  else if String.eqb (OutputFormat.str output_format) "summary"
  then Py.Ok (build_summary df_limited)
  else Py.Ok (build_table_response df_limited).

(** [ResponseBuilder.build_response] with its own formatters. *)
Definition build_response (df : option DataFrame.t)
  (output_format : OutputFormat.t) (limit : Z)
  : Py.result (Response Payload) :=
  ResponseBuilder.build_response formatter df output_format limit.

End Summary.

End ResponseFormats.

(* ================================================================== *)
(** * utils/validators.py: relative time expressions *)
(* ================================================================== *)

Module RelativeTime.

(** A naive [datetime] is the number of microseconds since
    [datetime.min] = 0001-01-01T00:00:00 (a Monday); a [timedelta] is a
    number of microseconds. *)
Definition us_per_hour : Z := 3600000000.
Definition us_per_day : Z := 86400000000.

(** [datetime.max] = 9999-12-31T23:59:59.999999. *)
Definition datetime_max : Z := 3652059 * us_per_day - 1.

(** The text of the exceptions raised by date arithmetic out of range; the
    model keeps the class only (the message depends on the size of the
    number). *)
Definition overflow : string := "OverflowError".

(** [timedelta(hours=h)], [timedelta(days=d)] for a count that is not
    negative: more than 999999999 days is refused. *)
Definition timedelta (us : Z) : Py.result Z :=
  if 999999999 <? us / us_per_day then Py.Raise overflow else Py.Ok us.

(** [t - delta]: a date before [datetime.min] is refused. *)
Definition minus (t delta : Z) : Py.result Z :=
  if t - delta <? 0 then Py.Raise overflow else Py.Ok (t - delta).

Definition bind {A B} (x : Py.result A) (f : A -> Py.result B)
  : Py.result B :=
  match x with
  | Py.Ok a => f a
  | Py.Raise e => Py.Raise e
  end.

(** [t.replace(hour=0, minute=0, second=0, microsecond=0)] and
    [t.replace(hour=23, minute=59, second=59, microsecond=999999)]. *)
Definition midnight (t : Z) : Z := t - t mod us_per_day.
Definition end_of_day (t : Z) : Z := midnight t + us_per_day - 1.

(** [t.weekday()]: Monday is 0, Sunday is 6. *)
Definition weekday (t : Z) : Z := (t / us_per_day) mod 7.

(** The longest run of decimal digits at the head of a text, and the text
    left. *)
Fixpoint span_digits (s : string) : string * string :=
  match s with
  | EmptyString => (EmptyString, s)
  | String c s' =>
      if Validators.is_digit c
      then let (ds, rest) := span_digits s' in (String c ds, rest)
      else (EmptyString, s)
  end.

Fixpoint strip_prefix (p s : string) : option string :=
  match p with
  | EmptyString => Some s
  | String a p' =>
      match s with
      | EmptyString => None
      | String b s' => if Ascii.eqb a b then strip_prefix p' s' else None
      end
  end.

(** [re.match(r'last_(\d+)h', s)] and [re.match(r'last_(\d+)d', s)]: the
    text starts with "last_", one or more digits and the unit; what follows
    is not looked at.  The result is [match.group(1)], the digits. *)
Definition re_match_last (unit : ascii) (s : string) : option string :=
  match strip_prefix "last_" s with
  | None => None
  | Some rest =>
      match span_digits rest with
      | (String d ds, String c _) =>
          if Ascii.eqb c unit then Some (String d ds) else None
      | _ => None
      end
  end.

(** The value of a text of decimal digits. *)
Definition decimal (ds : string) : Z :=
  fold_left (fun acc c => 10 * acc + (Z.of_nat (nat_of_ascii c) - 48))
    (list_ascii_of_string ds) 0.

(** [int(ds)] of a text of decimal digits: a text of more than 4300 digits,
    leading zeros included, is refused with a [ValueError] (the limit on
    integer string conversion of Python 3.11 and later). *)
Definition int_max_str_digits : nat := 4300.
Definition value_error : string := "ValueError".

Definition int (ds : string) : Py.result Z :=
  if (int_max_str_digits <? String.length ds)%nat then Py.Raise value_error
  else Py.Ok (decimal ds).

(** [parse_relative_time], with the clock ([datetime.now()]) as [now]. *)
Definition parse_relative_time (now : Z) (relative_expr : string)
  : Py.result (Z * Z) :=
  let relative_expr := Py.strip (Py.lower relative_expr) in
  match re_match_last "h" relative_expr with
  | Some group =>
      bind (int group) (fun hours =>
      bind (timedelta (hours * us_per_hour)) (fun d =>
      bind (minus now d) (fun start =>
      Py.Ok (start, now))))
  | None =>
  match re_match_last "d" relative_expr with
  | Some group =>
      bind (int group) (fun days =>
      bind (timedelta (days * us_per_day)) (fun d =>
      bind (minus now d) (fun start =>
      Py.Ok (start, now))))
  | None =>
  if String.eqb relative_expr "last_week"
  then bind (minus now (7 * us_per_day)) (fun start => Py.Ok (start, now))
  else if String.eqb relative_expr "last_weekend"
  then
    let days_since_sunday := (weekday now + 1) mod 7 in
    let days_since_sunday :=
      if days_since_sunday =? 0 then 7 else days_since_sunday in
    bind (minus now (days_since_sunday * us_per_day)) (fun last_sunday =>
    bind (minus last_sunday us_per_day) (fun last_saturday =>
    let start := midnight last_saturday in
    let end_ := end_of_day last_sunday in
    Py.Ok (start, end_)))
  else if String.eqb relative_expr "today"
  then Py.Ok (midnight now, now)
  else if String.eqb relative_expr "yesterday"
  then
    bind (minus now us_per_day) (fun yesterday =>
    Py.Ok (midnight yesterday, end_of_day yesterday))
  else
    bind (minus now us_per_day) (fun start => Py.Ok (start, now))
  end
  end.

End RelativeTime.

(* ================================================================== *)
(** * Strings: substring search and lower case *)
(* ================================================================== *)

Section StringFacts.

Local Open Scope string_scope.

Lemma prefix_app (a b : string) : String.prefix a (a ++ b) = true.
Proof.
  induction a as [|c a IH]; simpl.
  - now destruct b.
  - destruct (ascii_dec c c) as [_|n]; [exact IH | now destruct n].
Qed.

Lemma prefix_inv (a s : string) :
  String.prefix a s = true -> exists b, s = a ++ b.
Proof.
  revert s; induction a as [|c a IH]; intros s H.
  - now exists s.
  - destruct s as [|d s]; simpl in H; [discriminate|].
    destruct (ascii_dec c d) as [->|_]; [|discriminate].
    destruct (IH _ H) as [b ->]. now exists b.
Qed.

Lemma contains_prefix (sub s : string) :
  String.prefix sub s = true -> Py.contains sub s = true.
Proof. intros H. destruct s; cbn [Py.contains]; now rewrite H. Qed.

Lemma contains_app (sub pre post : string) :
  Py.contains sub (pre ++ sub ++ post) = true.
Proof.
  induction pre as [|c pre IH].
  - cbn [append]. apply contains_prefix, prefix_app.
  - change (String c pre ++ sub ++ post) with (String c (pre ++ sub ++ post)).
    cbn [Py.contains]. rewrite IH. now destruct (String.prefix sub _).
Qed.

Lemma contains_inv (sub s : string) :
  Py.contains sub s = true -> exists pre post, s = pre ++ sub ++ post.
Proof.
  induction s as [|c s IH]; cbn [Py.contains]; intros H.
  - destruct (String.prefix sub EmptyString) eqn:E; [|discriminate].
    destruct (prefix_inv _ _ E) as [b Hb]. now exists EmptyString, b.
  - destruct (String.prefix sub (String c s)) eqn:E.
    + destruct (prefix_inv _ _ E) as [b Hb]. now exists EmptyString, b.
    + destruct (IH H) as (pre & post & ->).
      now exists (String c pre), post.
Qed.

Lemma contains_iff (sub s : string) :
  Py.contains sub s = true <-> exists pre post, s = pre ++ sub ++ post.
Proof.
  split; [apply contains_inv|].
  intros (pre & post & ->). apply contains_app.
Qed.

Lemma lower_app (a b : string) :
  Py.lower (a ++ b) = Py.lower a ++ Py.lower b.
Proof. induction a as [|c a IH]; simpl; [reflexivity | now rewrite IH]. Qed.

Lemma lower_app_inv (s a b : string) :
  Py.lower s = a ++ b ->
  exists s1 s2, s = s1 ++ s2 /\ Py.lower s1 = a /\ Py.lower s2 = b.
Proof.
  revert s; induction a as [|c a IH]; intros s H.
  - now exists EmptyString, s.
  - destruct s as [|d s]; simpl in H; [discriminate|].
    injection H as Hc Hs. destruct (IH _ Hs) as (s1 & s2 & -> & H1 & H2).
    exists (String d s1), s2. simpl. now rewrite Hc, H1.
Qed.

Lemma contains_lower_iff (marker query : string) :
  Py.contains marker (Py.lower query) = true <-> Spec.occurs_ci marker query.
Proof.
  rewrite contains_iff. split.
  - intros (a & b & H).
    destruct (lower_app_inv _ _ _ H) as (pre & rest & -> & Hpre & Hrest).
    destruct (lower_app_inv _ _ _ Hrest) as (mid & post & -> & Hmid & Hpost).
    now exists pre, mid, post.
  - intros (pre & mid & post & -> & Hmid).
    exists (Py.lower pre), (Py.lower post).
    now rewrite !lower_app, Hmid.
Qed.

Lemma any_marker_iff (markers : list string) (query : string) :
  Py.any (fun m => Py.contains m (Py.lower query)) markers = true
  <-> exists m, In m markers /\ Spec.occurs_ci m query.
Proof.
  unfold Py.any. rewrite existsb_exists.
  split; intros (m & Hin & H); exists m; split; auto;
    now apply contains_lower_iff.
Qed.

End StringFacts.

(* ================================================================== *)
(** * Conversational memory *)
(* ================================================================== *)

Section MemoryFacts.

Import MemoryManager.

Lemma truthy_list_true {A} (l : list A) : Py.truthy_list l = true <-> l <> [].
Proof. destruct l; simpl; split; congruence. Qed.

Lemma last_n_all {A} (n : nat) (l : list A) :
  (List.length l <= n)%nat -> Spec.last_n n l = l.
Proof.
  intros H. unfold Spec.last_n.
  replace (List.length l - n)%nat with 0%nat by lia. reflexivity.
Qed.

Lemma last_n_length {A} (n : nat) (l : list A) :
  List.length (Spec.last_n n l) = Nat.min n (List.length l).
Proof. unfold Spec.last_n. rewrite length_skipn. lia. Qed.

Lemma skipn_app_le {A} (k : nat) (l1 l2 : list A) :
  (k <= List.length l1)%nat -> skipn k (l1 ++ l2) = skipn k l1 ++ l2.
Proof.
  intros H. rewrite skipn_app.
  replace (k - List.length l1)%nat with 0%nat by lia. reflexivity.
Qed.

(** Keeping the last [n] entries before an append changes nothing once the
    last [n] entries are kept after it. *)
Lemma last_n_snoc {A} (n : nat) (l : list A) (x : A) :
  (1 <= n)%nat ->
  Spec.last_n n (Spec.last_n n l ++ [x]) = Spec.last_n n (l ++ [x]).
Proof.
  intros Hn. unfold Spec.last_n at 1 3.
  rewrite !length_app, last_n_length. simpl.
  destruct (Nat.le_gt_cases (List.length l) n) as [Hle|Hgt].
  - rewrite (last_n_all n l Hle). f_equal. lia.
  - unfold Spec.last_n.
    rewrite (skipn_app_le (List.length l + 1 - n) l [x]) by lia.
    rewrite (skipn_app_le (Nat.min n (List.length l) + 1 - n)) by
      (rewrite length_skipn; lia).
    rewrite skipn_skipn. f_equal. f_equal. lia.
Qed.

Lemma hd_error_last_n {A} (n : nat) (l : list A) :
  (1 <= n <= List.length l)%nat ->
  hd_error (Spec.last_n n l) = Spec.nth_most_recent n l.
Proof.
  intros [H1 H2]. unfold Spec.last_n, Spec.nth_most_recent.
  destruct n as [|k]; [lia|].
  set (d := (List.length l - S k)%nat).
  assert (Hrev : rev l = rev (skipn d l) ++ rev (firstn d l)).
  { rewrite <- rev_app_distr, firstn_skipn. reflexivity. }
  rewrite Hrev.
  assert (Hlen : List.length (skipn d l) = S k)
    by (rewrite length_skipn; lia).
  destruct (skipn d l) as [|y t]; [discriminate|].
  simpl in Hlen. simpl.
  rewrite nth_error_app1 by (rewrite length_app, length_rev; simpl; lia).
  rewrite nth_error_app2 by (rewrite length_rev; lia).
  rewrite length_rev.
  replace (k - List.length t)%nat with 0%nat by lia. reflexivity.
Qed.

Lemma slice_from_last_n {A} (l : list A) (m : Z) :
  1 <= m -> Py.slice_from l (- m) = Spec.last_n (Z.to_nat m) l.
Proof.
  intros Hm. unfold Py.slice_from, Spec.last_n.
  destruct (Z.ltb_spec (- m) 0) as [_|]; [|lia].
  f_equal. lia.
Qed.

(** One [add_message] keeps the last [max_history] entries of the
    transcript extended by the new entry. *)
Lemma add_message_history (self : t) (r c : string) :
  1 <= max_history self ->
  conversation_history (add_message self r c)
  = Spec.last_n (Z.to_nat (max_history self))
      (conversation_history self ++ [mkMessage r c])
  /\ max_history (add_message self r c) = max_history self
  /\ last_mentioned_vessels (add_message self r c)
     = last_mentioned_vessels self
  /\ last_intent (add_message self r c) = last_intent self.
Proof.
  intros Hm. unfold add_message. cbn [set_history conversation_history
    max_history].
  destruct (Z.gtb_spec
              (Z.of_nat (List.length
                           (conversation_history self ++ [mkMessage r c])))
              (max_history self)) as [Hgt|Hle]; cbn.
  - rewrite slice_from_last_n by assumption. auto.
  - rewrite last_n_all by lia. auto.
Qed.

Lemma add_messages_history (msgs : list Message) :
  forall self : t,
    1 <= max_history self ->
    conversation_history (add_messages self msgs)
    = fold_left
        (fun h m => Spec.last_n (Z.to_nat (max_history self)) (h ++ [m]))
        msgs (conversation_history self)
    /\ max_history (add_messages self msgs) = max_history self.
Proof.
  induction msgs as [|m msgs IH]; intros self Hm; [now split|].
  cbn [add_messages fold_left].
  destruct (add_message_history self (role m) (content m) Hm)
    as (Hh & Hx & _).
  fold (add_messages (add_message self (role m) (content m)) msgs).
  destruct (IH (add_message self (role m) (content m))) as [IH1 IH2];
    [now rewrite Hx|].
  rewrite IH1, IH2, Hx, Hh. now destruct m.
Qed.

Lemma fold_last_n {A} (n : nat) (msgs : list A) :
  (1 <= n)%nat ->
  forall h,
    fold_left (fun h m => Spec.last_n n (h ++ [m])) msgs (Spec.last_n n h)
    = Spec.last_n n (h ++ msgs).
Proof.
  intros Hn. induction msgs as [|m msgs IH]; intros h; cbn [fold_left].
  - now rewrite app_nil_r.
  - rewrite last_n_snoc by assumption. rewrite IH.
    now rewrite <- app_assoc.
Qed.

End MemoryFacts.

Section MemoryClaims.

Import MemoryManager.

(** C6 (amended).  For a configured maximum of at least 1 and a memory whose
    transcript is within the bound, after any sequence of [add_message]
    calls the transcript is within the bound and holds exactly the most
    recent entries, oldest first; once more entries exist than the maximum,
    its length is exactly the maximum and its oldest entry is the
    [max_history]-th most recent of all entries. *)
Theorem add_messages_bounded_fifo (self : t) (msgs : list Message) :
  1 <= max_history self ->
  Z.of_nat (List.length (conversation_history self)) <= max_history self ->
  let entries := conversation_history self ++ msgs in
  let h := conversation_history (add_messages self msgs) in
  Z.of_nat (List.length h) <= max_history self
  /\ h = Spec.last_n (Z.to_nat (max_history self)) entries
  /\ (max_history self < Z.of_nat (List.length entries) ->
      Z.of_nat (List.length h) = max_history self
      /\ hd_error h
         = Spec.nth_most_recent (Z.to_nat (max_history self)) entries).
Proof.
  intros Hm Hlen entries h.
  assert (Hh : h = Spec.last_n (Z.to_nat (max_history self)) entries).
  { unfold h, entries.
    destruct (add_messages_history msgs self Hm) as [-> _].
    rewrite <- (last_n_all (Z.to_nat (max_history self))
                  (conversation_history self)) at 1 by lia.
    apply fold_last_n. lia. }
  split; [|split]; [| exact Hh |].
  - rewrite Hh, last_n_length. lia.
  - intros Hover. rewrite Hh. split.
    + rewrite last_n_length. lia.
    + apply hd_error_last_n. lia.
Qed.

(** The bound at work: a maximum of 2 and three entries appended to a fresh
    memory. *)
Lemma add_messages_bounded_fifo_witness :
  let self := init 2 in
  let entries := [Examples.msg_a; Examples.msg_b; Examples.msg_c] in
  let h := conversation_history (add_messages self entries) in
  Z.of_nat (List.length h) <= 2
  /\ h = Spec.last_n 2 entries
  /\ (2 < Z.of_nat (List.length entries) ->
      Z.of_nat (List.length h) = 2
      /\ hd_error h = Spec.nth_most_recent 2 entries).
Proof.
  apply (add_messages_bounded_fifo (init 2)
           [Examples.msg_a; Examples.msg_b; Examples.msg_c]); simpl; lia.
Defined.

(** C6 as stated fails.  With a maximum of 2 and three appended entries the
    transcript keeps the second and third: its oldest entry is the 2nd most
    recent one, while the 3rd ([max+1]-th) most recent entry is the first,
    which was evicted (and the 3rd entry in order of arrival is the newest
    one).  With a maximum of 0 nothing is evicted: the slice [history[-0:]]
    is the whole list, and the length exceeds the maximum. *)
Lemma add_messages_eviction_counterexample :
  let entries := [Examples.msg_a; Examples.msg_b; Examples.msg_c] in
  let h := conversation_history (add_messages (init 2) entries) in
  h = [Examples.msg_b; Examples.msg_c]
  /\ Spec.nth_most_recent (2 + 1) entries = Some Examples.msg_a
  /\ hd_error h <> Spec.nth_most_recent (2 + 1) entries
  /\ hd_error h <> nth_error entries 2
  /\ conversation_history (add_messages (init 0) [Examples.msg_a])
     = [Examples.msg_a]
  /\ ~ Z.of_nat (List.length
                   (conversation_history
                      (add_messages (init 0) [Examples.msg_a]))) <= 0.
Proof.
  cbv zeta. repeat split; try reflexivity.
  - discriminate.
  - discriminate.
  - vm_compute. intros H. apply H. reflexivity.
Qed.


End MemoryClaims.

(* ================================================================== *)
(** * Sorting and grouping *)
(* ================================================================== *)

Section SortFacts.

Context {A : Type}.
Variable leb : A -> A -> bool.

Definition le_by (a b : A) : Prop := leb a b = true.

Hypothesis leb_total : forall a b, leb a b = false -> leb b a = true.
Hypothesis leb_trans :
  forall a b c, leb a b = true -> leb b c = true -> leb a c = true.

Lemma insert_perm (x : A) (l : list A) :
  Permutation (Pandas.insert leb x l) (x :: l).
Proof.
  induction l as [|y l IH]; simpl; [reflexivity|].
  destruct (leb x y); [reflexivity|].
  rewrite IH. apply perm_swap.
Qed.

Lemma sort_perm (l : list A) : Permutation (Pandas.sort leb l) l.
Proof.
  induction l as [|x l IH]; simpl; [reflexivity|].
  rewrite insert_perm. now constructor.
Qed.

Lemma In_sort (x : A) (l : list A) : In x (Pandas.sort leb l) <-> In x l.
Proof.
  split; apply Permutation_in; [|symmetry]; apply sort_perm.
Qed.

Lemma sort_length (l : list A) :
  List.length (Pandas.sort leb l) = List.length l.
Proof. apply Permutation_length, sort_perm. Qed.

Lemma insert_sorted (x : A) (l : list A) :
  StronglySorted le_by l -> StronglySorted le_by (Pandas.insert leb x l).
Proof.
  induction 1 as [|y l Hs IH Hy]; simpl.
  - repeat constructor.
  - destruct (leb x y) eqn:E.
    + constructor; [now constructor|].
      constructor; [exact E|].
      rewrite Forall_forall in *. intros z Hz.
      apply (leb_trans x y z E), Hy, Hz.
    + constructor; [exact IH|].
      rewrite Forall_forall in *. intros z Hz.
      apply (Permutation_in _ (insert_perm x l)) in Hz.
      destruct Hz as [<-|Hz]; [now apply leb_total | now apply Hy].
Qed.

Lemma sort_sorted (l : list A) : StronglySorted le_by (Pandas.sort leb l).
Proof.
  induction l as [|x l IH]; simpl; [constructor | now apply insert_sorted].
Qed.

Lemma insert_min (x : A) (l : list A) :
  (forall y, In y l -> leb x y = true) -> Pandas.insert leb x l = x :: l.
Proof.
  destruct l as [|y l]; simpl; [reflexivity|].
  intros H. now rewrite (H y (or_introl eq_refl)).
Qed.


End SortFacts.

Lemma map_insert {A B} (f : A -> B) (lebA : A -> A -> bool)
  (lebB : B -> B -> bool) (x : A) (l : list A) :
  (forall a b, lebB (f a) (f b) = lebA a b) ->
  List.map f (Pandas.insert lebA x l) = Pandas.insert lebB (f x) (List.map f l).
Proof.
  intros H. induction l as [|y l IH]; simpl; [reflexivity|].
  rewrite H. destruct (lebA x y); simpl; [reflexivity | now rewrite IH].
Qed.

Lemma map_sort {A B} (f : A -> B) (lebA : A -> A -> bool)
  (lebB : B -> B -> bool) (l : list A) :
  (forall a b, lebB (f a) (f b) = lebA a b) ->
  List.map f (Pandas.sort lebA l) = Pandas.sort lebB (List.map f l).
Proof.
  intros H. induction l as [|x l IH]; simpl; [reflexivity|].
  now rewrite (map_insert f lebA lebB), IH.
Qed.

Section GroupByFacts.

Context {A K : Type}.
Variable eqb : K -> K -> bool.
Hypothesis eqb_spec : forall a b, eqb a b = true <-> a = b.

Lemma existsb_eqb (k : K) (l : list K) :
  existsb (eqb k) l = true <-> In k l.
Proof.
  rewrite existsb_exists. split.
  - intros (x & Hx & E). apply eqb_spec in E. now subst.
  - intros H. exists k. split; [exact H | now apply eqb_spec].
Qed.

Lemma In_unique (k : K) (l : list K) :
  In k (Pandas.unique eqb l) <-> In k l.
Proof.
  induction l as [|x l IH]; simpl; [tauto|].
  destruct (existsb (eqb x) l) eqn:E.
  - rewrite IH. apply existsb_eqb in E. split; [auto|].
    intros [<-|H]; auto.
  - simpl. now rewrite IH.
Qed.

Lemma NoDup_unique (l : list K) : NoDup (Pandas.unique eqb l).
Proof.
  induction l as [|x l IH]; simpl; [constructor|].
  destruct (existsb (eqb x) l) eqn:E; [exact IH|].
  constructor; [|exact IH].
  rewrite In_unique, <- existsb_eqb, E. discriminate.
Qed.

Lemma filter_none (key : A -> K) (k : K) (rows : list A) :
  ~ In k (List.map key rows) ->
  filter (fun r => eqb (key r) k) rows = [].
Proof.
  induction rows as [|r rows IH]; simpl; [reflexivity|].
  intros H. destruct (eqb (key r) k) eqn:E.
  - apply eqb_spec in E. tauto.
  - apply IH. tauto.
Qed.

Lemma filter_all (key : A -> K) (k : K) (rows : list A) :
  (forall r, In r rows -> key r = k) ->
  filter (fun r => eqb (key r) k) rows = rows.
Proof.
  induction rows as [|r rows IH]; simpl; [reflexivity|].
  intros H. rewrite (proj2 (eqb_spec _ _) (H r (or_introl eq_refl))).
  rewrite IH; auto.
Qed.

Lemma unique_constant (k : K) (l : list K) :
  l <> [] -> (forall x, In x l -> x = k) -> Pandas.unique eqb l = [k].
Proof.
  induction l as [|x l IH]; [congruence|]. intros _ H. simpl.
  assert (x = k) as -> by (apply H; now left).
  destruct l as [|y l]; [reflexivity|].
  assert (E : existsb (eqb k) (y :: l) = true).
  { apply existsb_eqb. left. apply H. right. now left. }
  rewrite E. apply IH; [discriminate|]. intros z Hz. apply H. now right.
Qed.

(** A frame whose rows all carry the same key has one group: itself. *)
Lemma groupby_constant (leb : K -> K -> bool) (key : A -> K) (k : K)
  (rows : list A) :
  rows <> [] -> (forall r, In r rows -> key r = k) ->
  Pandas.groupby eqb leb key rows = [(k, rows)].
Proof.
  intros Hne H. unfold Pandas.groupby.
  rewrite (unique_constant k).
  - simpl. now rewrite filter_all.
  - destruct rows; [congruence | discriminate].
  - intros x Hx. apply in_map_iff in Hx. destruct Hx as (r & <- & Hr). auto.
Qed.

End GroupByFacts.

Section GroupByNat.

Context {A : Type}.

Let KeySort (l : list (nat * A)) : list nat :=
  Pandas.sort Nat.leb (Pandas.unique Nat.eqb (List.map fst l)).

Lemma nat_leb_total (a b : nat) : Nat.leb a b = false -> Nat.leb b a = true.
Proof. rewrite Nat.leb_gt, Nat.leb_le. lia. Qed.

Lemma nat_leb_trans (a b c : nat) :
  Nat.leb a b = true -> Nat.leb b c = true -> Nat.leb a c = true.
Proof. rewrite !Nat.leb_le. lia. Qed.

Lemma groupby_nat_unfold (l : list (nat * A)) :
  Pandas.groupby Nat.eqb Nat.leb fst l
  = List.map (fun k => (k, filter (fun r => Nat.eqb (fst r) k) l))
      (KeySort l).
Proof. reflexivity. Qed.

Lemma In_KeySort (k : nat) (l : list (nat * A)) :
  In k (KeySort l) <-> In k (List.map fst l).
Proof.
  unfold KeySort. rewrite In_sort. apply In_unique, Nat.eqb_eq.
Qed.

Lemma NoDup_KeySort (l : list (nat * A)) : NoDup (KeySort l).
Proof.
  unfold KeySort.
  apply (Permutation_NoDup
           (l := Pandas.unique Nat.eqb (List.map fst l))).
  - symmetry. apply sort_perm.
  - apply NoDup_unique, Nat.eqb_eq.
Qed.

Lemma map_groups_other (p : nat * A) (l : list (nat * A)) (ks : list nat) :
  ~ In (fst p) ks ->
  List.map (fun k => (k, filter (fun r => Nat.eqb (fst r) k) (p :: l))) ks
  = List.map (fun k => (k, filter (fun r => Nat.eqb (fst r) k) l)) ks.
Proof.
  intros H. apply map_ext_in. intros k Hk. cbn [filter].
  destruct (Nat.eqb_spec (fst p) k) as [E|_]; [|reflexivity].
  now subst k.
Qed.

(** Adding a first row whose key is not above the keys that follow either
    opens a new first group or joins the first group. *)
Lemma groupby_cons (p : nat * A) (l : list (nat * A)) :
  (forall q, In q l -> (fst p <= fst q)%nat) ->
  Pandas.groupby Nat.eqb Nat.leb fst (p :: l)
  = match Pandas.groupby Nat.eqb Nat.leb fst l with
    | (k, g) :: rest =>
        if Nat.eqb k (fst p) then (k, p :: g) :: rest
        else (fst p, [p]) :: (k, g) :: rest
    | [] => [(fst p, [p])]
    end.
Proof.
  intros Hle.
  assert (Hlow : forall k, In k (KeySort l) -> (fst p <= k)%nat).
  { intros k Hk. apply In_KeySort, in_map_iff in Hk.
    destruct Hk as (q & <- & Hq). auto. }
  rewrite !groupby_nat_unfold.
  unfold KeySort at 1. cbn [List.map Pandas.unique].
  destruct (existsb (Nat.eqb (fst p)) (List.map fst l)) eqn:E.
  - (* the key already occurs: it is the least key *)
    fold (KeySort l).
    assert (Hin : In (fst p) (KeySort l)).
    { apply In_KeySort. apply (existsb_eqb Nat.eqb Nat.eqb_eq). exact E. }
    pose proof (NoDup_KeySort l) as Hnd.
    pose proof (sort_sorted Nat.leb nat_leb_total nat_leb_trans
                  (Pandas.unique Nat.eqb (List.map fst l))) as Hs.
    fold (KeySort l) in Hs.
    destruct (KeySort l) as [|k0 ks] eqn:EK; [contradiction|].
    assert (k0 = fst p) as ->.
    { apply Nat.le_antisymm; [|apply Hlow; now left].
      destruct Hin as [->|Hin]; [lia|].
      inversion Hs as [|? ? _ Hall]; subst.
      rewrite Forall_forall in Hall. apply Nat.leb_le, Hall, Hin. }
    inversion Hnd as [|? ? Hnotin _]; subst.
    cbn [List.map]. rewrite (map_groups_other p l ks Hnotin).
    cbn [filter]. rewrite !Nat.eqb_refl. reflexivity.
  - (* a new key, below all the others *)
    cbn [Pandas.sort]. fold (KeySort l).
    assert (Hnotin : ~ In (fst p) (List.map fst l)).
    { rewrite <- (existsb_eqb Nat.eqb Nat.eqb_eq), E. discriminate. }
    rewrite insert_min by (intros y Hy; apply Nat.leb_le, Hlow, Hy).
    cbn [List.map].
    rewrite map_groups_other by (rewrite In_KeySort; exact Hnotin).
    cbn [filter]. rewrite Nat.eqb_refl.
    rewrite (filter_none Nat.eqb Nat.eqb_eq fst (fst p) l Hnotin).
    destruct (KeySort l) as [|k0 ks] eqn:EK; [reflexivity|].
    cbn [List.map].
    destruct (Nat.eqb_spec k0 (fst p)) as [->|_]; [|reflexivity].
    exfalso. apply Hnotin, In_KeySort. rewrite EK. now left.
Qed.

End GroupByNat.

(* ================================================================== *)
(** * Loitering detector: segmentation *)
(* ================================================================== *)

Section Segmentation.

Import TrackPoint.
Import LoiteringService.

Lemma cumsum_from_lower (flags : list bool) :
  forall c i, In i (Pandas.cumsum_from c flags) -> (c <= i)%nat.
Proof.
  induction flags as [|b flags IH]; simpl; intros c i H; [contradiction|].
  destruct H as [<-|H]; [lia|]. apply IH in H. lia.
Qed.

(** The [new_event] flags of the rows that follow a row stamped [prev]. *)
Let flags_from (prev : Z) (rows : list TrackPoint.t) : list bool :=
  List.map (fun d => match d with
                     | Some h => Qlt_bool 1 h
                     | None => true
                     end)
    (List.map (option_map hours)
       (Pandas.diff_from prev (List.map timestamp rows))).

Let groups (c : nat) (flags : list bool) (rows : list TrackPoint.t) :=
  Pandas.groupby Nat.eqb Nat.leb fst
    (combine (Pandas.cumsum_from c flags) rows).

Let rows_of (gs : list (nat * list (nat * TrackPoint.t))) :=
  List.map (fun g => List.map snd (snd g)) gs.

Lemma groups_cons (c : nat) (b : bool) (flags : list bool)
  (x : TrackPoint.t) (rows : list TrackPoint.t) :
  let c' := (c + (if b then 1 else 0))%nat in
  groups c (b :: flags) (x :: rows)
  = match groups c' flags rows with
    | (k, g) :: rest =>
        if Nat.eqb k c' then (k, (c', x) :: g) :: rest
        else (c', [(c', x)]) :: (k, g) :: rest
    | [] => [(c', [(c', x)])]
    end.
Proof.
  intros c'. unfold groups. cbn [Pandas.cumsum_from combine].
  fold c'. rewrite groupby_cons; [reflexivity|].
  intros q Hq. destruct q as [i r]. apply in_combine_l in Hq.
  apply cumsum_from_lower in Hq. exact Hq.
Qed.

Lemma groups_segments (rows : list TrackPoint.t) :
  forall (x : TrackPoint.t) (c : nat) (b : bool),
  exists g rest,
    groups c (b :: flags_from (timestamp x) rows) (x :: rows)
    = ((c + (if b then 1 else 0))%nat, g) :: rest
    /\ rows_of (((c + (if b then 1 else 0))%nat, g) :: rest)
       = Spec.segments (x :: rows).
Proof.
  induction rows as [|y rows IH]; intros x c b.
  - exists [((c + (if b then 1 else 0))%nat, x)], [].
    split; [|reflexivity].
    change (flags_from (timestamp x) []) with (@nil bool).
    rewrite groups_cons. reflexivity.
  - rewrite groups_cons.
    change (flags_from (timestamp x) (y :: rows))
      with (Spec.gap_exceeds x y :: flags_from (timestamp y) rows).
    set (c' := (c + (if b then 1 else 0))%nat).
    destruct (IH y c' (Spec.gap_exceeds x y)) as (g & rest & -> & Hseg).
    cbn [Spec.segments]. fold Spec.segments.
    change (match rows with
            | [] => [[y]]
            | y0 :: _ =>
                if Spec.gap_exceeds y y0 then [y] :: Spec.segments rows
                else match Spec.segments rows with
                     | [] => [[y]]
                     | s :: ss => (y :: s) :: ss
                     end
            end) with (Spec.segments (y :: rows)).
    rewrite <- Hseg.
    destruct (Spec.gap_exceeds x y).
    + replace (Nat.eqb (c' + 1) c') with false
        by (symmetry; apply Nat.eqb_neq; lia).
      eexists _, _. split; reflexivity.
    + rewrite Nat.add_0_r in *. rewrite Nat.eqb_refl.
      eexists _, _. split; reflexivity.
Qed.

(** The events of a vessel are the segments of the left-to-right scan. *)
Lemma event_groups_segments (rows : list TrackPoint.t) :
  List.map snd (event_groups rows) = Spec.segments rows.
Proof.
  unfold event_groups. rewrite map_map. cbn [snd].
  destruct rows as [|x rows]; [reflexivity|].
  destruct (groups_segments rows x 0%nat true) as (g & rest & H & Hseg).
  unfold event_id, Pandas.cumsum.
  change (new_event (x :: rows))
    with (true :: flags_from (timestamp x) rows).
  unfold groups in H. rewrite H. exact Hseg.
Qed.

End Segmentation.

Section SegmentFacts.

Import TrackPoint.
Import LoiteringService.

Lemma Qlt_bool_iff (x y : Q) : Qlt_bool x y = true <-> (x < y)%Q.
Proof.
  unfold Qlt_bool. rewrite negb_true_iff.
  split.
  - intros H. apply Qnot_le_lt. intros Hle.
    apply Qle_bool_iff in Hle. congruence.
  - intros H. destruct (Qle_bool y x) eqn:E; [|reflexivity].
    apply Qle_bool_iff in E. exfalso. exact (Qlt_not_le _ _ H E).
Qed.

Lemma Qlt_bool_false (x y : Q) : Qlt_bool x y = false <-> (y <= x)%Q.
Proof.
  unfold Qlt_bool. rewrite negb_false_iff. apply Qle_bool_iff.
Qed.

Lemma gap_exceeds_true (a b : TrackPoint.t) :
  Spec.gap_exceeds a b = true
  <-> (1 < Spec.gap_hours (timestamp a) (timestamp b))%Q.
Proof. apply Qlt_bool_iff. Qed.

Lemma gap_exceeds_false (a b : TrackPoint.t) :
  Spec.gap_exceeds a b = false
  <-> (Spec.gap_hours (timestamp a) (timestamp b) <= 1)%Q.
Proof. apply Qlt_bool_false. Qed.

Lemma segments_cons2 (x y : TrackPoint.t) (rows : list TrackPoint.t) :
  Spec.segments (x :: y :: rows)
  = if Spec.gap_exceeds x y then [x] :: Spec.segments (y :: rows)
    else match Spec.segments (y :: rows) with
         | s :: ss => (x :: s) :: ss
         | [] => [[x]]
         end.
Proof. reflexivity. Qed.

Lemma hd_error_rev_cons {A} (x y : A) (l : list A) :
  hd_error (rev (x :: y :: l)) = hd_error (rev (y :: l)).
Proof.
  cbn [rev]. destruct (rev l ++ [y]) eqn:E; [|reflexivity].
  apply (f_equal (@List.length A)) in E.
  rewrite length_app in E. simpl in E. lia.
Qed.

(** The scan yields non-empty runs with gaps of at most one hour, in order,
    that make up the rows, each followed by a gap of more than one hour. *)
Lemma segments_spec (rows : list TrackPoint.t) (x : TrackPoint.t) :
  exists s ss,
    Spec.segments (x :: rows) = (x :: s) :: ss
    /\ concat (Spec.segments (x :: rows)) = x :: rows
    /\ Forall (fun seg => seg <> []
                          /\ Spec.gaps_within_hour (List.map timestamp seg))
         (Spec.segments (x :: rows))
    /\ Spec.separated (List.map (List.map timestamp)
                         (Spec.segments (x :: rows))).
Proof.
  revert x. induction rows as [|y rows IH]; intros x.
  - exists [], []. cbn. repeat split; auto.
    constructor; [|constructor]. split; [discriminate | exact I].
  - destruct (IH y) as (s & ss & Hs & Hcat & Hall & Hsep).
    rewrite segments_cons2.
    destruct (Spec.gap_exceeds x y) eqn:E.
    + exists [], (Spec.segments (y :: rows)).
      split; [reflexivity|]. split; [cbn [concat app]; now rewrite Hcat|].
      split.
      * constructor; [|exact Hall]. split; [discriminate | exact I].
      * rewrite Hs in *. cbn [List.map Spec.separated].
        split; [|exact Hsep].
        exists (timestamp x), (timestamp y). repeat split.
        now apply gap_exceeds_true.
    + rewrite Hs in *. exists (y :: s), ss.
      split; [reflexivity|].
      split; [cbn [concat app] in *; now rewrite Hcat|].
      inversion Hall as [|? ? [_ Hg] Hrest]; subst.
      split.
      * constructor; [|exact Hrest]. split; [discriminate|].
        cbn [List.map Spec.gaps_within_hour]. split; [|exact Hg].
        now apply gap_exceeds_false.
      * destruct ss as [|s2 ss]; [exact I|].
        cbn [List.map Spec.separated] in *.
        destruct Hsep as [(a & b & Ha & Hb & Hab) Hsep].
        split; [|exact Hsep].
        exists a, b. repeat split; auto.
        change (timestamp x :: timestamp y :: List.map timestamp s)
          with (List.map timestamp (x :: y :: s)).
        cbn [List.map]. now rewrite hd_error_rev_cons.
Qed.

(** A run without a gap of more than one hour is one segment. *)
Lemma segments_single (rows : list TrackPoint.t) :
  rows <> [] -> Spec.gaps_within_hour (List.map timestamp rows) ->
  Spec.segments rows = [rows].
Proof.
  induction rows as [|x rows IH]; [congruence|]. intros _ Hg.
  destruct rows as [|y rows]; [reflexivity|].
  rewrite segments_cons2.
  cbn [List.map Spec.gaps_within_hour] in Hg. destruct Hg as [Hxy Hg].
  rewrite (proj2 (gap_exceeds_false x y) Hxy).
  rewrite IH; [reflexivity | discriminate | exact Hg].
Qed.


End SegmentFacts.

(* ================================================================== *)
(** * Loitering detector: events *)
(* ================================================================== *)

Section FloatFacts.

(** Exchanging the two sides of a comparison reverses its outcome. *)
Lemma SFcompare_antisym (x y : Float.t) :
  SFcompare y x = option_map CompOpp (SFcompare x y).
Proof.
  destruct x as [sx|sx| |sx mx ex], y as [sy|sy| |sy my ey];
    cbn [SFcompare option_map];
    try reflexivity;
    try (destruct sx; reflexivity); try (destruct sy; reflexivity);
    try (destruct sx, sy; reflexivity).
  destruct sx, sy; try reflexivity;
    rewrite (Z.compare_antisym ex ey); destruct (ex ?= ey);
    cbn [CompOpp]; try reflexivity; f_equal.
  - rewrite CompOpp_involutive.
    rewrite Pos.compare_cont_antisym. reflexivity.
  - rewrite Pos.compare_cont_antisym. reflexivity.
Qed.

Lemma leb_ltb_false (x y : Float.t) :
  Float.leb y x = true -> Float.ltb x y = false.
Proof.
  unfold Float.leb, Float.ltb, SFleb, SFltb.
  rewrite (SFcompare_antisym y x).
  destruct (SFcompare y x) as [[| |]|]; cbn; congruence.
Qed.


Lemma eqb_leb (x y : Float.t) :
  Float.eqb x y = true -> Float.leb x y = true /\ Float.leb y x = true.
Proof.
  unfold Float.leb, Float.eqb, SFleb, SFeqb.
  rewrite (SFcompare_antisym x y).
  destruct (SFcompare x y) as [[| |]|]; cbn; intros H;
    first [discriminate H | split; reflexivity].
Qed.

Lemma eqb_ltb_false (x y : Float.t) :
  Float.eqb x y = true -> Float.ltb x y = false.
Proof.
  unfold Float.ltb, Float.eqb, SFltb, SFeqb.
  destruct (SFcompare x y) as [[| |]|]; congruence.
Qed.

(** A missing value is below nothing. *)
Lemma is_nan_ltb (x y : Float.t) :
  Float.is_nan x = true -> Float.ltb x y = false.
Proof. destruct x; try discriminate. reflexivity. Qed.

Lemma is_nan_leb (x y : Float.t) :
  Float.is_nan x = true -> Float.leb y x = false.
Proof. destruct x; try discriminate. destruct y; reflexivity. Qed.

(** The floats that Python takes as false are those equal to [0.0]: the
    two zeros. *)
Lemma truthy_float_false (z : Float.t) :
  Py.truthy_float z = false <-> Float.eqb z (Float.of_Z 0) = true.
Proof.
  destruct z as [s|s| |s m e]; cbn; split; intros H;
    try reflexivity; try discriminate H; destruct s; discriminate H.
Qed.

End FloatFacts.

Section DetectorFacts.

Import TrackPoint.
Import LoiteringService.

Variable pd : Pandas.Numerics.

Lemma filter_id {A} (f : A -> bool) (l : list A) :
  (forall x, In x l -> f x = true) -> filter f l = l.
Proof.
  induction l as [|x l IH]; simpl; intros H; [reflexivity|].
  rewrite (H x (or_introl eq_refl)), IH; auto.
Qed.

Lemma filter_idem {A} (f : A -> bool) (l : list A) :
  filter f (filter f l) = filter f l.
Proof.
  apply filter_id. intros x Hx. now apply filter_In in Hx.
Qed.

Lemma flat_map_snd {A B C} (f : B -> list C) (l : list (A * B)) :
  flat_map (fun g => f (snd g)) l = flat_map f (List.map snd l).
Proof.
  induction l as [|x l IH]; simpl; [reflexivity | now rewrite IH].
Qed.

Lemma ts_leb_total (a b : TrackPoint.t) :
  (timestamp a <=? timestamp b) = false ->
  (timestamp b <=? timestamp a) = true.
Proof. rewrite Z.leb_gt, Z.leb_le. lia. Qed.

Lemma ts_leb_trans (a b c : TrackPoint.t) :
  (timestamp a <=? timestamp b) = true ->
  (timestamp b <=? timestamp c) = true ->
  (timestamp a <=? timestamp c) = true.
Proof. rewrite !Z.leb_le. lia. Qed.

Lemma min_spec (l : list Z) :
  forall x, In (Pandas.min x l) (x :: l)
            /\ forall y, In y (x :: l) -> Pandas.min x l <= y.
Proof.
  unfold Pandas.min.
  induction l as [|z l IH]; intros x; cbn [fold_left].
  - split; [now left|]. intros y [<-|[]]. lia.
  - destruct (IH (Z.min x z)) as [Hin Hlow]. split.
    + destruct Hin as [E|Hin]; [|right; now right].
      rewrite <- E. destruct (Z.min_spec x z) as [[_ ->]|[_ ->]];
        [now left | right; now left].
    + intros y Hy.
      assert (H1 : fold_left Z.min l (Z.min x z) <= Z.min x z)
        by (apply Hlow; now left).
      destruct Hy as [<-|[<-|Hy]]; [lia | lia |].
      apply Hlow. now right.
Qed.

Lemma max_spec (l : list Z) :
  forall x, In (Pandas.max x l) (x :: l)
            /\ forall y, In y (x :: l) -> y <= Pandas.max x l.
Proof.
  unfold Pandas.max.
  induction l as [|z l IH]; intros x; cbn [fold_left].
  - split; [now left|]. intros y [<-|[]]. lia.
  - destruct (IH (Z.max x z)) as [Hin Hup]. split.
    + destruct Hin as [E|Hin]; [|right; now right].
      rewrite <- E. destruct (Z.max_spec x z) as [[_ ->]|[_ ->]];
        [right; now left | now left].
    + intros y Hy.
      assert (H1 : Z.max x z <= fold_left Z.max l (Z.max x z))
        by (apply Hup; now left).
      destruct Hy as [<-|[<-|Hy]]; [lia | lia |].
      apply Hup. now right.
Qed.

Lemma bounds_min_max (t0 : Z) (ts : list Z) (lo hi : Z) :
  Spec.bounds (t0 :: ts) lo hi ->
  Pandas.min t0 ts = lo /\ Pandas.max t0 ts = hi.
Proof.
  intros (Hlo & Hhi & Hb).
  destruct (min_spec ts t0) as [Hmin1 Hmin2].
  destruct (max_spec ts t0) as [Hmax1 Hmax2].
  pose proof (Hmin2 lo Hlo). pose proof (Hmax2 hi Hhi).
  pose proof (Hb _ Hmin1). pose proof (Hb _ Hmax1). lia.
Qed.

Lemma bounds_unique (ts : list Z) (lo hi lo' hi' : Z) :
  Spec.bounds ts lo hi -> Spec.bounds ts lo' hi' -> lo' = lo /\ hi' = hi.
Proof.
  intros (B1 & B2 & B3) (A1 & A2 & A3).
  pose proof (A3 _ B1). pose proof (A3 _ B2).
  pose proof (B3 _ A1). pose proof (B3 _ A2). lia.
Qed.

Lemma bounds_exist (x : TrackPoint.t) (seg : list TrackPoint.t) :
  exists lo hi, Spec.bounds (List.map timestamp (x :: seg)) lo hi.
Proof.
  cbn [List.map].
  destruct (min_spec (List.map timestamp seg) (timestamp x)) as [H1 H2].
  destruct (max_spec (List.map timestamp seg) (timestamp x)) as [H3 H4].
  exists (Pandas.min (timestamp x) (List.map timestamp seg)),
         (Pandas.max (timestamp x) (List.map timestamp seg)).
  repeat split; auto.
Qed.

Lemma event_of_short (dwell : Float.t) (m : string)
  (seg : list TrackPoint.t) :
  (List.length seg < 2)%nat -> event_of pd dwell m seg = [].
Proof.
  intros H. unfold event_of.
  now rewrite (proj2 (Nat.ltb_lt _ _) H).
Qed.

(** The event of a segment with at least two rows whose timestamps range
    from [lo] to [hi]. *)
Lemma event_of_bounds (dwell : Float.t) (m : string)
  (seg : list TrackPoint.t) (lo hi : Z) :
  (2 <= List.length seg)%nat ->
  Spec.bounds (List.map timestamp seg) lo hi ->
  event_of pd dwell m seg
  = if Float.leb dwell (dwell_time pd lo hi)
    then [LoiteringEvent.mk m lo hi (dwell_time pd lo hi)
            (Pandas.series_mean pd (List.map latitude seg))
            (Pandas.series_mean pd (List.map longitude seg))
            (List.length seg)
            (Pandas.series_mean pd (List.map sog seg))]
    else [].
Proof.
  intros Hlen Hb. unfold event_of.
  rewrite (proj2 (Nat.ltb_ge _ _) Hlen).
  destruct seg as [|x seg]; [simpl in Hlen; lia|].
  cbn [List.map] in *.
  destruct (bounds_min_max _ _ _ _ Hb) as [-> ->].
  reflexivity.
Qed.

Lemma _apply_spatial_filter_id (df : list LoiteringEvent.t)
  (sc : Schemas.SpatialConstraint) :
  _apply_spatial_filter df sc = df.
Proof.
  unfold _apply_spatial_filter.
  repeat match goal with
         | |- context [if ?b then _ else _] => destruct b
         end; reflexivity.
Qed.

Lemma groupby_nil {A K} (eqb leb : K -> K -> bool) (key : A -> K) :
  Pandas.groupby eqb leb key [] = [].
Proof. reflexivity. Qed.

(** The frame returned by [detect_loitering] holds the events of every
    vessel's slow rows; the early returns and the spatial post-filter do not
    change it. *)
Lemma detect_loitering_events (self : LoiteringService.t)
  (df : list TrackPoint.t) (st dw : option Float.t)
  (sc : option Schemas.SpatialConstraint) :
  detect_loitering pd self df st dw sc
  = flat_map
      (fun g => vessel_events pd (or_default dw (dwell_time_hours self))
                  (fst g) (snd g))
      (Pandas.groupby String.eqb String.leb mmsi
         (filter_slow (or_default st (speed_threshold self)) df)).
Proof.
  unfold detect_loitering.
  destruct df as [|p df]; [reflexivity|].
  destruct (filter_slow _ (p :: df)) as [|q slow]; [reflexivity|].
  destruct (flat_map _ _) as [|e events]; [reflexivity|].
  destruct sc as [sc|]; [|reflexivity].
  destruct (negb _); [apply _apply_spatial_filter_id | reflexivity].
Qed.

(** An event built from a segment: the segment has at least two rows, the
    event runs from its least to its greatest timestamp, and the dwell
    time computed for that span reaches the dwell threshold. *)
Lemma event_of_In (dwell : Float.t) (m : string) (seg : list TrackPoint.t)
  (e : LoiteringEvent.t) :
  In e (event_of pd dwell m seg) <->
  (2 <= List.length seg)%nat
  /\ exists lo hi,
       Spec.bounds (List.map timestamp seg) lo hi
       /\ Float.leb dwell (dwell_time pd lo hi) = true
       /\ e = LoiteringEvent.mk m lo hi (dwell_time pd lo hi)
                (Pandas.series_mean pd (List.map latitude seg))
                (Pandas.series_mean pd (List.map longitude seg))
                (List.length seg)
                (Pandas.series_mean pd (List.map sog seg)).
Proof.
  destruct (Nat.lt_ge_cases (List.length seg) 2) as [Hs|Hs].
  - rewrite (event_of_short _ _ _ Hs). split; [intros []|]. lia.
  - assert (Hb : exists lo hi, Spec.bounds (List.map timestamp seg) lo hi).
    { destruct seg as [|x seg]; [cbn in Hs; lia|]. apply bounds_exist. }
    destruct Hb as (lo & hi & Hb).
    rewrite (event_of_bounds dwell m seg lo hi Hs Hb).
    destruct (Float.leb dwell (dwell_time pd lo hi)) eqn:E.
    + split.
      * intros [<-|[]]. split; [exact Hs|]. now exists lo, hi.
      * intros (_ & lo' & hi' & Hb' & _ & ->).
        destruct (bounds_unique _ _ _ _ _ Hb Hb') as [-> ->]. now left.
    + split; [intros []|].
      intros (_ & lo' & hi' & Hb' & Hd & _).
      destruct (bounds_unique _ _ _ _ _ Hb Hb') as [-> ->]. congruence.
Qed.

Lemma In_concat_segments (rows seg : list TrackPoint.t) (p : TrackPoint.t) :
  In seg (Spec.segments rows) -> In p seg -> In p rows.
Proof.
  intros Hseg Hp.
  assert (E : concat (Spec.segments rows) = rows).
  { destruct rows as [|x rows]; [reflexivity|].
    destruct (segments_spec rows x) as (s & ss & _ & H & _). exact H. }
  rewrite <- E. apply in_concat. now exists seg.
Qed.

(** The events of the detector, vessel by vessel and segment by segment. *)
Lemma detect_loitering_In (self : LoiteringService.t)
  (df : list TrackPoint.t) (st dw : option Float.t)
  (sc : option Schemas.SpatialConstraint) (e : LoiteringEvent.t) :
  In e (detect_loitering pd self df st dw sc) <->
  exists m seg,
    In seg (Spec.segments
              (Pandas.sort (fun a b => timestamp a <=? timestamp b)
                 (filter (fun r => String.eqb (mmsi r) m)
                    (filter_slow (or_default st (speed_threshold self)) df))))
    /\ In e (event_of pd (or_default dw (dwell_time_hours self)) m seg).
Proof.
  rewrite detect_loitering_events, in_flat_map. split.
  - intros ([k g] & Hg & He). unfold Pandas.groupby in Hg.
    apply in_map_iff in Hg. destruct Hg as (k' & [= <- <-] & _).
    cbn [fst snd] in He. unfold vessel_events in He.
    rewrite flat_map_snd, event_groups_segments in He.
    apply in_flat_map in He. destruct He as (seg & Hseg & He).
    now exists k', seg.
  - intros (m & seg & Hseg & He).
    set (slow := filter_slow (or_default st (speed_threshold self)) df) in *.
    exists (m, filter (fun r => String.eqb (mmsi r) m) slow). split.
    + unfold Pandas.groupby. apply in_map_iff. exists m.
      split; [reflexivity|]. apply In_sort.
      apply (In_unique String.eqb String.eqb_eq).
      apply event_of_In in He. destruct He as (Hlen & _).
      destruct seg as [|p seg]; [cbn in Hlen; lia|].
      assert (Hp : In p (filter (fun r => String.eqb (mmsi r) m) slow)).
      { apply (In_sort (fun a b => timestamp a <=? timestamp b)).
        apply (In_concat_segments _ (p :: seg)); [exact Hseg | now left]. }
      apply filter_In in Hp. destruct Hp as [Hp Hm].
      apply String.eqb_eq in Hm. apply in_map_iff. now exists p.
    + cbn [fst snd]. unfold vessel_events.
      rewrite flat_map_snd, event_groups_segments.
      apply in_flat_map. now exists seg.
Qed.

Lemma NoDup_sorted_keys (leb : string -> string -> bool)
  (keys : list string) :
  NoDup (Pandas.sort leb (Pandas.unique String.eqb keys)).
Proof.
  apply (Permutation_NoDup (l := Pandas.unique String.eqb keys)).
  - symmetry. apply sort_perm.
  - apply (NoDup_unique String.eqb String.eqb_eq).
Qed.

Lemma filter_flat_map {A B} (f : B -> bool) (g : A -> list B) (l : list A) :
  filter f (flat_map g l) = flat_map (fun x => filter f (g x)) l.
Proof.
  induction l as [|x l IH]; cbn; [reflexivity|].
  now rewrite filter_app, IH.
Qed.

Lemma filter_comm {A} (f g : A -> bool) (l : list A) :
  filter f (filter g l) = filter g (filter f l).
Proof.
  induction l as [|x l IH]; cbn; [reflexivity|].
  destruct (f x) eqn:Ef, (g x) eqn:Eg; cbn; rewrite ?Ef, ?Eg, IH;
    reflexivity.
Qed.

Lemma flat_map_nil {A B} (g : A -> list B) (l : list A) :
  (forall x, In x l -> g x = []) -> flat_map g l = [].
Proof.
  induction l as [|x l IH]; cbn; intros H; [reflexivity|].
  rewrite (H x (or_introl eq_refl)), IH; auto.
Qed.

(** Over keys without repetition, a function that answers one key only. *)
Lemma flat_map_one {B} (g : string -> list B) (m : string)
  (keys : list string) :
  NoDup keys -> (forall k, k <> m -> g k = []) ->
  flat_map g keys = if existsb (String.eqb m) keys then g m else [].
Proof.
  intros Hnd Hg. induction Hnd as [|k keys Hk Hnd IH]; [reflexivity|].
  cbn [flat_map existsb]. destruct (String.eqb m k) eqn:E.
  - apply String.eqb_eq in E. subst k. cbn [orb].
    rewrite flat_map_nil; [apply app_nil_r|].
    intros x Hx. apply Hg. intros ->. contradiction.
  - apply String.eqb_neq in E. rewrite (Hg k); [|congruence].
    cbn [orb app]. exact IH.
Qed.

Lemma event_of_mmsi (dwell : Float.t) (k : string) (seg : list TrackPoint.t)
  (e : LoiteringEvent.t) :
  In e (event_of pd dwell k seg) -> LoiteringEvent.mmsi e = k.
Proof.
  intros H. apply event_of_In in H.
  now destruct H as (_ & lo & hi & _ & _ & ->).
Qed.

Lemma vessel_events_mmsi (dwell : Float.t) (k : string)
  (g : list TrackPoint.t) (e : LoiteringEvent.t) :
  In e (vessel_events pd dwell k g) -> LoiteringEvent.mmsi e = k.
Proof.
  unfold vessel_events. intros H. apply in_flat_map in H.
  destruct H as (x & _ & H). exact (event_of_mmsi _ _ _ _ H).
Qed.

(** The events that the detector reports for one vessel. *)
Lemma detect_loitering_of_vessel (self : LoiteringService.t)
  (df : list TrackPoint.t) (st dw : option Float.t)
  (sc : option Schemas.SpatialConstraint) (m : string) :
  filter (fun e => String.eqb (LoiteringEvent.mmsi e) m)
    (detect_loitering pd self df st dw sc)
  = vessel_events pd (or_default dw (dwell_time_hours self)) m
      (filter (fun p => String.eqb (mmsi p) m)
         (filter_slow (or_default st (speed_threshold self)) df)).
Proof.
  rewrite detect_loitering_events.
  set (thr := or_default st (speed_threshold self)).
  set (dwell := or_default dw (dwell_time_hours self)).
  set (slow := filter_slow thr df).
  set (own := filter (fun p => String.eqb (mmsi p) m) slow).
  unfold Pandas.groupby. rewrite flat_map_concat_map, map_map.
  rewrite <- flat_map_concat_map. cbn [fst snd].
  rewrite filter_flat_map.
  rewrite (flat_map_one _ m).
  - fold own.
    rewrite (filter_id _ (vessel_events pd dwell m own))
      by (intros e He; apply String.eqb_eq;
          exact (vessel_events_mmsi _ _ _ _ He)).
    destruct (existsb (String.eqb m) _) eqn:Ex; [reflexivity|].
    assert (E : own = []).
    { apply (filter_none String.eqb String.eqb_eq).
      intros Hin.
      apply (proj2 (In_unique String.eqb String.eqb_eq _ _)) in Hin.
      apply (proj2 (In_sort String.leb _ _)) in Hin.
      apply (proj2 (existsb_eqb String.eqb String.eqb_eq _ _)) in Hin.
      congruence. }
    now rewrite E.
  - apply NoDup_sorted_keys.
  - intros k Hk.
    destruct (filter _ (vessel_events pd dwell k _)) as [|e es] eqn:E;
      [reflexivity|].
    assert (He : In e (e :: es)) by now left.
    rewrite <- E in He. apply filter_In in He. destruct He as [He Hm].
    apply String.eqb_eq in Hm. apply vessel_events_mmsi in He. congruence.
Qed.

End DetectorFacts.

Section DetectorClaims.

Import TrackPoint.
Import LoiteringService.

Variable pd : Pandas.Numerics.

(** C3 (amended).  The detector keeps exactly the points whose speed over
    ground is below the speed threshold in force and discards every other
    point: the points at or above the threshold, a point at exactly the
    threshold included, and the points whose speed is missing (NaN).  The
    threshold in force is the one passed, when one is passed that is not
    zero, and otherwise the configured default, 2.0 knots.  The events
    returned are those of the kept points, vessel by vessel and segment by
    segment, so that a point that is not kept changes nothing; when no
    point is kept the result is empty.  On a track of five slow points
    among two fast ones, one at exactly 2.0 knots and one without a speed,
    the five slow points are kept and give one event. *)
Theorem detect_loitering_speed_filter (self : LoiteringService.t)
  (df : list TrackPoint.t) (st dw : option Float.t)
  (sc : option Schemas.SpatialConstraint) :
  let thr := or_default st (speed_threshold self) in
  let dwell := or_default dw (dwell_time_hours self) in
  let df_slow := filter_slow thr df in
  (forall p, In p df_slow <-> In p df /\ Float.ltb (sog p) thr = true)
  /\ (forall p, Float.leb thr (sog p) = true -> ~ In p df_slow)
  /\ (forall p, Float.eqb (sog p) thr = true -> ~ In p df_slow)
  /\ (forall p, Float.is_nan (sog p) = true -> ~ In p df_slow)
  /\ (forall x, Py.truthy_float x = true ->
        or_default (Some x) (speed_threshold self) = x)
  /\ (or_default None (speed_threshold self) = speed_threshold self
      /\ speed_threshold init = Float.of_Z 2)
  /\ (forall e,
        In e (detect_loitering pd self df st dw sc) <->
        exists m seg,
          In seg (Spec.segments
                    (Pandas.sort (fun a b => timestamp a <=? timestamp b)
                       (filter (fun r => String.eqb (mmsi r) m) df_slow)))
          /\ In e (event_of pd dwell m seg))
  /\ (forall p, Float.ltb (sog p) thr = false ->
        detect_loitering pd self (p :: df) st dw sc
        = detect_loitering pd self df st dw sc)
  /\ detect_loitering pd self df st dw sc
     = detect_loitering pd self df_slow st dw sc
  /\ (df_slow = [] -> detect_loitering pd self df st dw sc = [])
  /\ (filter_slow (or_default None (speed_threshold init))
        Examples.mixed_track
      = [Examples.point "A" 60 Examples.one;
         Examples.point "A" 0 Examples.one;
         Examples.point "A" 120 Examples.half;
         Examples.point "A" 240 (Float.of_Z 0);
         Examples.point "A" 180 Examples.one]
      /\ detect_loitering Examples.numerics init Examples.mixed_track
           None None None
         = [LoiteringEvent.mk "A" 0 14400000000000 (Float.of_Z 4)
              (Float.of_Z 0) (Float.of_Z 0) 5
              (Float.div (Float.of_Z 7) (Float.of_Z 10))]).
Proof.
  intros thr dwell df_slow.
  assert (Hin : forall p, In p df_slow
                          <-> In p df /\ Float.ltb (sog p) thr = true).
  { intros p. unfold df_slow, filter_slow. now rewrite filter_In. }
  assert (Hout : forall p, Float.ltb (sog p) thr = false -> ~ In p df_slow).
  { intros p Hp H. apply Hin in H. destruct H as [_ H]. congruence. }
  split; [exact Hin|].
  split; [intros p Hp; apply Hout, leb_ltb_false, Hp|].
  split; [intros p Hp; apply Hout, eqb_ltb_false, Hp|].
  split; [intros p Hp; apply Hout, is_nan_ltb, Hp|].
  split; [intros x Hx; unfold or_default; now rewrite Hx|].
  split; [split; reflexivity|].
  split; [intros e; apply detect_loitering_In|].
  split; [|split; [|split]].
  - intros p Hp. rewrite !detect_loitering_events. fold thr.
    unfold filter_slow at 1. cbn [filter]. now rewrite Hp.
  - rewrite !detect_loitering_events. fold thr. unfold df_slow, filter_slow.
    now rewrite filter_idem.
  - intros E. rewrite detect_loitering_events. fold thr.
    fold df_slow. now rewrite E.
  - split; vm_compute; reflexivity.
Qed.

(** C10.  A speed threshold or a dwell time passed as 0.0 is not used: any
    argument whose truth value is false is replaced by the service's
    default (2.0 knots and 4.0 hours from the settings), so detection with a
    zero argument equals detection with the argument omitted. *)
Theorem detect_loitering_zero_is_default (self : LoiteringService.t)
  (df : list TrackPoint.t) (st dw : option Float.t)
  (sc : option Schemas.SpatialConstraint) :
  detect_loitering pd self df (Some (Float.of_Z 0)) dw sc
  = detect_loitering pd self df None dw sc
  /\ detect_loitering pd self df st (Some (Float.of_Z 0)) sc
     = detect_loitering pd self df st None sc
  /\ (forall (z d : Float.t),
        Py.truthy_float z = false -> or_default (Some z) d = d)
  /\ (forall z : Float.t,
        Py.truthy_float z = false <-> Float.eqb z (Float.of_Z 0) = true)
  /\ or_default (Some (Float.of_Z 0)) (speed_threshold init) = Float.of_Z 2
  /\ or_default (Some (Float.of_Z 0)) (dwell_time_hours init) = Float.of_Z 4
  /\ detect_loitering pd init df (Some (Float.of_Z 0)) (Some (Float.of_Z 0))
       sc
     = detect_loitering pd init df (Some (Float.of_Z 2)) (Some (Float.of_Z 4))
         sc.
Proof.
  split; [reflexivity|]. split; [reflexivity|].
  split; [intros z d H; unfold or_default; now rewrite H|].
  split; [apply truthy_float_false|].
  split; [reflexivity|]. split; reflexivity.
Qed.

(** C4.  For one vessel with at least two points, all below the speed
    threshold in force, whose timestamps in ascending order are never more
    than one hour apart and whose span (greatest minus least timestamp),
    put in hours as the detector does, equals the dwell threshold in force,
    the detector returns exactly one event; it counts all the points, runs
    from the least to the greatest timestamp, and its dwell time equals the
    threshold.  The thresholds in force are those passed (when not zero),
    or the defaults of the service when none is passed. *)
Theorem detect_loitering_boundary_dwell (self : LoiteringService.t)
  (df : list TrackPoint.t) (st dw : option Float.t)
  (sc : option Schemas.SpatialConstraint) (m : string) (lo hi : Z) :
  let thr := or_default st (speed_threshold self) in
  let dwell := or_default dw (dwell_time_hours self) in
  (2 <= List.length df)%nat ->
  (forall p, In p df -> mmsi p = m) ->
  (forall p, In p df -> Float.ltb (sog p) thr = true) ->
  Spec.gaps_within_hour (Pandas.sort Z.leb (List.map timestamp df)) ->
  Spec.bounds (List.map timestamp df) lo hi ->
  Float.eqb (dwell_time pd lo hi) dwell = true ->
  (forall x, st = Some x -> Py.truthy_float x = true -> thr = x)
  /\ (forall x, dw = Some x -> Py.truthy_float x = true -> dwell = x)
  /\ (st = None -> thr = speed_threshold self)
  /\ (dw = None -> dwell = dwell_time_hours self)
  /\ exists e,
       detect_loitering pd self df st dw sc = [e]
       /\ LoiteringEvent.mmsi e = m
       /\ LoiteringEvent.num_points e = List.length df
       /\ Float.eqb (LoiteringEvent.dwell_time_hours e) dwell = true
       /\ LoiteringEvent.dwell_time_hours e = dwell_time pd lo hi
       /\ LoiteringEvent.start_time e = lo
       /\ LoiteringEvent.end_time e = hi.
Proof.
  intros thr dwell Hlen Hm Hslow Hgaps Hb Hspan.
  split; [intros x -> Hx; unfold thr, or_default; now rewrite Hx|].
  split; [intros x -> Hx; unfold dwell, or_default; now rewrite Hx|].
  split; [now intros ->|]. split; [now intros ->|].
  set (sorted := Pandas.sort (fun a b => timestamp a <=? timestamp b) df).
  assert (Hne : df <> []) by (destruct df; [simpl in Hlen; lia | discriminate]).
  assert (Hts : List.map timestamp sorted
                = Pandas.sort Z.leb (List.map timestamp df))
    by (apply map_sort; reflexivity).
  assert (Hslen : List.length sorted = List.length df) by apply sort_length.
  assert (Hsb : Spec.bounds (List.map timestamp sorted) lo hi).
  { rewrite Hts. destruct Hb as (H1 & H2 & H3).
    repeat split; try (apply In_sort; assumption);
      apply H3; eapply In_sort; eassumption. }
  eexists. split.
  - rewrite detect_loitering_events. fold thr dwell.
    unfold filter_slow. rewrite filter_id by exact Hslow.
    rewrite (groupby_constant String.eqb String.eqb_eq String.leb mmsi m df
               Hne Hm).
    cbn [flat_map fst snd]. rewrite app_nil_r.
    unfold vessel_events. fold sorted.
    rewrite flat_map_snd, event_groups_segments.
    rewrite segments_single;
      [| intros E; rewrite E in Hslen; simpl in Hslen; lia
       | now rewrite Hts ].
    cbn [flat_map]. rewrite app_nil_r.
    rewrite (event_of_bounds pd dwell m sorted lo hi) by (auto; lia).
    rewrite (proj2 (eqb_leb _ _ Hspan)). reflexivity.
  - cbn. repeat split; auto.
Qed.


End DetectorClaims.

Section DetectorExamples.

Import TrackPoint.
Import LoiteringService.

(** C3 as stated fails: a point whose speed is missing is not at or above
    the threshold, and the detector discards it all the same; the discarded
    points are not exactly those at or above the threshold. *)
Lemma missing_speed_counterexample :
  let p := Examples.point "A" 150 Float.nan in
  let thr := or_default None (speed_threshold init) in
  In p Examples.mixed_track
  /\ Float.leb thr (sog p) = false
  /\ ~ In p (filter_slow thr Examples.mixed_track)
  /\ ~ (forall q, In q Examples.mixed_track ->
          (~ In q (filter_slow thr Examples.mixed_track)
           <-> Float.leb thr (sog q) = true)).
Proof.
  cbv zeta.
  assert (Hin : In (Examples.point "A" 150 Float.nan) Examples.mixed_track)
    by (unfold Examples.mixed_track; cbn [In]; auto 10).
  assert (Hout : ~ In (Examples.point "A" 150 Float.nan)
                     (filter_slow (or_default None (speed_threshold init))
                        Examples.mixed_track)).
  { intros H. apply filter_In in H. destruct H as [_ H]. discriminate H. }
  split; [exact Hin|]. split; [reflexivity|]. split; [exact Hout|].
  intros H. apply (H _ Hin) in Hout. discriminate Hout.
Qed.

(** The boundary at work.  With the defaults, five slow points of one
    vessel spanning exactly four hours give one event of five points.  With
    a speed threshold of 1.5 knots and a dwell time of 0.1 hours passed to
    the detector, two points at one knot six minutes apart give one event
    of two points whose dwell time is 0.1. *)
Lemma detect_loitering_boundary_dwell_witness :
  (exists e,
      detect_loitering Examples.numerics init Examples.dwell_track
        None None None = [e]
      /\ LoiteringEvent.mmsi e = "A"%string
      /\ LoiteringEvent.num_points e = 5%nat
      /\ Float.eqb (LoiteringEvent.dwell_time_hours e) (Float.of_Z 4) = true
      /\ LoiteringEvent.dwell_time_hours e
         = dwell_time Examples.numerics 0 14400000000000
      /\ LoiteringEvent.start_time e = 0
      /\ LoiteringEvent.end_time e = 14400000000000)
  /\ (exists e,
        detect_loitering Examples.numerics init Examples.short_track
          (Some Examples.one_and_half) (Some Examples.tenth) None = [e]
        /\ LoiteringEvent.mmsi e = "B"%string
        /\ LoiteringEvent.num_points e = 2%nat
        /\ Float.eqb (LoiteringEvent.dwell_time_hours e) Examples.tenth
           = true
        /\ LoiteringEvent.dwell_time_hours e
           = dwell_time Examples.numerics 0 360000000000
        /\ LoiteringEvent.start_time e = 0
        /\ LoiteringEvent.end_time e = 360000000000).
Proof.
  split.
  - refine (proj2 (proj2 (proj2 (proj2
              (detect_loitering_boundary_dwell Examples.numerics init
                 Examples.dwell_track None None None "A"%string
                 0 14400000000000 _ _ _ _ _ _))))).
    + simpl. lia.
    + intros p H. simpl in H. intuition (subst; reflexivity).
    + intros p H. simpl in H. intuition (subst; reflexivity).
    + vm_compute. intuition discriminate.
    + unfold Spec.bounds. simpl. intuition lia.
    + vm_compute. reflexivity.
  - refine (proj2 (proj2 (proj2 (proj2
              (detect_loitering_boundary_dwell Examples.numerics init
                 Examples.short_track (Some Examples.one_and_half)
                 (Some Examples.tenth) None "B"%string
                 0 360000000000 _ _ _ _ _ _))))).
    + simpl. lia.
    + intros p H. simpl in H. intuition (subst; reflexivity).
    + intros p H. simpl in H. intuition (subst; reflexivity).
    + vm_compute. intuition discriminate.
    + unfold Spec.bounds. simpl. intuition lia.
    + vm_compute. reflexivity.
Defined.

End DetectorExamples.

(* ================================================================== *)
(** * Intent validator *)
(* ================================================================== *)

Section ValidatorClaims.

Import PlanValidator.
Local Open Scope string_scope.

Lemma contains_app_r (sub pre s : string) :
  Py.contains sub s = true -> Py.contains sub (pre ++ s) = true.
Proof.
  intros H. apply contains_inv in H. destruct H as (a & b & ->).
  replace (pre ++ a ++ sub ++ b) with ((pre ++ a) ++ sub ++ b).
  - apply contains_app.
  - induction pre as [|c pre IH]; simpl; [reflexivity | now rewrite IH].
Qed.

(** The serialized intent always holds the key ['execution_mode'], hence the
    text [exec]. *)
Lemma str_to_dict_contains_exec (repr_float : Q -> string)
  (intent : Schemas.CanonicalIntent) :
  Py.contains "exec" (Schemas.str_to_dict repr_float intent) = true.
Proof.
  unfold Schemas.str_to_dict.
  do 12 apply contains_app_r.
  match goal with
  | |- Py.contains _ (_ ++ ?R) = true =>
      exact (contains_app "exec" ", '" ("ution_mode': " ++ R))
  end.
Qed.

Lemma append_if_keeps (c : bool) (msg x : string) (errs : list string) :
  In x errs -> In x (append_if c msg errs).
Proof.
  intros H. unfold append_if. destruct c; [|exact H].
  apply in_or_app. now left.
Qed.

Lemma validate_reports_exec (repr_float : Q -> string)
  (datetime : Type) (fromisoformat : string -> Py.result datetime)
  (datetime_lt : datetime -> datetime -> Py.result bool)
  (intent : Schemas.CanonicalIntent) :
  In "Unsafe keyword detected: exec"
    (validate repr_float datetime fromisoformat datetime_lt intent).
Proof.
  unfold validate. cbv zeta.
  match goal with
  | |- In _ (fold_left ?F unsafe_keywords ?E) => generalize E
  end.
  intros errs. unfold unsafe_keywords. cbn [fold_left].
  do 5 apply append_if_keeps.
  rewrite str_to_dict_contains_exec. unfold append_if.
  apply in_or_app. right. now left.
Qed.

(** C2: what the code does.  For every intent, whatever Python prints for a
    float and however ISO dates are parsed, [validate] reports the unsafe
    keyword [exec]: the list is never empty and [is_valid] is always false.
    On the schema's own example, which meets rules 1 to 6 and carries no
    unsafe text in any value, the result is that single violation. *)
Theorem validate_always_reports_exec (repr_float : Q -> string)
  (datetime : Type) (fromisoformat : string -> Py.result datetime)
  (datetime_lt : datetime -> datetime -> Py.result bool)
  (intent : Schemas.CanonicalIntent) :
  let v := validate repr_float datetime fromisoformat datetime_lt in
  In "Unsafe keyword detected: exec" (v intent)
  /\ v intent <> []
  /\ is_valid repr_float datetime fromisoformat datetime_lt intent = false
  /\ v Examples.schema_example = ["Unsafe keyword detected: exec"].
Proof.
  intros v.
  assert (Hin : In "Unsafe keyword detected: exec" (v intent))
    by apply validate_reports_exec.
  split; [exact Hin|]. split; [|split].
  - intros E. rewrite E in Hin. exact Hin.
  - unfold is_valid. fold v. destruct (v intent); [contradiction|reflexivity].
  - vm_compute. reflexivity.
Qed.

End ValidatorClaims.

(* ================================================================== *)
(** * Stage graph *)
(* ================================================================== *)

Section GraphFacts.

Import Graph.

Context {datetime Data : Type}.
Variable svc : Services datetime Data.


Lemma invoke_from_step (fuel : nat) (n : Node) (w : World datetime Data) (done : list Node) :
  invoke_from svc (S fuel) n w done
  = match next n (snd (node_fn svc n w)) with
    | Py.Raise e => mkRun (node_fn svc n w) (done ++ [n]) (Some e)
    | Py.Ok END => mkRun (node_fn svc n w) (done ++ [n]) None
    | Py.Ok (To n') =>
        invoke_from svc fuel n' (node_fn svc n w) (done ++ [n])
    end.
Proof. reflexivity. Qed.

(** A property of the stages executed so far and of the memory and state
    that every stage preserves holds at the end of the run. *)
Lemma invoke_from_invariant (P : list Node -> World datetime Data -> Prop) :
  (forall n w done, P done w -> P (done ++ [n]) (node_fn svc n w)) ->
  forall fuel n w done,
    P done w ->
    P (path (invoke_from svc fuel n w done))
      (world (invoke_from svc fuel n w done)).
Proof.
  intros Hstep. induction fuel as [|fuel IH]; intros n w done H.
  - exact H.
  - rewrite invoke_from_step.
    destruct (next n (snd (node_fn svc n w))) as [[n'|]|e]; cbn [path world];
      auto.
Qed.

Ltac run_node :=
  repeat match goal with
         | |- context [match ?x with _ => _ end] => destruct x eqn:?
         end.

(** Only the response stage touches the memory or the result, and it
    touches both or none. *)
Lemma node_result_memory (n : Node) (w : World datetime Data) :
  result (snd (node_fn svc n w)) = None ->
  result (snd w) = None /\ fst (node_fn svc n w) = fst w.
Proof.
  destruct w as [mm st].
  destruct n; cbn [node_fn];
    unfold resolve_references_node, parse_intent_node, validate_plan_node,
      resolve_vessels_node, trajectory_pipeline_node,
      loitering_pipeline_node, response_builder_node;
    run_node; cbn; intros H; split; auto; discriminate.
Qed.

(** Only the planning stage sets the intent. *)
Lemma node_intent (n : Node) (w : World datetime Data) :
  n <> parse_intent ->
  canonical_intent (snd (node_fn svc n w)) = canonical_intent (snd w).
Proof.
  destruct w as [mm st].
  destruct n; cbn [node_fn]; intros Hn; try congruence;
    unfold resolve_references_node, validate_plan_node,
      resolve_vessels_node, trajectory_pipeline_node,
      loitering_pipeline_node, response_builder_node;
    run_node; reflexivity.
Qed.

Ltac unfold_nodes :=
  unfold resolve_references_node, parse_intent_node, validate_plan_node,
    resolve_vessels_node, trajectory_pipeline_node,
    loitering_pipeline_node, response_builder_node.

Ltac state_simpl :=
  cbn [snd fst execution_log result error canonical_intent log set_error
       set_dataframe set_result set_vessel_ids set_resolved_time_range
       set_validation_errors set_canonical_intent].

(** Every stage but the response stage leaves the memory and the result as
    they are. *)
Lemma node_keeps_result (n : Node) (w : World datetime Data) :
  n <> response_builder ->
  result (snd (node_fn svc n w)) = result (snd w)
  /\ fst (node_fn svc n w) = fst w.
Proof.
  destruct w as [mm st].
  destruct n; cbn [node_fn]; intros Hn; try congruence;
    unfold_nodes; run_node; split; reflexivity.
Qed.

Ltac not_marker H :=
  unfold Spec.fetch_marker, Spec.detect_marker in H;
  cbn [append] in H; discriminate H.

(** Every stage appends to the trace, and the first entry of an analytical
    stage is written by that stage only. *)
Lemma node_log (n : Node) (w : World datetime Data) :
  exists extra,
    execution_log (snd (node_fn svc n w)) = execution_log (snd w) ++ extra
    /\ (In Spec.fetch_marker extra <-> n = trajectory_pipeline)
    /\ (In Spec.detect_marker extra <-> n = loitering_pipeline).
Proof.
  destruct w as [mm st].
  destruct n; cbn [node_fn]; unfold_nodes; run_node; state_simpl;
    rewrite <- ?app_assoc; eexists; (split; [reflexivity|]);
    cbn [In app]; split; split; intros H;
    try discriminate H; try reflexivity;
    try (left; reflexivity);
    repeat match goal with
           | H : _ \/ _ |- _ => destruct H as [H|H]
           | H : False |- _ => contradiction
           end;
    try not_marker H.
Qed.

(** After a failed validation stage the post-validation edge says so;
    otherwise an intent is present. *)
Lemma validate_plan_continue (w : World datetime Data) :
  should_continue_after_validation (snd (validate_plan_node svc w))
  = "continue"%string ->
  exists intent,
    canonical_intent (snd (validate_plan_node svc w)) = Some intent.
Proof.
  destruct w as [mm st]. unfold validate_plan_node.
  destruct (canonical_intent (log st "Validating plan")) as [i|] eqn:E.
  - intros _. exists i.
    destruct (Py.truthy_list _); state_simpl; exact E.
  - unfold should_continue_after_validation. state_simpl.
    cbn. discriminate.
Qed.

(** The stages of a run: the run stops after validation, or it goes through
    vessel resolution, the stage of the intent's domain and response
    assembly; no exception leaves the graph. *)
Lemma invoke_path (mm : MemoryManager.t) (st0 : AgentState datetime Data) :
  let r := invoke svc mm st0 in
  raised r = None
  /\ (path r = [resolve_references; parse_intent; validate_plan]
      \/ exists intent,
           canonical_intent (snd (world r)) = Some intent
           /\ path r = [resolve_references; parse_intent; validate_plan;
                        resolve_vessels;
                        Spec.stage_of_domain (Schemas.domain_intent intent);
                        response_builder]).
Proof.
  intros r. remember r as r' eqn:Er. unfold r in Er. clear r.
  unfold invoke, recursion_limit, entry_point in Er.
  rewrite invoke_from_step in Er. cbn [next app] in Er.
  remember (node_fn svc resolve_references (mm, st0)) as w1 eqn:E1 in *.
  rewrite invoke_from_step in Er. cbn [next app] in Er.
  remember (node_fn svc parse_intent w1) as w2 eqn:E2 in *.
  rewrite invoke_from_step in Er. cbn [next app] in Er.
  pose proof (validate_plan_continue w2) as Hc.
  change (validate_plan_node svc w2) with (node_fn svc validate_plan w2)
    in Hc.
  remember (node_fn svc validate_plan w2) as w3 eqn:E3 in *.
  unfold should_continue_after_validation in *.
  destruct (Py.truthy_opt_str (error (snd w3))
            || Py.truthy_list (validation_errors (snd w3))).
  - change (lookup "error" validation_edges) with (@Py.Ok Target END) in Er.
    cbv iota in Er. subst r'. cbn [raised path].
    split; [reflexivity | now left].
  - change (lookup "continue" validation_edges)
      with (@Py.Ok Target (To resolve_vessels)) in Er.
    cbv iota in Er. destruct (Hc eq_refl) as [intent Hi].
    rewrite invoke_from_step in Er. cbn [app] in Er.
    remember (node_fn svc resolve_vessels w3) as w4 eqn:E4 in *.
    assert (H4 : canonical_intent (snd w4) = Some intent).
    { rewrite E4, node_intent; [exact Hi | discriminate]. }
    cbn [next] in Er. unfold route_by_domain in Er. rewrite H4 in Er.
    assert (Hfinal : forall n,
               n <> parse_intent ->
               canonical_intent
                 (snd (node_fn svc response_builder (node_fn svc n w4)))
               = Some intent).
    { intros n Hn. rewrite !node_intent; auto. discriminate. }
    assert (Hrun : r' = mkRun
                          (node_fn svc response_builder
                             (node_fn svc
                                (Spec.stage_of_domain
                                   (Schemas.domain_intent intent)) w4))
                          [resolve_references; parse_intent; validate_plan;
                           resolve_vessels;
                           Spec.stage_of_domain
                             (Schemas.domain_intent intent);
                           response_builder] None).
    { rewrite Er. destruct (Schemas.domain_intent intent); reflexivity. }
    rewrite Hrun. cbn [raised path world].
    split; [reflexivity|]. right. exists intent.
    split; [|reflexivity]. apply Hfinal.
    destruct (Schemas.domain_intent intent); discriminate.
Qed.

(** A run whose post-validation edge reads "error" ends there. *)
Lemma invoke_stops (mm : MemoryManager.t) (st0 : AgentState datetime Data) :
  let w3 := validate_plan_node svc
              (parse_intent_node svc (resolve_references_node (mm, st0))) in
  should_continue_after_validation (snd w3) = "error"%string ->
  invoke svc mm st0
  = mkRun w3 [resolve_references; parse_intent; validate_plan] None.
Proof.
  intros w3 H. unfold invoke, recursion_limit, entry_point.
  rewrite invoke_from_step. cbn [next app node_fn].
  rewrite invoke_from_step. cbn [next app node_fn].
  rewrite invoke_from_step. cbn [next app node_fn].
  fold w3. rewrite H. reflexivity.
Qed.

(** When the validator rejects every intent, the post-validation edge
    always reads "error". *)
Lemma validate_plan_rejects (w : World datetime Data) :
  (forall intent, plan_validator svc intent <> []) ->
  should_continue_after_validation (snd (validate_plan_node svc w))
  = "error"%string
  /\ error (snd (validate_plan_node svc w)) <> None.
Proof.
  intros Hrej. destruct w as [mm st]. unfold validate_plan_node.
  destruct (canonical_intent (log st "Validating plan")) as [i|].
  - specialize (Hrej i). destruct (plan_validator svc i); [congruence|].
    split; [reflexivity | discriminate].
  - split; [reflexivity | discriminate].
Qed.

(** Memory and result at the end of a run: the memory is the initial one as
    long as no result is present, and no result appears before the response
    stage has run. *)
Lemma invoke_memory (mm : MemoryManager.t) (st0 : AgentState datetime Data) :
  let r := invoke svc mm st0 in
  (result (snd (world r)) = None -> fst (world r) = mm)
  /\ (~ In response_builder (path r) ->
      result (snd (world r)) = result st0 /\ fst (world r) = mm).
Proof.
  unfold invoke.
  apply (invoke_from_invariant
           (fun done w =>
              (result (snd w) = None -> fst w = mm)
              /\ (~ In response_builder done ->
                  result (snd w) = result st0 /\ fst w = mm))).
  - intros n w done [H1 H2]. split.
    + intros Hnone. destruct (node_result_memory n w Hnone) as [Hr Hm].
      rewrite Hm. auto.
    + intros Hnot.
      assert (Hn : n <> response_builder).
      { intros ->. apply Hnot, in_or_app. right. now left. }
      destruct (node_keeps_result n w Hn) as [Hr Hm].
      rewrite Hr, Hm. apply H2. intros Hin. apply Hnot, in_or_app. now left.
  - cbn. auto.
Qed.

(** The first trace entries of the two analytical stages tell which of them
    ran, for a run that starts with an empty trace. *)
Lemma invoke_trace (mm : MemoryManager.t) (st0 : AgentState datetime Data) :
  execution_log st0 = [] ->
  let r := invoke svc mm st0 in
  (In Spec.fetch_marker (execution_log (snd (world r)))
   <-> In trajectory_pipeline (path r))
  /\ (In Spec.detect_marker (execution_log (snd (world r)))
      <-> In loitering_pipeline (path r)).
Proof.
  intros H0. unfold invoke.
  apply (invoke_from_invariant
           (fun done w =>
              (In Spec.fetch_marker (execution_log (snd w))
               <-> In trajectory_pipeline done)
              /\ (In Spec.detect_marker (execution_log (snd w))
                  <-> In loitering_pipeline done))).
  - intros n w done [H1 H2].
    destruct (node_log n w) as (extra & -> & Hf & Hd).
    rewrite !in_app_iff, H1, H2, Hf, Hd. cbn [In].
    split; split; intros [H|H]; auto; destruct H as [H|[]]; auto.
  - cbn [snd]. rewrite H0. cbn. tauto.
Qed.

(** The validator wired into the graph, [PlanValidator.validate], rejects
    every intent. *)
Lemma shipped_validator_rejects (repr_float : Q -> string) (dt : Type)
  (fromiso : string -> Py.result dt) (dt_lt : dt -> dt -> Py.result bool) :
  (forall intent,
      plan_validator svc intent
      = PlanValidator.validate repr_float dt fromiso dt_lt intent) ->
  forall intent, plan_validator svc intent <> [].
Proof.
  intros Hv intent E.
  pose proof (validate_reports_exec repr_float dt fromiso dt_lt intent) as H.
  rewrite <- Hv, E in H. exact H.
Qed.

(** With a validator that rejects every intent, a run is its first three
    stages. *)
Lemma rejected_run (mm : MemoryManager.t) (st0 : AgentState datetime Data) :
  (forall intent, plan_validator svc intent <> []) ->
  let w3 := validate_plan_node svc
              (parse_intent_node svc (resolve_references_node (mm, st0))) in
  invoke svc mm st0
  = mkRun w3 [resolve_references; parse_intent; validate_plan] None
  /\ next validate_plan (snd w3) = Py.Ok END
  /\ error (snd w3) <> None
  /\ result (snd w3) = result st0
  /\ fst w3 = mm.
Proof.
  intros Hrej w3.
  destruct (validate_plan_rejects
              (parse_intent_node svc (resolve_references_node (mm, st0)))
              Hrej) as [Hedge Herr].
  fold w3 in Hedge, Herr.
  pose proof (invoke_stops mm st0 Hedge) as Hrun. fold w3 in Hrun.
  destruct (invoke_memory mm st0) as [_ Hmem].
  rewrite Hrun in Hmem. cbn [path world] in Hmem.
  split; [exact Hrun|]. split; [cbn [next]; now rewrite Hedge|].
  split; [exact Herr|].
  apply Hmem. cbn [In]. intros [H|[H|[H|[]]]]; discriminate H.
Qed.

End GraphFacts.

Section GraphClaims.

Import Graph.

Section AnyServices.

Context {datetime Data : Type}.
Variable svc : Services datetime Data.

(** C1.  The graph is wired with the validator of the repository,
    [PlanValidator.validate].  Whatever the planner, the position store and
    the other services answer, every run then consists of the first three
    stages: the error is set by the validation stage at the latest (the
    first stage never sets one, and an error of the planning stage is still
    there after validation, replaced by the validator's own), the edge after
    validation, which is the next decision point, ends the run, [result] is
    null in every state of the run, neither analytical stage executes or
    leaves its entry in the trace, and no state of the run holds both an
    error and a result.  The edge after validation ends the run for every
    state whose error is set.  (The routing edge after vessel resolution is
    never reached.) *)
Theorem error_ends_the_run (repr_float : Q -> string) (dt : Type)
  (fromiso : string -> Py.result dt) (dt_lt : dt -> dt -> Py.result bool)
  (mm : MemoryManager.t) (query : string)
  (history : option (list MemoryManager.Message)) (model : string) :
  (forall intent,
      plan_validator svc intent
      = PlanValidator.validate repr_float dt fromiso dt_lt intent) ->
  let st0 : AgentState datetime Data :=
    create_initial_state query history model in
  let w1 := resolve_references_node (mm, st0) in
  let w2 := parse_intent_node svc w1 in
  let w3 := validate_plan_node svc w2 in
  let r := invoke svc mm st0 in
  let out := snd (run_query svc mm query history model) in
  r = mkRun w3 [resolve_references; parse_intent; validate_plan] None
  /\ next validate_plan (snd w3) = Py.Ok END
  /\ error (snd w1) = None
  /\ (error (snd w2) <> None -> error (snd w3) <> None)
  /\ error (snd (world r)) <> None
  /\ (result (snd w1) = None /\ result (snd w2) = None
      /\ result (snd (world r)) = None)
  /\ (~ In trajectory_pipeline (path r) /\ ~ In loitering_pipeline (path r))
  /\ (~ In Spec.fetch_marker (execution_log (snd (world r)))
      /\ ~ In Spec.detect_marker (execution_log (snd (world r))))
  /\ (forall w, In w [w1; w2; w3] ->
        ~ (error (snd w) <> None /\ result (snd w) <> None))
  /\ (qr_success out = false /\ qr_error out <> None /\ qr_result out = None)
  /\ (forall s : AgentState datetime Data,
        Py.truthy_opt_str (error s) = true ->
        next validate_plan s = Py.Ok END).
Proof.
  intros Hv st0 w1 w2 w3 r out.
  pose proof (shipped_validator_rejects svc repr_float dt fromiso dt_lt Hv)
    as Hrej.
  destruct (rejected_run svc mm st0 Hrej) as (Hrun & Hnext & Herr & Hres & Hm).
  fold w1 w2 w3 in Hrun, Hnext, Herr, Hres, Hm.
  change (result st0) with (@None (ResponseBuilder.Response Data)) in Hres.
  assert (Hr2 : result (snd w2) = None).
  { apply (node_result_memory svc validate_plan w2). exact Hres. }
  assert (Hr1 : result (snd w1) = None).
  { apply (node_result_memory svc parse_intent w1). exact Hr2. }
  destruct (invoke_trace svc mm st0 eq_refl) as [Hf Hd].
  fold r in Hf, Hd.
  assert (Hout : out = mkQueryResult (is_none (error (snd w3)))
                         (result (snd w3)) (execution_log (snd w3))
                         (error (snd w3)) (canonical_intent (snd w3))
                         (List.length (vessel_ids (snd w3)))).
  { unfold out, run_query. fold st0. rewrite Hrun. reflexivity. }
  unfold r in *. rewrite Hrun in *. cbn [world path snd] in *.
  split; [reflexivity|]. split; [exact Hnext|].
  split.
  { unfold w1, resolve_references_node.
    destruct (MemoryManager.has_reference _); reflexivity. }
  split; [intros _; exact Herr|]. split; [exact Herr|].
  split; [auto|].
  assert (Hnt : ~ In trajectory_pipeline
                    [resolve_references; parse_intent; validate_plan])
    by (cbn [In]; intros [H|[H|[H|[]]]]; discriminate H).
  assert (Hnl : ~ In loitering_pipeline
                    [resolve_references; parse_intent; validate_plan])
    by (cbn [In]; intros [H|[H|[H|[]]]]; discriminate H).
  split; [auto|].
  split; [split; [rewrite Hf | rewrite Hd]; assumption|].
  split.
  { intros w [<-|[<-|[<-|[]]]] [_ H]; apply H; assumption. }
  split.
  { rewrite Hout. cbn [qr_success qr_error qr_result].
    split; [|auto]. destruct (error (snd w3)); [reflexivity | congruence]. }
  intros s Hs. cbn [next]. unfold should_continue_after_validation.
  now rewrite Hs.
Qed.

(** C8.  The routing decision depends on the intent's domain only:
    [trajectory], [listing] and (as the fallback) [prediction] go to the
    trajectory stage, [loitering] goes to the loitering stage.  Every run
    either stops after validation or executes exactly the stage of its
    intent's domain between vessel resolution and response assembly, and
    the trace shows which: it holds "Fetching trajectory data" exactly when
    the trajectory stage ran and "Detecting loitering" exactly when the
    loitering stage ran. *)
Theorem route_by_domain_observable (mm : MemoryManager.t) (query : string)
  (history : option (list MemoryManager.Message)) (model : string) :
  let r := invoke svc mm (create_initial_state query history model) in
  let trace := execution_log (snd (world r)) in
  (forall (state : AgentState datetime Data) (intent : Schemas.CanonicalIntent),
      canonical_intent state = Some intent ->
      route_by_domain state
      = Py.Ok (match Schemas.domain_intent intent with
               | Domain.loitering => "loitering"%string
               | _ => "trajectory"%string
               end)
      /\ next resolve_vessels state
         = Py.Ok (To (Spec.stage_of_domain (Schemas.domain_intent intent))))
  /\ (Spec.stage_of_domain Domain.trajectory = trajectory_pipeline
      /\ Spec.stage_of_domain Domain.listing = trajectory_pipeline
      /\ Spec.stage_of_domain Domain.loitering = loitering_pipeline
      /\ Spec.stage_of_domain Domain.prediction = trajectory_pipeline)
  /\ raised r = None
  /\ (path r = [resolve_references; parse_intent; validate_plan]
      \/ exists intent,
           canonical_intent (snd (world r)) = Some intent
           /\ path r = [resolve_references; parse_intent; validate_plan;
                        resolve_vessels;
                        Spec.stage_of_domain (Schemas.domain_intent intent);
                        response_builder])
  /\ (In Spec.fetch_marker trace <-> In trajectory_pipeline (path r))
  /\ (In Spec.detect_marker trace <-> In loitering_pipeline (path r)).
Proof.
  intros r trace.
  split; [|split; [repeat split|]].
  - intros state intent H. unfold next, route_by_domain. rewrite H.
    destruct (Schemas.domain_intent intent); split; reflexivity.
  - destruct (invoke_path svc mm (create_initial_state query history model))
      as [Hraised Hpath].
    destruct (invoke_trace svc mm (create_initial_state query history model)
                eq_refl) as [Hf Hd].
    auto.
Qed.

(** C9 (amended).  [update_vessel_context] overwrites the last-referenced
    vessel list with the given list when that list is not empty, and leaves
    it as it is when the list is empty; [update_intent_context] overwrites
    the last-referenced domain with the given value.  In a run only the
    response stage updates the memory, and every run that ends with a
    non-null error leaves the memory's last-referenced vessel list and
    last-referenced domain (and the rest of the memory) as they were before
    the run. *)
Theorem failed_run_leaves_memory (repr_float : Q -> string) (dt : Type)
  (fromiso : string -> Py.result dt) (dt_lt : dt -> dt -> Py.result bool) :
  (forall intent,
      plan_validator svc intent
      = PlanValidator.validate repr_float dt fromiso dt_lt intent) ->
  (forall (self : MemoryManager.t) (ids : list string),
      ids <> [] ->
      MemoryManager.update_vessel_context self ids
      = MemoryManager.mk (MemoryManager.max_history self)
          (MemoryManager.conversation_history self) ids
          (MemoryManager.last_intent self))
  /\ (forall self : MemoryManager.t,
        MemoryManager.update_vessel_context self [] = self)
  /\ (forall (self : MemoryManager.t) (domain : string),
        MemoryManager.update_intent_context self domain
        = MemoryManager.mk (MemoryManager.max_history self)
            (MemoryManager.conversation_history self)
            (MemoryManager.last_mentioned_vessels self) (Some domain))
  /\ (forall (n : Node) (w : World datetime Data),
        n <> response_builder -> fst (node_fn svc n w) = fst w)
  /\ (forall (mm : MemoryManager.t) (query : string)
        (history : option (list MemoryManager.Message)) (model : string),
        let r := invoke svc mm (create_initial_state query history model) in
        error (snd (world r)) <> None ->
        MemoryManager.last_mentioned_vessels (fst (world r))
        = MemoryManager.last_mentioned_vessels mm
        /\ MemoryManager.last_intent (fst (world r))
           = MemoryManager.last_intent mm
        /\ fst (world r) = mm)
  /\ (forall (mm : MemoryManager.t) (query : string)
        (history : option (list MemoryManager.Message)) (model : string),
        qr_error (snd (run_query svc mm query history model)) <> None ->
        fst (run_query svc mm query history model) = mm).
Proof.
  intros Hv.
  pose proof (shipped_validator_rejects svc repr_float dt fromiso dt_lt Hv)
    as Hrej.
  split; [|split; [|split; [|split; [|split]]]].
  - intros self [|v ids] H; [congruence | reflexivity].
  - reflexivity.
  - reflexivity.
  - intros n w Hn. exact (proj2 (node_keeps_result svc n w Hn)).
  - intros mm query history model r _.
    destruct (rejected_run svc mm (create_initial_state query history model)
                Hrej) as (Hrun & _ & _ & _ & Hm).
    unfold r. rewrite Hrun. cbn [world]. rewrite Hm. auto.
  - intros mm query history model _. unfold run_query.
    destruct (rejected_run svc mm (create_initial_state query history model)
                Hrej) as (Hrun & _ & _ & _ & Hm).
    rewrite Hrun. cbn [raised world fst]. exact Hm.
Qed.

(** C9 as stated fails: [update_vessel_context] called with an empty list
    does not overwrite the last-referenced vessels with it. *)
Lemma update_vessel_context_counterexample :
  let self := MemoryManager.mk 10 [] ["111111111"%string] None in
  MemoryManager.last_mentioned_vessels
    (MemoryManager.update_vessel_context self [])
  = ["111111111"%string]
  /\ MemoryManager.last_mentioned_vessels
       (MemoryManager.update_vessel_context self [])
     <> [].
Proof. split; [reflexivity | discriminate]. Qed.

(** X1.  With a validator that rejects every intent, every run ends at the
    post-validation edge: three stages, an error, no new result, and the
    memory as it was. *)
Theorem rejecting_validator_stops_every_run (mm : MemoryManager.t)
  (st0 : AgentState datetime Data) :
  (forall intent, plan_validator svc intent <> []) ->
  let r := invoke svc mm st0 in
  path r = [resolve_references; parse_intent; validate_plan]
  /\ raised r = None
  /\ error (snd (world r)) <> None
  /\ result (snd (world r)) = result st0
  /\ fst (world r) = mm.
Proof.
  intros Hrej r.
  destruct (validate_plan_rejects svc
              (parse_intent_node svc (resolve_references_node (mm, st0)))
              Hrej) as [Hedge Herr].
  pose proof (invoke_stops svc mm st0 Hedge) as Hrun.
  destruct (invoke_memory svc mm st0) as [_ Hmem]. fold r in Hmem.
  unfold r in *. rewrite Hrun in *. cbn [path raised world] in *.
  split; [reflexivity|]. split; [reflexivity|]. split; [exact Herr|].
  apply Hmem. cbn [In]. intros [H|[H|[H|[]]]]; discriminate H.
Qed.

End AnyServices.

(** A run through the services as shipped: the query is planned, the
    validator rejects the plan, and the run ends there. *)
Lemma error_ends_the_run_witness :
  let mm := MemoryManager.init 10 in
  let r := invoke Examples.shipped mm Examples.fresh_state in
  path r = [resolve_references; parse_intent; validate_plan]
  /\ raised r = None
  /\ error (snd (world r))
     = Some "Validation failed: Unsafe keyword detected: exec"%string
  /\ result (snd (world r)) = None
  /\ execution_log (snd (world r))
     = ["Resolving references"%string; "Parsing intent with LLM"%string;
        "Intent: trajectory/show"%string; "Validating plan"%string].
Proof.
  cbv zeta.
  pose proof (error_ends_the_run Examples.shipped (fun _ => "0.0"%string) Z
                (fun _ => Py.Raise "Invalid isoformat string"%string)
                (fun a b => Py.Ok (a <? b)) (MemoryManager.init 10)
                Examples.query None "llama3"%string (fun _ => eq_refl)) as H.
  cbv zeta in H. destruct H as (Hrun & _).
  change (create_initial_state Examples.query None "llama3"%string)
    with Examples.fresh_state in Hrun.
  rewrite Hrun. cbn [path raised world snd].
  split; [reflexivity|]. split; [reflexivity|].
  vm_compute. repeat split.
Defined.

(** The same run leaves a memory that holds vessels and a domain
    untouched. *)
Lemma failed_run_leaves_memory_witness :
  let mm := MemoryManager.mk 10 [] ["111111111"%string]
              (Some "loitering"%string) in
  let r := invoke Examples.shipped mm Examples.fresh_state in
  error (snd (world r)) <> None
  /\ MemoryManager.last_mentioned_vessels (fst (world r))
     = ["111111111"%string]
  /\ MemoryManager.last_intent (fst (world r)) = Some "loitering"%string.
Proof.
  cbv zeta.
  pose proof (failed_run_leaves_memory Examples.shipped
                (fun _ => "0.0"%string) Z
                (fun _ => Py.Raise "Invalid isoformat string"%string)
                (fun a b => Py.Ok (a <? b)) (fun _ => eq_refl)) as H.
  destruct H as (_ & _ & _ & _ & H & _).
  assert (He : error (snd (world (invoke Examples.shipped
                                    (MemoryManager.mk 10 []
                                       ["111111111"%string]
                                       (Some "loitering"%string))
                                    Examples.fresh_state))) <> None)
    by (vm_compute; discriminate).
  split; [exact He|].
  destruct (H (MemoryManager.mk 10 [] ["111111111"%string]
                 (Some "loitering"%string))
              Examples.query None "llama3"%string He) as (H1 & H2 & _).
  split; [exact H1 | exact H2].
Defined.

(** The shipped validator rejects every intent, so every run through the
    shipped services stops after validation. *)
Lemma rejecting_validator_stops_every_run_witness :
  let r := invoke Examples.shipped (MemoryManager.init 10)
             Examples.fresh_state in
  path r = [resolve_references; parse_intent; validate_plan]
  /\ raised r = None
  /\ error (snd (world r)) <> None
  /\ result (snd (world r)) = result Examples.fresh_state
  /\ fst (world r) = MemoryManager.init 10.
Proof.
  apply (rejecting_validator_stops_every_run Examples.shipped).
  intros intent E.
  pose proof (validate_reports_exec (fun _ => "0.0"%string) Z
                (fun _ => Py.Raise "Invalid isoformat string"%string)
                (fun a b => Py.Ok (a <? b)) intent) as H.
  change (plan_validator Examples.shipped intent)
    with (PlanValidator.validate (fun _ => "0.0"%string) Z
            (fun _ => Py.Raise "Invalid isoformat string"%string)
            (fun a b => Py.Ok (a <? b)) intent) in E.
  rewrite E in H. exact H.
Defined.

End GraphClaims.

(* ================================================================== *)
(** * Conversational memory: the remaining methods *)
(* ================================================================== *)

Section MemoryOpsFacts.

Import MemoryManager.
Import MemoryManagerOps.

Lemma add_message_frame (self : t) (r c : string) :
  max_history (add_message self r c) = max_history self
  /\ last_mentioned_vessels (add_message self r c)
     = last_mentioned_vessels self
  /\ last_intent (add_message self r c) = last_intent self.
Proof.
  unfold add_message.
  destruct (Z.of_nat _ >? _); cbn; auto.
Qed.

Lemma add_messages_frame (msgs : list Message) :
  forall self : t,
    max_history (add_messages self msgs) = max_history self
    /\ last_mentioned_vessels (add_messages self msgs)
       = last_mentioned_vessels self
    /\ last_intent (add_messages self msgs) = last_intent self.
Proof.
  induction msgs as [|m msgs IH]; intros self; [now repeat split|].
  cbn [add_messages fold_left].
  fold (add_messages (add_message self (role m) (content m)) msgs).
  destruct (IH (add_message self (role m) (content m))) as (-> & -> & ->).
  apply add_message_frame.
Qed.

Lemma resolve_references_fields (self : t) (query : string) :
  let p := Py.any (fun m => Py.contains m (Py.lower query)) pronouns
           && Py.truthy_list (last_mentioned_vessels self) in
  let c := Py.any (fun m => Py.contains m (Py.lower query)) intent_refs
           && Py.truthy_opt_str (last_intent self) in
  vessels (resolve_references self query)
  = (if p then last_mentioned_vessels self else [])
  /\ intent (resolve_references self query)
     = (if c then last_intent self else None)
  /\ has_reference (resolve_references self query) = p || c.
Proof.
  intros p c. unfold resolve_references. cbv zeta. fold p c.
  destruct p, c; repeat split.
Qed.

(** X2.  [get_recent_context(n)] returns the last [n] messages for [n >= 1] (all
    of them when there are fewer), but the whole transcript for [n = 0] and
    the transcript without its first [-n] messages for a negative [n]; the
    result is always an end of the transcript. *)
Theorem get_recent_context_suffix (self : t) (n : Z) :
  (1 <= n ->
   get_recent_context self n
   = Spec.last_n (Z.to_nat n) (conversation_history self))
  /\ get_recent_context self 0 = conversation_history self
  /\ (n < 0 ->
      get_recent_context self n
      = skipn (Z.to_nat (- n)) (conversation_history self))
  /\ (Z.of_nat (List.length (conversation_history self)) <= n ->
      get_recent_context self n = conversation_history self)
  /\ exists dropped,
       conversation_history self = dropped ++ get_recent_context self n.
Proof.
  unfold get_recent_context, Py.slice_from.
  set (h := conversation_history self).
  split; [|split; [|split; [|split]]].
  - intros Hn. apply slice_from_last_n. exact Hn.
  - change (- 0) with 0. change (0 <? 0) with false. cbv iota.
    replace (Z.to_nat (Z.min 0 (Z.of_nat (List.length h)))) with 0%nat
      by lia.
    reflexivity.
  - intros Hn. destruct (Z.ltb_spec (- n) 0); [lia|].
    destruct (Z.le_gt_cases (- n) (Z.of_nat (List.length h))) as [Hle|Hgt].
    + f_equal. lia.
    + rewrite !skipn_all2 by lia. reflexivity.
  - intros Hn. destruct (Z.ltb_spec (- n) 0);
      replace (Z.to_nat _) with 0%nat by lia; reflexivity.
  - eexists. symmetry. apply firstn_skipn.
Qed.

(** X3.  Context set by [update_vessel_context] and [update_intent_context] is
    what [resolve_references] gives back: it survives any number of
    [add_message] calls and a later [update_vessel_context([])], an empty
    domain is never given back, and [clear] removes it all. *)
Theorem context_round_trip (self : t) (ids : list string) (domain : string)
  (msgs : list Message) (query : string) :
  ids <> [] ->
  (exists m, In m pronouns /\ Spec.occurs_ci m query) ->
  let later :=
    add_messages
      (update_intent_context (update_vessel_context self ids) domain) msgs in
  vessels (resolve_references later query) = ids
  /\ has_reference (resolve_references later query) = true
  /\ vessels (resolve_references (update_vessel_context later []) query) = ids
  /\ ((exists m, In m intent_refs /\ Spec.occurs_ci m query) ->
      domain <> EmptyString ->
      intent (resolve_references later query) = Some domain)
  /\ (domain = EmptyString ->
      intent (resolve_references later query) = None)
  /\ resolve_references (clear later) query = mkResolved [] None false.
Proof.
  intros Hids Hpron later.
  assert (Hctx : last_mentioned_vessels later = ids
                 /\ last_intent later = Some domain).
  { unfold later.
    destruct (add_messages_frame msgs
                (update_intent_context (update_vessel_context self ids)
                   domain)) as (_ & -> & ->).
    unfold update_vessel_context, update_intent_context.
    destruct ids; [congruence | split; reflexivity]. }
  destruct Hctx as [Hv Hi]. clearbody later.
  assert (Hp : Py.any (fun m => Py.contains m (Py.lower query)) pronouns
               = true) by (apply any_marker_iff; exact Hpron).
  assert (Ht : Py.truthy_list ids = true) by (now apply truthy_list_true).
  destruct (resolve_references_fields later query) as (Ev & Ei & Eh).
  rewrite Hv, Hi, Hp, Ht in *. cbn [andb] in *.
  split; [exact Ev|]. split; [now rewrite Eh|]. split; [|split; [|split]].
  - change (update_vessel_context later []) with later. exact Ev.
  - intros Hc Hd. rewrite Ei.
    apply any_marker_iff in Hc. rewrite Hc. cbn.
    destruct domain; [congruence | reflexivity].
  - intros Hd. rewrite Ei, Hd. cbn. now rewrite andb_false_r.
  - destruct (resolve_references_fields (clear later) query)
      as (Cv & Ci & Ch).
    cbn [clear last_mentioned_vessels last_intent Py.truthy_list
         Py.truthy_opt_str] in *.
    rewrite !andb_false_r in *.
    destruct (resolve_references (clear later) query) as [v i b].
    cbn in *. now subst.
Qed.

(** The round trip at work: the docstring's example, with a message added in
    between. *)
Lemma context_round_trip_witness :
  let later :=
    add_messages
      (update_intent_context
         (update_vessel_context (init 10) ["123456789"%string])
         "trajectory")
      [Examples.msg_a] in
  let query := "Show its trajectory again"%string in
  vessels (resolve_references later query) = ["123456789"%string]
  /\ has_reference (resolve_references later query) = true
  /\ vessels (resolve_references (update_vessel_context later []) query)
     = ["123456789"%string]
  /\ ((exists m, In m intent_refs /\ Spec.occurs_ci m query) ->
      "trajectory"%string <> EmptyString ->
      intent (resolve_references later query) = Some "trajectory"%string)
  /\ ("trajectory"%string = EmptyString ->
      intent (resolve_references later query) = None)
  /\ resolve_references (clear later) query = mkResolved [] None false.
Proof.
  apply (context_round_trip (init 10) ["123456789"%string] "trajectory"
           [Examples.msg_a] "Show its trajectory again").
  - discriminate.
  - exists "it"%string. split; [simpl; auto|].
    exists "Show "%string, "it"%string, "s trajectory again"%string.
    split; reflexivity.
Defined.

End MemoryOpsFacts.

(* ================================================================== *)
(** * Intent validator: every rule *)
(* ================================================================== *)

Section ValidatorRules.

Import Schemas.
Import PlanValidator.
Import ValidatorChecks.
Local Open Scope string_scope.

Variable repr_float : Q -> string.
Variable datetime : Type.
Variable fromisoformat : string -> Py.result datetime.
Variable datetime_lt : datetime -> datetime -> Py.result bool.

Lemma append_if_fired (c : bool) (m : string) (l : list string) :
  append_if c m l = (l ++ fired [(c, m)])%list.
Proof. destruct c; cbn; [reflexivity | now rewrite app_nil_r]. Qed.

Lemma if_append_if (b c : bool) (m : string) (l : list string) :
  (if b then append_if c m l else l) = append_if (b && c) m l.
Proof. now destruct b. Qed.

Lemma fired_app (a b : list (bool * string)) :
  fired (a ++ b) = (fired a ++ fired b)%list.
Proof. unfold fired. now rewrite filter_app, map_app. Qed.

Lemma fold_checks_fired {A} (check : A -> bool * string) (xs : list A) :
  forall l : list string,
    fold_left (fun errors x => append_if (fst (check x)) (snd (check x)) errors)
      xs l
    = (l ++ fired (List.map check xs))%list.
Proof.
  induction xs as [|x xs IH]; intros l; cbn [fold_left List.map].
  - unfold fired. cbn. now rewrite app_nil_r.
  - rewrite IH, append_if_fired.
    change (check x :: List.map check xs)
      with ([check x] ++ List.map check xs)%list.
    rewrite fired_app, <- app_assoc. now destruct (check x).
Qed.

Lemma fold_mmsi_fired (vs : list VesselIdentifier) (l : list string) :
  fold_left
    (fun errors vessel =>
       match mmsi vessel with
       | Some m =>
           append_if (Py.truthy_str m && negb (Validators.validate_mmsi m))
             ("Invalid MMSI format: " ++ m) errors
       | None => errors
       end)
    vs l
  = (l ++ fired (List.map mmsi_check vs))%list.
Proof.
  rewrite <- fold_checks_fired. revert l.
  induction vs as [|v vs IH]; intros l; cbn [fold_left]; [reflexivity|].
  rewrite IH. f_equal. unfold mmsi_check. now destruct (mmsi v).
Qed.

(** [validate] evaluates every check and returns the messages of those that
    fire, in the order of the code. *)
Lemma validate_fired (intent : CanonicalIntent) :
  validate repr_float datetime fromisoformat datetime_lt intent
  = fired (checks repr_float datetime fromisoformat datetime_lt intent).
Proof.
  unfold validate, checks. cbv zeta.
  rewrite (fold_checks_fired
             (fun keyword =>
                (Py.contains keyword (str_to_dict repr_float intent),
                 "Unsafe keyword detected: " ++ keyword))).
  rewrite !if_append_if.
  match goal with
  | |- context [if ?b then (if ?miss then (?l ++ [?m1])%list
                               else append_if ?c ?m2 ?l) else ?l] =>
      replace (if b then (if miss then (l ++ [m1])%list
                          else append_if c m2 l) else l)
        with (append_if (b && negb miss && c) m2
                (append_if (b && miss) m1 l))
        by (destruct b, miss, c; cbn; rewrite ?app_nil_r; reflexivity)
  end.
  rewrite !append_if_fired, fold_mmsi_fired.
  rewrite !fired_app. cbn [app].
  repeat match goal with
         | |- context [fired (?x :: ?y :: ?l)] =>
             change (fired (x :: y :: l)) with (fired ([x] ++ y :: l));
             rewrite (fired_app [x] (y :: l))
         end.
  rewrite <- !app_assoc. reflexivity.
Qed.

Lemma validate_In (intent : CanonicalIntent) (x : string) :
  In x (validate repr_float datetime fromisoformat datetime_lt intent)
  <-> In (true, x)
        (checks repr_float datetime fromisoformat datetime_lt intent).
Proof.
  rewrite validate_fired. unfold fired. rewrite in_map_iff. split.
  - intros ([c m] & <- & H). apply filter_In in H. cbn in H.
    destruct H as [H ->]. exact H.
  - intros H. exists (true, x). split; [reflexivity|].
    apply filter_In. now split.
Qed.

Lemma scope_eqb (s : VesselScope.t) (x : VesselScope.t) :
  String.eqb (VesselScope.str s) (VesselScope.str x) = true <-> s = x.
Proof. destruct s, x; cbn; split; congruence. Qed.

Lemma time_mode_eqb (s x : TimeMode.t) :
  String.eqb (TimeMode.str s) (TimeMode.str x) = true <-> s = x.
Proof. destruct s, x; cbn; split; congruence. Qed.

Lemma spatial_type_eqb (s x : SpatialType.t) :
  String.eqb (SpatialType.str s) (SpatialType.str x) = true <-> s = x.
Proof. destruct s, x; cbn; split; congruence. Qed.

Lemma data_source_eqb (s x : DataSource.t) :
  String.eqb (DataSource.str s) (DataSource.str x) = true <-> s = x.
Proof. destruct s, x; cbn; split; congruence. Qed.

Lemma domain_eqb (s x : Domain.t) :
  String.eqb (Domain.str s) (Domain.str x) = true <-> s = x.
Proof. destruct s, x; cbn; split; congruence. Qed.

Lemma task_eqb (s x : Task.t) :
  String.eqb (Task.str s) (Task.str x) = true <-> s = x.
Proof. destruct s, x; cbn; split; congruence. Qed.

(** Case analysis on the check that produced a reported message. *)
Ltac which_check H :=
  apply validate_In in H; unfold checks in H; cbv zeta in H;
  rewrite !in_app_iff in H; cbn [In] in H; rewrite !in_map_iff in H;
  repeat match type of H with
         | _ \/ _ => destruct H as [H | H]
         | False => contradiction
         | ex _ => let v := fresh "v" in
                   let Hv := fresh "Hv" in
                   destruct H as (v & H & Hv)
         end;
  try (unfold mmsi_check in H;
       match type of H with
       | context [mmsi ?v] => let E := fresh "Emmsi" in
                              destruct (mmsi v) eqn:E
       end);
  apply pair_equal_spec in H;
  let Hm := fresh "Hm" in
  destruct H as [H Hm];
  try discriminate H;
  try (cbn [append] in Hm; discriminate Hm).

(** The check to point at for a message that must be reported. *)
Ltac this_check :=
  solve [ reflexivity | left; this_check | right; this_check ].

Ltac reported :=
  apply validate_In; unfold checks; cbv zeta;
  rewrite !in_app_iff; cbn [In].

Lemma truthy_opt_str_blank (o : option string) :
  Py.truthy_opt_str o = false <-> blank o.
Proof.
  unfold blank. destruct o as [s|]; cbn; unfold Py.truthy_str.
  - rewrite negb_false_iff, String.eqb_eq. split.
    + intros ->. now right.
    + intros [H|H]; congruence.
  - split; auto.
Qed.

Lemma truthy_str_ne (s : string) :
  Py.truthy_str s = true <-> s <> EmptyString.
Proof.
  unfold Py.truthy_str. rewrite negb_true_iff. apply String.eqb_neq.
Qed.

(** X4.  Rule 1 of the validator (vessel scope against the number of listed
    vessels): each of its three messages is reported exactly when its own
    condition holds, whatever the other rules find: 'single' needs exactly
    one vessel, 'multiple' at least two, 'all' none. *)
Theorem validate_vessel_scope_rule (i : CanonicalIntent) :
  let errors := validate repr_float datetime fromisoformat datetime_lt i in
  (In "vessel_scope is 'single' but vessels list does not contain exactly 1 vessel"
      errors
   <-> vessel_scope i = VesselScope.single
       /\ List.length (vessels i) <> 1%nat)
  /\ (In "vessel_scope is 'multiple' but vessels list contains less than 2 vessels"
         errors
      <-> vessel_scope i = VesselScope.multiple
          /\ (List.length (vessels i) < 2)%nat)
  /\ (In "vessel_scope is 'all' but vessels list is not empty" errors
      <-> vessel_scope i = VesselScope.all /\ vessels i <> []).
Proof.
  cbv zeta. split; [|split]; split.
  - intros H. which_check H.
    apply andb_prop in H. destruct H as [H1 H2].
    apply (scope_eqb _ VesselScope.single) in H1.
    apply negb_true_iff, Nat.eqb_neq in H2. now split.
  - intros [H1 H2]. reported.
    apply Nat.eqb_neq in H2. rewrite H1, H2. this_check.
  - intros H. which_check H.
    apply andb_prop in H. destruct H as [H1 H2].
    apply (scope_eqb _ VesselScope.multiple) in H1.
    apply Nat.ltb_lt in H2. now split.
  - intros [H1 H2]. reported.
    apply Nat.ltb_lt in H2. rewrite H1, H2. this_check.
  - intros H. which_check H.
    apply andb_prop in H. destruct H as [H1 H2].
    apply (scope_eqb _ VesselScope.all) in H1.
    apply Nat.ltb_lt in H2. split; [exact H1|].
    intros E. rewrite E in H2. cbn in H2. lia.
  - intros [H1 H2]. reported.
    rewrite H1. destruct (vessels i) as [|v vs]; [congruence|].
    this_check.
Qed.

(** X5.  Rule 2 of the validator: 'Invalid MMSI format: m' is reported exactly
    when some listed vessel carries the non-empty MMSI text m and
    validate_mmsi rejects it.  Vessels identified by IMO number or by name
    only are not checked. *)
Theorem validate_mmsi_rule (i : CanonicalIntent) (m : string) :
  In ("Invalid MMSI format: " ++ m)
     (validate repr_float datetime fromisoformat datetime_lt i)
  <-> exists vessel,
        In vessel (vessels i) /\ mmsi vessel = Some m
        /\ m <> EmptyString /\ Validators.validate_mmsi m = false.
Proof.
  split.
  - intros H. which_check H.
    cbn [append] in Hm. injection Hm as ->.
    apply andb_prop in H. destruct H as [H1 H2].
    exists v. repeat split; try assumption.
    + now apply truthy_str_ne.
    + now apply negb_true_iff.
  - intros (v & Hv & Em & Hne & Hbad). reported.
    right. left. apply in_map_iff. exists v. split; [|exact Hv].
    unfold mmsi_check. rewrite Em, Hbad.
    apply truthy_str_ne in Hne. now rewrite Hne.
Qed.

(** X6.  Rule 3 of the validator (time constraint): a relative window needs a
    non-empty expression; an absolute window needs non-empty start and end,
    and, when both are given, they must parse as ISO datetimes with start
    strictly before end.  The two findings on an absolute window exclude each
    other. *)
Theorem validate_time_rule (i : CanonicalIntent) :
  let errors := validate repr_float datetime fromisoformat datetime_lt i in
  let tc := time_constraint i in
  (In "Time mode is 'relative' but no relative expression provided" errors
   <-> mode tc = TimeMode.relative /\ blank (relative tc))
  /\ (In "Time mode is 'absolute' but start/end not provided" errors
      <-> mode tc = TimeMode.absolute
          /\ (blank (start tc) \/ blank (end_ tc)))
  /\ (In "Invalid time range: start must be before end" errors
      <-> mode tc = TimeMode.absolute
          /\ ~ blank (start tc) /\ ~ blank (end_ tc)
          /\ ~ (exists s e ds de,
                  start tc = Some s /\ end_ tc = Some e
                  /\ fromisoformat s = Py.Ok ds
                  /\ fromisoformat e = Py.Ok de
                  /\ datetime_lt ds de = Py.Ok true)).
Proof.
  cbv zeta. split; [|split]; split.
  - intros H. which_check H.
    apply andb_prop in H. destruct H as [H1 H2].
    apply (time_mode_eqb _ TimeMode.relative) in H1.
    apply negb_true_iff, truthy_opt_str_blank in H2. now split.
  - intros [H1 H2]. reported.
    apply truthy_opt_str_blank in H2. rewrite H1, H2. this_check.
  - intros H. which_check H.
    apply andb_prop in H. destruct H as [H1 H2].
    apply (time_mode_eqb _ TimeMode.absolute) in H1.
    split; [exact H1|].
    apply orb_prop in H2.
    destruct H2 as [H2|H2]; apply negb_true_iff, truthy_opt_str_blank in H2;
      [now left | now right].
  - intros [H1 H2]. reported. rewrite H1.
    replace (negb (Py.truthy_opt_str (start (time_constraint i)))
             || negb (Py.truthy_opt_str (end_ (time_constraint i))))
      with true; [this_check|].
    symmetry. apply orb_true_iff.
    destruct H2 as [H2|H2]; apply truthy_opt_str_blank in H2; rewrite H2;
      [now left | now right].
  - intros H. which_check H.
    apply andb_prop in H. destruct H as [H H3].
    apply andb_prop in H. destruct H as [H1 H2].
    apply (time_mode_eqb _ TimeMode.absolute) in H1.
    apply negb_true_iff, orb_false_iff in H2. destruct H2 as [Hs He].
    apply negb_false_iff in Hs, He.
    apply negb_true_iff in H3.
    split; [exact H1|].
    split; [intros B; apply truthy_opt_str_blank in B; congruence|].
    split; [intros B; apply truthy_opt_str_blank in B; congruence|].
    intros (s & e & ds & de & Es & Ee & Ps & Pe & Hlt).
    unfold Validators.validate_time_range in H3.
    rewrite Hs, He, Es, Ee, Ps, Pe, Hlt in H3. discriminate H3.
  - intros (H1 & Hs & He & Hno). reported. rewrite H1.
    assert (Ts : Py.truthy_opt_str (start (time_constraint i)) = true).
    { destruct (Py.truthy_opt_str (start (time_constraint i))) eqn:E;
        [reflexivity|]. now apply truthy_opt_str_blank in E. }
    assert (Te : Py.truthy_opt_str (end_ (time_constraint i)) = true).
    { destruct (Py.truthy_opt_str (end_ (time_constraint i))) eqn:E;
        [reflexivity|]. now apply truthy_opt_str_blank in E. }
    assert (Hr : Validators.validate_time_range datetime fromisoformat
                   datetime_lt (start (time_constraint i))
                   (end_ (time_constraint i)) = false).
    { unfold Validators.validate_time_range. rewrite Ts, Te. cbn.
      destruct (start (time_constraint i)) as [s|]; [|reflexivity].
      destruct (end_ (time_constraint i)) as [e|]; [|reflexivity].
      destruct (fromisoformat s) as [ds|] eqn:Ps; [|reflexivity].
      destruct (fromisoformat e) as [de|] eqn:Pe; [|reflexivity].
      destruct (datetime_lt ds de) as [[|]|] eqn:Hlt; try reflexivity.
      exfalso. apply Hno. exists s, e, ds, de. repeat split; assumption. }
    rewrite Ts, Te, Hr. this_check.
Qed.

(** X7.  Rules 4 and 5 of the validator: the field that the selected spatial type
    or data source requires must be present: a coastal distance must be given
    and be positive, a polygon needs a non-empty polygon type, model
    inference needs a non-empty model name. *)
Theorem validate_required_fields_rule (i : CanonicalIntent) :
  let errors := validate repr_float datetime fromisoformat datetime_lt i in
  let sc := spatial_constraint i in
  let em := execution_mode i in
  (In "Spatial type is 'coastal_distance' but distance_nm is invalid" errors
   <-> type sc = SpatialType.coastal_distance
       /\ (distance_nm sc = None
           \/ exists d, distance_nm sc = Some d /\ (d <= 0)%Q))
  /\ (In "Spatial type is 'polygon' but polygon_type not provided" errors
      <-> type sc = SpatialType.polygon /\ blank (polygon_type sc))
  /\ (In "Execution mode is 'model_inference' but model_name not provided"
         errors
      <-> data_source em = DataSource.model_inference
          /\ blank (model_name em)).
Proof.
  cbv zeta. split; [|split]; split.
  - intros H. which_check H.
    apply andb_prop in H. destruct H as [H1 H2].
    apply (spatial_type_eqb _ SpatialType.coastal_distance) in H1.
    split; [exact H1|].
    destruct (distance_nm (spatial_constraint i)) as [d|]; [right|now left].
    exists d. split; [reflexivity|]. now apply Qle_bool_iff.
  - intros [H1 H2]. reported. rewrite H1.
    destruct H2 as [H2 | (d & H2 & Hd)]; rewrite H2.
    + this_check.
    + apply Qle_bool_iff in Hd. rewrite Hd. this_check.
  - intros H. which_check H.
    apply andb_prop in H. destruct H as [H1 H2].
    apply (spatial_type_eqb _ SpatialType.polygon) in H1.
    apply negb_true_iff, truthy_opt_str_blank in H2. now split.
  - intros [H1 H2]. reported.
    apply truthy_opt_str_blank in H2. rewrite H1, H2. this_check.
  - intros H. which_check H.
    apply andb_prop in H. destruct H as [H1 H2].
    apply (data_source_eqb _ DataSource.model_inference) in H1.
    apply negb_true_iff, truthy_opt_str_blank in H2. now split.
  - intros [H1 H2]. reported.
    apply truthy_opt_str_blank in H2. rewrite H1, H2. this_check.
Qed.

(** X8.  Rule 6 of the validator (domain against task): a loitering intent is
    reported exactly when its task is neither 'detect' nor 'show', a
    prediction intent exactly when its task is not 'predict'; the message
    names the offending task.  Trajectory and listing intents accept every
    task. *)
Theorem validate_domain_task_rule (i : CanonicalIntent) (t : Task.t) :
  let errors := validate repr_float datetime fromisoformat datetime_lt i in
  (In ("Incompatible: domain_intent 'loitering' with task_intent '"
       ++ Task.str t ++ "'") errors
   <-> domain_intent i = Domain.loitering /\ task_intent i = t
       /\ t <> Task.detect /\ t <> Task.show)
  /\ (In ("Incompatible: domain_intent 'prediction' with task_intent '"
          ++ Task.str t ++ "'") errors
      <-> domain_intent i = Domain.prediction /\ task_intent i = t
          /\ t <> Task.predict).
Proof.
  cbv zeta. split; split.
  - intros H. which_check H.
    apply andb_prop in H. destruct H as [H1 H2].
    apply (domain_eqb _ Domain.loitering) in H1.
    assert (Et : task_intent i = t).
    { cbn [append] in Hm. destruct (task_intent i), t; cbn in Hm;
        first [reflexivity | discriminate Hm]. }
    subst t. repeat split; try assumption;
      intros E; rewrite E in H2; discriminate H2.
  - intros (H1 & H2 & H3 & H4). reported. rewrite H1, H2.
    destruct t; try congruence; this_check.
  - intros H. which_check H.
    apply andb_prop in H. destruct H as [H1 H2].
    apply (domain_eqb _ Domain.prediction) in H1.
    assert (Et : task_intent i = t).
    { cbn [append] in Hm. destruct (task_intent i), t; cbn in Hm;
        first [reflexivity | discriminate Hm]. }
    subst t. repeat split; try assumption;
      intros E; rewrite E in H2; discriminate H2.
  - intros (H1 & H2 & H3). reported. rewrite H1, H2.
    destruct t; try congruence; this_check.
Qed.

(** X9.  Rule 7 of the validator: 'Unsafe keyword detected: k' is reported exactly
    when k is one of the six listed tokens and occurs in the text of the
    intent's dictionary, keys included. *)
Theorem validate_keyword_rule (i : CanonicalIntent) (k : string) :
  In ("Unsafe keyword detected: " ++ k)
     (validate repr_float datetime fromisoformat datetime_lt i)
  <-> In k unsafe_keywords
      /\ Py.contains k (str_to_dict repr_float i) = true.
Proof.
  split.
  - intros H. which_check H.
    cbn [append] in Hm. injection Hm as ->. now split.
  - intros [Hk Hc]. reported.
    do 3 right. apply in_map_iff. exists k. split; [|exact Hk].
    now rewrite Hc.
Qed.

End ValidatorRules.

(* ================================================================== *)
(** * MMSI format *)
(* ================================================================== *)

Section MmsiFormat.

Import ValidatorChecks.
Local Open Scope string_scope.

Lemma sapp_assoc (a b c : string) : (a ++ b) ++ c = a ++ b ++ c.
Proof. induction a as [|x a IH]; cbn; [reflexivity | now rewrite IH]. Qed.

Lemma sapp_nil_r (a : string) : a ++ EmptyString = a.
Proof. induction a as [|x a IH]; cbn; [reflexivity | now rewrite IH]. Qed.

Lemma all_chars_app (p : ascii -> bool) (a b : string) :
  all_chars p (a ++ b) = all_chars p a && all_chars p b.
Proof.
  unfold all_chars. induction a as [|x a IH]; cbn; [reflexivity|].
  now rewrite IH, andb_assoc.
Qed.

Lemma lstrip_split (s : string) :
  exists a, s = a ++ Py.lstrip s /\ all_chars Py.is_space a = true.
Proof.
  induction s as [|c s (a & E & Ha)]; [now exists EmptyString|].
  cbn [Py.lstrip]. destruct (Py.is_space c) eqn:Ec.
  - exists (String c a). cbn [append]. split; [now rewrite <- E|].
    unfold all_chars in *. cbn. now rewrite Ec.
  - now exists EmptyString.
Qed.

Lemma lstrip_app (a s : string) :
  all_chars Py.is_space a = true ->
  Py.lstrip (a ++ s) = Py.lstrip s.
Proof.
  unfold all_chars. induction a as [|c a IH]; cbn; [reflexivity|].
  intros H. apply andb_prop in H. destruct H as [-> H]. auto.
Qed.

Lemma rstrip_split (s : string) :
  exists b, s = Py.rstrip s ++ b /\ all_chars Py.is_space b = true.
Proof.
  induction s as [|c s (b & E & Hb)]; [now exists EmptyString|].
  cbn [Py.rstrip]. destruct (Py.rstrip s) as [|y r] eqn:Er.
  - cbn [append] in E. subst b. destruct (Py.is_space c) eqn:Ec.
    + exists (String c s). split; [reflexivity|].
      unfold all_chars in *. cbn. now rewrite Ec.
    + exists s. now split.
  - exists b. split; [|exact Hb].
    change (String c s = String c (String y r ++ b)). now f_equal.
Qed.

Lemma rstrip_spaces (b : string) :
  all_chars Py.is_space b = true -> Py.rstrip b = EmptyString.
Proof.
  unfold all_chars. induction b as [|c b IH]; cbn; [reflexivity|].
  intros H. apply andb_prop in H. destruct H as [Ec H].
  now rewrite (IH H), Ec.
Qed.

Lemma rstrip_app (s b : string) :
  all_chars Py.is_space b = true ->
  Py.rstrip (s ++ b) = Py.rstrip s.
Proof.
  intros Hb. induction s as [|c s IH]; cbn [append Py.rstrip].
  - now apply rstrip_spaces.
  - now rewrite IH.
Qed.

Lemma rstrip_last (s t : string) (c : ascii) :
  Py.rstrip s = t ++ String c EmptyString -> Py.is_space c = false.
Proof.
  revert t. induction s as [|x s IH]; intros t; cbn [Py.rstrip].
  - destruct t; discriminate.
  - destruct (Py.rstrip s) as [|y r] eqn:Er.
    + destruct (Py.is_space x) eqn:Ex.
      * destruct t; discriminate.
      * destruct t as [|z t]; cbn [append]; intros E.
        -- now injection E as <-.
        -- injection E as _ E. destruct t; discriminate.
    + destruct t as [|z t]; cbn [append]; intros E; [discriminate|].
      injection E as _ E. exact (IH _ E).
Qed.

Lemma rstrip_id (d : string) :
  all_chars (fun c => negb (Py.is_space c)) d = true -> Py.rstrip d = d.
Proof.
  unfold all_chars. induction d as [|c d IH]; cbn; [reflexivity|].
  intros H. apply andb_prop in H. destruct H as [Ec H].
  rewrite (IH H). apply negb_true_iff in Ec. rewrite Ec.
  now destruct d.
Qed.

Lemma digit_not_space (c : ascii) :
  Validators.is_digit c = true -> Py.is_space c = false.
Proof.
  unfold Validators.is_digit, Py.is_space. cbv zeta.
  intros H. apply andb_prop in H. destruct H as [H1 H2].
  apply Nat.leb_le in H1, H2.
  apply orb_false_iff. split; apply andb_false_iff.
  - right. apply Nat.leb_gt. lia.
  - right. apply Nat.leb_gt. lia.
Qed.

Lemma digits_not_spaces (d : string) :
  all_chars Validators.is_digit d = true ->
  all_chars (fun c => negb (Py.is_space c)) d = true.
Proof.
  unfold all_chars. induction d as [|c d IH]; cbn; [reflexivity|].
  intros H. apply andb_prop in H. destruct H as [Ec H].
  now rewrite (digit_not_space _ Ec), IH.
Qed.

Lemma match_digits_split (n : nat) :
  forall s rest,
    Validators.match_digits n s = Some rest
    <-> exists d, s = d ++ rest /\ String.length d = n
                  /\ all_chars Validators.is_digit d = true.
Proof.
  induction n as [|n IH]; intros s rest; cbn [Validators.match_digits].
  - split.
    + intros [= ->]. now exists EmptyString.
    + intros (d & -> & Hl & _). destruct d; [reflexivity | discriminate].
  - split.
    + destruct s as [|c s]; [discriminate|].
      destruct (Validators.is_digit c) eqn:Ec; [|discriminate].
      intros H. apply IH in H. destruct H as (d & -> & Hl & Hd).
      exists (String c d). cbn. unfold all_chars in *. cbn.
      now rewrite Hl, Ec, Hd.
    + intros (d & -> & Hl & Hd). destruct d as [|c d]; [discriminate|].
      cbn [append]. unfold all_chars in Hd. cbn in Hd.
      apply andb_prop in Hd. destruct Hd as [-> Hd].
      apply IH. exists d. cbn in Hl. injection Hl as Hl. now repeat split.
Qed.

(** X10.  Among ASCII texts, validate_mmsi accepts exactly those made of nine
    digits with any amount of white space before and after, and nothing
    else: no sign, no inner blank, and no text of another length. *)
Theorem validate_mmsi_accepts (mmsi : string) :
  Py.is_ascii mmsi = true ->
  (Validators.validate_mmsi mmsi = true
   <-> exists a d b,
         mmsi = a ++ d ++ b
         /\ all_chars Py.is_space a = true
         /\ all_chars Py.is_space b = true
         /\ String.length d = 9%nat
         /\ all_chars Validators.is_digit d = true).
Proof.
  intros _.
  unfold Validators.validate_mmsi, Validators.re_match_nine_digits, Py.strip.
  cbv zeta. split.
  - destruct (negb (Py.truthy_str mmsi)); [discriminate|].
    destruct (Validators.match_digits 9 (Py.rstrip (Py.lstrip mmsi)))
      as [rest|] eqn:Em; [|discriminate].
    apply match_digits_split in Em. destruct Em as (d & Ed & Hl & Hd).
    intros H. apply orb_prop in H.
    destruct H as [H|H]; apply String.eqb_eq in H; subst rest.
    + rewrite sapp_nil_r in Ed.
      destruct (lstrip_split mmsi) as (a & Ea & Ha).
      destruct (rstrip_split (Py.lstrip mmsi)) as (b & Eb & Hb).
      exists a, d, b. rewrite Ed in Eb. rewrite <- Eb. now repeat split.
    + apply rstrip_last in Ed. discriminate Ed.
  - intros (a & d & b & -> & Ha & Hb & Hl & Hd).
    assert (Ed : exists c r, d = String c r).
    { destruct d as [|c r]; [discriminate | now exists c, r]. }
    destruct Ed as (c & r & Ed).
    assert (Hc : Py.is_space c = false).
    { apply digit_not_space. subst d. unfold all_chars in Hd. cbn in Hd.
      now apply andb_prop in Hd. }
    replace (negb (Py.truthy_str (a ++ d ++ b))) with false.
    2:{ symmetry. apply negb_false_iff, truthy_str_ne.
        subst d. destruct a; discriminate. }
    rewrite (lstrip_app _ _ Ha).
    replace (Py.lstrip (d ++ b)) with (d ++ b)
      by (subst d; cbn [append Py.lstrip]; now rewrite Hc).
    rewrite (rstrip_app _ _ Hb), (rstrip_id _ (digits_not_spaces _ Hd)).
    assert (Em : Validators.match_digits 9 d = Some EmptyString).
    { apply match_digits_split. exists d. now rewrite sapp_nil_r. }
    now rewrite Em.
Qed.

(** An MMSI between a blank and a tab is accepted; one with a blank inside
    is not. *)
Lemma validate_mmsi_accepts_witness :
  (Validators.validate_mmsi (String " " ("123456789" ++ String (ascii_of_nat 9) ""))
   = true
   <-> exists a d b,
         String " " ("123456789" ++ String (ascii_of_nat 9) "") = a ++ d ++ b
         /\ all_chars Py.is_space a = true
         /\ all_chars Py.is_space b = true
         /\ String.length d = 9%nat
         /\ all_chars Validators.is_digit d = true)
  /\ Validators.validate_mmsi "1234 56789" = false.
Proof.
  split; [|reflexivity].
  apply (validate_mmsi_accepts
           (String " " ("123456789" ++ String (ascii_of_nat 9) ""))).
  reflexivity.
Defined.

End MmsiFormat.

(* ================================================================== *)
(** * Loitering detector: what every reported event satisfies *)
(* ================================================================== *)

Section DetectorInvariants.

Import TrackPoint.
Import LoiteringService.

Variable pd : Pandas.Numerics.

Lemma gaps_within_hour_of_segment (rows seg : list TrackPoint.t) :
  In seg (Spec.segments rows) ->
  Spec.gaps_within_hour (List.map timestamp seg).
Proof.
  intros Hseg. destruct rows as [|x rows]; [contradiction|].
  destruct (segments_spec rows x) as (_ & _ & _ & _ & Hall & _).
  rewrite Forall_forall in Hall. exact (proj2 (Hall seg Hseg)).
Qed.

(** X11.  Every event reported by the detector stands for a run of at least
    two observed points of its vessel that are all below the speed
    threshold in force and follow one another at most one hour apart: the
    event counts these points, starts at the least and ends at the greatest
    of their timestamps (start is not after end), its dwell time is that
    span put in hours and reaches the dwell threshold in force, and its
    average speed and centre are the means of the speeds and positions of
    these points. *)
Theorem detect_loitering_event_sound (self : LoiteringService.t)
  (df : list TrackPoint.t) (st dw : option Float.t)
  (sc : option Schemas.SpatialConstraint) (e : LoiteringEvent.t) :
  let thr := or_default st (speed_threshold self) in
  let dwell := or_default dw (dwell_time_hours self) in
  In e (detect_loitering pd self df st dw sc) ->
  exists seg,
    (forall p, In p seg ->
       In p df /\ mmsi p = LoiteringEvent.mmsi e
       /\ Float.ltb (sog p) thr = true)
    /\ Spec.gaps_within_hour (List.map timestamp seg)
    /\ LoiteringEvent.num_points e = List.length seg
    /\ (2 <= LoiteringEvent.num_points e)%nat
    /\ Spec.bounds (List.map timestamp seg)
         (LoiteringEvent.start_time e) (LoiteringEvent.end_time e)
    /\ LoiteringEvent.start_time e <= LoiteringEvent.end_time e
    /\ LoiteringEvent.dwell_time_hours e
       = dwell_time pd (LoiteringEvent.start_time e)
           (LoiteringEvent.end_time e)
    /\ Float.leb dwell (LoiteringEvent.dwell_time_hours e) = true
    /\ LoiteringEvent.avg_speed e
       = Pandas.series_mean pd (List.map sog seg)
    /\ LoiteringEvent.center_latitude e
       = Pandas.series_mean pd (List.map latitude seg)
    /\ LoiteringEvent.center_longitude e
       = Pandas.series_mean pd (List.map longitude seg).
Proof.
  intros thr dwell H.
  apply detect_loitering_In in H. destruct H as (m & seg & Hseg & He).
  fold thr in Hseg. fold dwell in He.
  apply event_of_In in He.
  destruct He as (Hlen & lo & hi & Hb & Hd & ->).
  cbn [LoiteringEvent.num_points LoiteringEvent.dwell_time_hours
       LoiteringEvent.start_time LoiteringEvent.end_time
       LoiteringEvent.avg_speed LoiteringEvent.mmsi
       LoiteringEvent.center_latitude LoiteringEvent.center_longitude].
  exists seg. split.
  { intros p Hp.
    pose proof (In_concat_segments _ _ _ Hseg Hp) as Hs.
    apply (proj1 (In_sort (fun a b => timestamp a <=? timestamp b) _ _))
      in Hs.
    apply filter_In in Hs. destruct Hs as [Hs Hm].
    apply String.eqb_eq in Hm. unfold filter_slow in Hs.
    apply filter_In in Hs. destruct Hs as [Hs Hv]. auto. }
  split; [exact (gaps_within_hour_of_segment _ _ Hseg)|].
  split; [reflexivity|]. split; [exact Hlen|]. split; [exact Hb|].
  split; [destruct Hb as (Hlo & _ & Hb); apply (Hb lo Hlo)|].
  split; [reflexivity|]. split; [exact Hd|]. repeat split.
Qed.

(** X12.  The spatial constraint of a request has no effect on the detector: the
    post-filter returns the events unchanged for every spatial type, so
    detection with any constraint equals detection without one. *)
Theorem detect_loitering_ignores_spatial_constraint
  (self : LoiteringService.t) (df : list TrackPoint.t)
  (st dw : option Float.t) (sc : option Schemas.SpatialConstraint) :
  detect_loitering pd self df st dw sc
  = detect_loitering pd self df st dw None
  /\ forall events c, _apply_spatial_filter events c = events.
Proof.
  split; [now rewrite !detect_loitering_events|].
  apply _apply_spatial_filter_id.
Qed.

(** X13.  The events reported for one vessel are exactly those the detector
    reports when it is given that vessel's points alone: the points of other
    vessels never change them. *)
Theorem detect_loitering_per_vessel (self : LoiteringService.t)
  (df : list TrackPoint.t) (st dw : option Float.t)
  (sc : option Schemas.SpatialConstraint) (m : string) :
  filter (fun e => String.eqb (LoiteringEvent.mmsi e) m)
    (detect_loitering pd self df st dw sc)
  = detect_loitering pd self (filter (fun p => String.eqb (mmsi p) m) df)
      st dw sc.
Proof.
  rewrite !detect_loitering_events.
  set (thr := or_default st (speed_threshold self)).
  set (dwell := or_default dw (dwell_time_hours self)).
  set (slow := filter_slow thr df).
  assert (Eslow : filter_slow thr (filter (fun p => String.eqb (mmsi p) m) df)
                  = filter (fun p => String.eqb (mmsi p) m) slow)
    by apply filter_comm.
  rewrite Eslow.
  set (own := filter (fun p => String.eqb (mmsi p) m) slow).
  unfold Pandas.groupby at 1. rewrite flat_map_concat_map, map_map.
  rewrite <- flat_map_concat_map. cbn [fst snd].
  rewrite filter_flat_map.
  rewrite (flat_map_one _ m).
  - fold own.
    rewrite (filter_id _ (vessel_events pd dwell m own))
      by (intros e He; apply String.eqb_eq;
          exact (vessel_events_mmsi _ _ _ _ _ He)).
    destruct (existsb (String.eqb m) _) eqn:Ex.
    + apply (proj1 (existsb_eqb String.eqb String.eqb_eq _ _)) in Ex.
      apply (proj1 (In_sort _ _ _)) in Ex.
      apply (proj1 (In_unique String.eqb String.eqb_eq _ _)) in Ex.
      rewrite (groupby_constant String.eqb String.eqb_eq String.leb mmsi m).
      * cbn. now rewrite app_nil_r.
      * apply in_map_iff in Ex. destruct Ex as (p & Ep & Hp).
        intros E. assert (Hin : In p own).
        { apply filter_In. split; [exact Hp | now apply String.eqb_eq]. }
        rewrite E in Hin. exact Hin.
      * intros r Hr. apply filter_In in Hr. now apply String.eqb_eq.
    + assert (E : own = []).
      { apply (filter_none String.eqb String.eqb_eq).
        intros Hin.
        apply (proj2 (In_unique String.eqb String.eqb_eq _ _)) in Hin.
        apply (proj2 (In_sort String.leb _ _)) in Hin.
        apply (proj2 (existsb_eqb String.eqb String.eqb_eq _ _)) in Hin.
        congruence. }
      now rewrite E.
  - apply NoDup_sorted_keys.
  - intros k Hk.
    destruct (filter _ (vessel_events pd dwell k _)) as [|e es] eqn:E;
      [reflexivity|].
    assert (He : In e (e :: es)) by now left.
    rewrite <- E in He. apply filter_In in He. destruct He as [He Hm].
    apply String.eqb_eq in Hm. apply vessel_events_mmsi in He. congruence.
Qed.

End DetectorInvariants.

(** The event of the five slow points spanning four hours: the run is the
    five points in time order. *)
Lemma detect_loitering_event_sound_witness :
  exists e seg,
    In e (LoiteringService.detect_loitering Examples.numerics
            LoiteringService.init Examples.dwell_track None None None)
    /\ (forall p, In p seg -> In p Examples.dwell_track)
    /\ LoiteringEvent.num_points e = List.length seg
    /\ (2 <= LoiteringEvent.num_points e)%nat
    /\ Float.leb (Float.of_Z 4) (LoiteringEvent.dwell_time_hours e) = true.
Proof.
  eexists.
  pose proof (detect_loitering_event_sound Examples.numerics
                LoiteringService.init Examples.dwell_track
                None None None _ (or_introl eq_refl)) as H.
  cbv zeta in H.
  destruct H as (seg & H1 & _ & H3 & H4 & _ & _ & _ & H8 & _).
  exists seg. split; [vm_compute; left; reflexivity|].
  split; [intros p Hp; exact (proj1 (H1 p Hp))|].
  split; [exact H3|]. split; [exact H4 | exact H8].
Defined.

(* ================================================================== *)
(** * Vessel resolution *)
(* ================================================================== *)

Section ResolverFacts.

Import Schemas.

(** The MMSI texts that [resolve] looks at: present and non-empty. *)
Lemma resolve_fold (verify : string -> bool) (vs : list VesselIdentifier) :
  forall acc,
    fold_left
      (fun resolved_mmsis vessel =>
         match mmsi vessel with
         | Some m =>
             if Py.truthy_str m
             then if verify m then resolved_mmsis ++ [m]
                  else resolved_mmsis
             else resolved_mmsis
         | None => resolved_mmsis
         end)
      vs acc
    = acc ++ filter verify
               (flat_map (fun v => match mmsi v with
                                   | Some m => if Py.truthy_str m then [m]
                                               else []
                                   | None => []
                                   end) vs).
Proof.
  induction vs as [|v vs IH]; intros acc; cbn [fold_left flat_map].
  - now rewrite app_nil_r.
  - rewrite IH, filter_app.
    destruct (mmsi v) as [m|]; [|reflexivity].
    destruct (Py.truthy_str m); [|reflexivity].
    cbn [filter]. destruct (verify m); [|reflexivity].
    now rewrite <- app_assoc.
Qed.

(** X14.  Vessel resolution returns, in the order of the request and with
    repetitions kept, exactly the non-empty MMSI texts of the listed vessels
    that the store confirms.  A vessel given by IMO number or name only
    resolves to nothing, so the result is never longer than the request, and
    no identifier is made up. *)
Theorem resolve_keeps_verified_mmsis (verify : string -> bool)
  (vs : list VesselIdentifier) :
  let resolved := VesselResolver.resolve verify vs in
  (forall m, In m resolved
             <-> exists v, In v vs /\ mmsi v = Some m
                           /\ m <> EmptyString /\ verify m = true)
  /\ (List.length resolved <= List.length vs)%nat
  /\ (forall v, mmsi v = None -> VesselResolver.resolve verify [v] = [])
  /\ (forall vs1 vs2,
        VesselResolver.resolve verify (vs1 ++ vs2)
        = VesselResolver.resolve verify vs1
          ++ VesselResolver.resolve verify vs2).
Proof.
  cbv zeta. unfold VesselResolver.resolve.
  split; [|split; [|split]].
  - intros m. rewrite resolve_fold. cbn [app].
    rewrite filter_In, in_flat_map. split.
    + intros ((v & Hv & Hm) & Hver). exists v.
      destruct (mmsi v) as [m'|]; [|contradiction].
      destruct (Py.truthy_str m') eqn:Et; [|contradiction].
      destruct Hm as [->|[]]. repeat split; auto.
      now apply truthy_str_ne.
    + intros (v & Hv & Em & Hne & Hver). split; [|exact Hver].
      exists v. split; [exact Hv|]. rewrite Em.
      apply truthy_str_ne in Hne. rewrite Hne. now left.
  - rewrite resolve_fold. cbn [app].
    etransitivity; [apply filter_length_le|].
    induction vs as [|v vs IH]; cbn [flat_map List.length]; [lia|].
    rewrite length_app.
    destruct (mmsi v) as [m|]; [destruct (Py.truthy_str m)|]; cbn; lia.
  - intros v E. cbn. now rewrite E.
  - intros vs1 vs2. rewrite !resolve_fold. cbn [app].
    now rewrite flat_map_app, filter_app.
Qed.

End ResolverFacts.

(* ================================================================== *)
(** * Runs of the stage graph: trace, memory and outcome *)
(* ================================================================== *)

Section RunFacts.

Import Graph.
Import StageTrace.

Context {datetime Data : Type}.
Variable svc : Services datetime Data.

Ltac split_matches :=
  repeat match goal with
         | |- context [match ?x with _ => _ end] => destruct x eqn:?
         end.

Ltac open_nodes :=
  unfold resolve_references_node, parse_intent_node, validate_plan_node,
    resolve_vessels_node, trajectory_pipeline_node,
    loitering_pipeline_node, response_builder_node, fetch_raw_trajectory.

Ltac state_cbn :=
  cbn [snd fst user_query conversation_history canonical_intent
       validation_errors vessel_ids resolved_time_range dataframe result
       execution_log error model_name log set_error set_dataframe
       set_result set_vessel_ids set_resolved_time_range
       set_validation_errors set_canonical_intent].

(** Every stage appends to the trace, its own entry first. *)
Lemma node_entry (n : Node) (w : World datetime Data) :
  exists rest,
    execution_log (snd (node_fn svc n w))
    = execution_log (snd w) ++ stage_entry n :: rest.
Proof.
  destruct w as [mm st].
  destruct n; cbn [node_fn stage_entry]; open_nodes; split_matches;
    state_cbn; rewrite <- ?app_assoc; cbn [app]; eexists; reflexivity.
Qed.

(** No stage clears an error. *)
Lemma node_error_sticky (n : Node) (w : World datetime Data) :
  error (snd (node_fn svc n w)) = None -> error (snd w) = None.
Proof.
  destruct w as [mm st].
  destruct n; cbn [node_fn]; open_nodes; split_matches; state_cbn;
    intros H; first [exact H | discriminate H].
Qed.

Ltac as_node_fn :=
  repeat first
    [ progress change (resolve_references_node ?w)
        with (node_fn svc resolve_references w)
    | progress change (parse_intent_node svc ?w)
        with (node_fn svc parse_intent w)
    | progress change (validate_plan_node svc ?w)
        with (node_fn svc validate_plan w)
    | progress change (resolve_vessels_node svc ?w)
        with (node_fn svc resolve_vessels w)
    | progress change (response_builder_node svc ?w)
        with (node_fn svc response_builder w) ].

Lemma node_keeps_memory (n : Node) (w : World datetime Data) :
  n <> response_builder -> fst (node_fn svc n w) = fst w.
Proof. intros Hn. exact (proj2 (node_keeps_result svc n w Hn)). Qed.

(** No stage rewrites the query. *)
Lemma node_user_query (n : Node) (w : World datetime Data) :
  user_query (snd (node_fn svc n w)) = user_query (snd w).
Proof.
  destruct w as [mm st].
  destruct n; cbn [node_fn]; open_nodes; split_matches; reflexivity.
Qed.

(** X15.  The trace of a run lists the executed stages in order: it is the initial
    trace followed by one block of entries per executed stage, each block
    starting with the entry of its stage. *)
Theorem trace_lists_stages (mm : MemoryManager.t)
  (st0 : AgentState datetime Data) :
  let r := invoke svc mm st0 in
  exists blocks,
    execution_log (snd (world r)) = execution_log st0 ++ concat blocks
    /\ Forall2 (fun n block => exists rest, block = stage_entry n :: rest)
         (path r) blocks.
Proof.
  unfold invoke.
  apply (invoke_from_invariant svc
           (fun done w =>
              exists blocks,
                execution_log (snd w) = execution_log st0 ++ concat blocks
                /\ Forall2
                     (fun n block =>
                        exists rest, block = stage_entry n :: rest)
                     done blocks)).
  - intros n w done (blocks & E & Hb).
    destruct (node_entry n w) as (rest & En).
    exists (blocks ++ [stage_entry n :: rest]). split.
    + rewrite En, E, concat_app. cbn [concat].
      now rewrite app_nil_r, app_assoc.
    + apply Forall2_app; [exact Hb|].
      constructor; [now exists rest | constructor].
  - exists []. cbn. split; [now rewrite app_nil_r | constructor].
Qed.

(** X17.  When the planner fails, the run stops after validation, but the error
    it reports is the validator's failure on the missing intent: the
    planner's own message is overwritten and appears nowhere in the answer.
    Nothing else is produced and the memory is left as it was. *)
Theorem planner_failure_is_overwritten (mm : MemoryManager.t)
  (query : string) (history : option (list MemoryManager.Message))
  (model e : string) :
  intent_parser_parse svc query
    (conversation_history
       (create_initial_state query history model : AgentState datetime Data))
    model
  = Py.Raise e ->
  let out := run_query svc mm query history model in
  fst out = mm
  /\ qr_success (snd out) = false
  /\ qr_error (snd out)
     = Some "Plan validation failed: 'NoneType' object has no attribute 'vessel_scope'"%string
  /\ qr_result (snd out) = None
  /\ qr_canonical_intent (snd out) = None
  /\ qr_vessel_count (snd out) = 0%nat
  /\ exists resolved,
       (List.length resolved <= 1)%nat
       /\ qr_execution_log (snd out)
          = ("Resolving references"%string :: resolved)
            ++ ["Parsing intent with LLM"%string; "Validating plan"%string].
Proof.
  intros Hparse out. unfold out, run_query. clear out.
  set (st0 := create_initial_state query history model
              : AgentState datetime Data) in *.
  set (w3 := validate_plan_node svc
               (parse_intent_node svc (resolve_references_node (mm, st0)))).
  assert (Hw3 : fst w3 = mm
                /\ error (snd w3)
                   = Some "Plan validation failed: 'NoneType' object has no attribute 'vessel_scope'"%string
                /\ result (snd w3) = None
                /\ canonical_intent (snd w3) = None
                /\ vessel_ids (snd w3) = []
                /\ exists resolved,
                     (List.length resolved <= 1)%nat
                     /\ execution_log (snd w3)
                        = ("Resolving references"%string :: resolved)
                          ++ ["Parsing intent with LLM"%string;
                              "Validating plan"%string]).
  { unfold w3, resolve_references_node.
    destruct (MemoryManager.has_reference _);
      unfold parse_intent_node; state_cbn;
      change (user_query st0) with query; change (model_name st0) with model;
      rewrite Hparse; unfold validate_plan_node; state_cbn;
      change (canonical_intent st0) with (@None Schemas.CanonicalIntent);
      cbv iota; state_cbn;
      change (execution_log st0) with (@nil string); cbn [app];
      (repeat split; try reflexivity);
      [ exists [("Resolved references: "
                 ++ str_resolved
                      (MemoryManager.resolve_references mm query))%string]
      | exists [] ];
      (split; [cbn; lia | reflexivity]). }
  destruct Hw3 as (Hm & He & Hr & Hi & Hv & Hlog).
  assert (Hstop : should_continue_after_validation (snd w3)
                  = "error"%string).
  { unfold should_continue_after_validation. now rewrite He. }
  rewrite (invoke_stops svc mm st0 Hstop). fold w3.
  cbn [raised world fst snd qr_success qr_error qr_result
       qr_canonical_intent qr_vessel_count qr_execution_log].
  rewrite He, Hr, Hi, Hv. repeat split; try assumption; reflexivity.
Qed.

Lemma node_without_log (n : Node) (mm mm' : MemoryManager.t)
  (s s' : AgentState datetime Data) :
  without_log s = without_log s' ->
  without_log (snd (node_fn svc n (mm, s)))
  = without_log (snd (node_fn svc n (mm', s'))).
Proof.
  destruct s, s'. unfold without_log at 1 2. state_cbn.
  intros [= -> -> -> -> -> -> -> -> -> ->].
  destruct n; cbn [node_fn]; open_nodes; state_cbn; split_matches;
    reflexivity.
Qed.

Lemma next_without_log (n : Node) (s s' : AgentState datetime Data) :
  without_log s = without_log s' -> next n s = next n s'.
Proof.
  destruct s, s'. unfold without_log. state_cbn.
  intros [= -> -> -> -> -> -> -> -> -> ->].
  destruct n; reflexivity.
Qed.

Lemma invoke_from_without_log (fuel : nat) :
  forall (n : Node) (mm mm' : MemoryManager.t)
         (s s' : AgentState datetime Data) (done : list Node),
    without_log s = without_log s' ->
    let r := invoke_from svc fuel n (mm, s) done in
    let r' := invoke_from svc fuel n (mm', s') done in
    path r = path r' /\ raised r = raised r'
    /\ without_log (snd (world r)) = without_log (snd (world r')).
Proof.
  induction fuel as [|fuel IH]; intros n mm mm' s s' done H; cbv zeta.
  - cbn. auto.
  - rewrite !invoke_from_step.
    pose proof (node_without_log n mm mm' s s' H) as H1.
    destruct (node_fn svc n (mm, s)) as [m1 s1].
    destruct (node_fn svc n (mm', s')) as [m1' s1'].
    cbn [snd] in *. rewrite (next_without_log n s1 s1' H1).
    destruct (next n s1') as [[n'|]|e]; cbn [path raised world snd];
      [apply IH; exact H1 | auto | auto].
Qed.

(** X18.  The conversational memory does not steer a run: started on the same
    state with two different memories, a run executes the same stages and
    ends in the same state, the trace apart (the first stage writes what it
    resolved from the memory into the trace, and nothing reads it).  So the
    answer of run_query, its trace apart, does not depend on what earlier
    queries left in the memory. *)
Theorem memory_does_not_steer_the_run (mm mm' : MemoryManager.t) :
  (forall st0 : AgentState datetime Data,
      let r := invoke svc mm st0 in
      let r' := invoke svc mm' st0 in
      path r = path r' /\ raised r = raised r'
      /\ without_log (snd (world r)) = without_log (snd (world r')))
  /\ (forall (query : string)
        (history : option (list MemoryManager.Message)) (model : string),
        let a := snd (run_query svc mm query history model) in
        let b := snd (run_query svc mm' query history model) in
        qr_success a = qr_success b
        /\ qr_result a = qr_result b
        /\ qr_error a = qr_error b
        /\ qr_canonical_intent a = qr_canonical_intent b
        /\ qr_vessel_count a = qr_vessel_count b).
Proof.
  assert (Hrun : forall st0 : AgentState datetime Data,
             let r := invoke svc mm st0 in
             let r' := invoke svc mm' st0 in
             path r = path r' /\ raised r = raised r'
             /\ without_log (snd (world r)) = without_log (snd (world r'))).
  { intros st0. apply invoke_from_without_log. reflexivity. }
  split; [exact Hrun|].
  intros query history model. cbv zeta. unfold run_query.
  destruct (Hrun (create_initial_state query history model))
    as (_ & Hraised & Hstate).
  rewrite Hraised.
  destruct (raised (invoke svc mm' _)); cbn [snd qr_success qr_result
    qr_error qr_canonical_intent qr_vessel_count]; [now repeat split|].
  destruct (snd (world (invoke svc mm _))),
           (snd (world (invoke svc mm' _))).
  unfold without_log in Hstate. state_cbn.
  injection Hstate as -> -> -> -> -> -> -> -> -> ->.
  now repeat split.
Qed.

End RunFacts.

(** A planner that cannot be reached. *)
Lemma planner_failure_is_overwritten_witness :
  let svc : Graph.Services Z unit :=
    Graph.mkServices
      (fun _ _ _ => Py.Raise "connection refused"%string)
      Examples.shipped_validate
      (Py.Ok [])
      (fun _ => true)
      (fun _ => Py.Ok (0, 0))
      (fun _ => Py.Raise "Invalid isoformat string"%string)
      (fun _ _ _ _ => Py.Ok [])
      LoiteringService.init
      Examples.numerics
      Examples.count_rows
      Py.str_int in
  let out := Graph.run_query svc (MemoryManager.init 10) Examples.query None
               "llama3" in
  fst out = MemoryManager.init 10
  /\ Graph.qr_success (snd out) = false
  /\ Graph.qr_error (snd out)
     = Some "Plan validation failed: 'NoneType' object has no attribute 'vessel_scope'"%string
  /\ Graph.qr_result (snd out) = None
  /\ Graph.qr_canonical_intent (snd out) = None
  /\ Graph.qr_vessel_count (snd out) = 0%nat
  /\ exists resolved,
       (List.length resolved <= 1)%nat
       /\ Graph.qr_execution_log (snd out)
          = ("Resolving references"%string :: resolved)
            ++ ["Parsing intent with LLM"%string; "Validating plan"%string].
Proof.
  cbv zeta.
  apply (planner_failure_is_overwritten
           (Graph.mkServices
              (fun _ _ _ => Py.Raise "connection refused"%string)
              Examples.shipped_validate
              (Py.Ok [])
              (fun _ => true)
              (fun _ => Py.Ok (0, 0))
              (fun _ => Py.Raise "Invalid isoformat string"%string)
              (fun _ _ _ _ => Py.Ok [])
              LoiteringService.init
              Examples.numerics
              Examples.count_rows
              Py.str_int)
           (MemoryManager.init 10) Examples.query None "llama3"
           "connection refused").
  reflexivity.
Defined.

(* ================================================================== *)
(** * Responses: limit, count and format *)
(* ================================================================== *)

Section ResponseFacts.

Import ResponseBuilder.
Import ResponseFormats.

Variable format_2f : Float.t -> string.
Variable str_timestamp : Z -> string.
Variable pd : Pandas.Numerics.

Lemma head_length {A} (n : Z) (rows : list A) :
  Z.of_nat (List.length (head n rows))
  = if 0 <=? n then Z.min n (Z.of_nat (List.length rows))
    else Z.max 0 (Z.of_nat (List.length rows) + n).
Proof.
  unfold head. destruct (0 <=? n) eqn:E; rewrite length_firstn; lia.
Qed.

Lemma head_frame_len (n : Z) (df : DataFrame.t) :
  Z.of_nat (DataFrame.len (head_frame n df))
  = if 0 <=? n then Z.min n (Z.of_nat (DataFrame.len df))
    else Z.max 0 (Z.of_nat (DataFrame.len df) + n).
Proof. destruct df; apply head_length. Qed.

Lemma formatter_count (df : DataFrame.t) (fmt : OutputFormat.t)
  (limit : Z) :
  exists response,
    formatter format_2f str_timestamp pd df fmt limit = Py.Ok response
    /\ count response = Z.of_nat (DataFrame.len (head_frame limit df))
    /\ (message response = None
        <-> fmt = OutputFormat.summary
            /\ DataFrame.len (head_frame limit df) = 0%nat).
Proof.
  unfold formatter. cbv zeta.
  destruct fmt; cbn [OutputFormat.str String.eqb Ascii.eqb Bool.eqb];
    cbv iota; eexists; (split; [reflexivity|]).
  - unfold build_map_response.
    destruct (head_frame limit df) as [rows|rows]; cbn.
    + rewrite length_map. split; [reflexivity|].
      split; [discriminate | intros [H _]; discriminate H].
    + split; [reflexivity|].
      split; [discriminate | intros [H _]; discriminate H].
  - cbn. split; [reflexivity|].
    split; [discriminate | intros [H _]; discriminate H].
  - unfold build_summary, DataFrame.empty.
    destruct (DataFrame.len (head_frame limit df)) as [|k] eqn:E.
    + cbn. split; [reflexivity|]. split; auto.
    + cbn [Nat.eqb]. cbv iota zeta. cbn [count message].
      split; [reflexivity|].
      split; [discriminate | intros [_ H]; discriminate H].
Qed.

(** X19.  build_response never fails and never returns more rows than asked for:
    a missing or empty frame gives the fixed answer with count 0; otherwise
    the count is the number of rows left by the limit: the smaller of the
    limit and the number of rows for a limit of 0 or more, and the rows but
    the last -limit for a negative one.  With a limit of at least 1 a
    non-empty frame always yields a positive count and a message.  The only
    answer without a message is a summary of no rows. *)
Theorem build_response_respects_limit (df : option DataFrame.t)
  (fmt : OutputFormat.t) (limit : Z) :
  let rows := match df with
              | Some d => Z.of_nat (DataFrame.len d)
              | None => 0
              end in
  exists response,
    build_response format_2f str_timestamp pd df fmt limit = Py.Ok response
    /\ count response
       = (if 0 <=? limit then Z.min limit rows else Z.max 0 (rows + limit))
    /\ 0 <= count response <= rows
    /\ (1 <= limit -> 1 <= rows ->
        1 <= count response /\ message response <> None)
    /\ (message response = None ->
        fmt = OutputFormat.summary /\ 1 <= rows /\ count response = 0).
Proof.
  cbv zeta. unfold build_response, ResponseBuilder.build_response.
  destruct df as [d|].
  - unfold DataFrame.empty. destruct (Nat.eqb_spec (DataFrame.len d) 0) as [E|E].
    + eexists. split; [reflexivity|]. cbn [count message]. rewrite E.
      cbn [Z.of_nat]. split; [destruct (0 <=? limit) eqn:El; lia|].
      split; [lia|]. split; [lia | discriminate].
    + destruct (formatter_count d fmt limit) as (resp & Hr & Hc & Hm).
      exists resp. split; [exact Hr|].
      rewrite Hc, head_frame_len.
      split; [reflexivity|].
      split; [destruct (0 <=? limit) eqn:El; lia|].
      split.
      * intros Hl Hrows. split; [destruct (0 <=? limit) eqn:El; lia|].
        intros Hn. apply Hm in Hn. destruct Hn as [_ Hn].
        pose proof (head_frame_len limit d) as Hh. rewrite Hn in Hh.
        destruct (0 <=? limit) eqn:El; lia.
      * intros Hn. apply Hm in Hn. destruct Hn as [Hf Hn].
        pose proof (head_frame_len limit d) as Hh. rewrite Hn in Hh.
        split; [exact Hf|]. split; [lia|].
        destruct (0 <=? limit) eqn:El; lia.
  - eexists. split; [reflexivity|]. cbn [count message].
    split; [destruct (0 <=? limit) eqn:El; lia|].
    split; [lia|]. split; [lia | discriminate].
Qed.

(** X20.  A map can only be drawn from rows that carry the columns latitude and
    longitude.  Loitering events carry center_latitude and center_longitude
    instead, so a map of loitering events comes back as the table of those
    events, under the format 'table', whatever the limit; a map of track
    points is a map with one feature per row left by the limit, whose
    coordinates are longitude first. *)
Theorem map_of_events_is_a_table (limit : Z) :
  (forall (e : LoiteringEvent.t) (events : list LoiteringEvent.t),
      build_response format_2f str_timestamp pd
        (Some (DataFrame.Events (e :: events))) OutputFormat.map limit
      = build_response format_2f str_timestamp pd
          (Some (DataFrame.Events (e :: events))) OutputFormat.table limit
      /\ build_response format_2f str_timestamp pd
           (Some (DataFrame.Events (e :: events))) OutputFormat.map limit
         = Py.Ok (build_table_response
                    (DataFrame.Events (head limit (e :: events)))))
  /\ (forall (p : TrackPoint.t) (points : list TrackPoint.t),
        build_response format_2f str_timestamp pd
          (Some (DataFrame.Points (p :: points))) OutputFormat.map limit
        = Py.Ok
            (mkResponse "map"
               (Some (FeatureCollection
                        (List.map feature_of (head limit (p :: points)))))
               (Some ("Found "
                      ++ str_len (List.length (head limit (p :: points)))
                      ++ " points")%string)
               (Z.of_nat (List.length (head limit (p :: points))))))
  /\ (forall row, coordinates (feature_of row)
                  = (TrackPoint.longitude row, TrackPoint.latitude row)).
Proof.
  split; [|split].
  - intros e events. split; reflexivity.
  - intros p points.
    unfold build_response, ResponseBuilder.build_response.
    cbn [DataFrame.empty DataFrame.len List.length Nat.eqb].
    unfold formatter, build_map_response. cbn.
    now rewrite length_map.
  - reflexivity.
Qed.

End ResponseFacts.

(* ================================================================== *)
(** * Relative time expressions *)
(* ================================================================== *)

Section RelativeTimeFacts.

Import RelativeTime.
Import ValidatorChecks.

Lemma midnight_bounds (t : Z) :
  midnight t <= t < midnight t + us_per_day
  /\ midnight t mod us_per_day = 0
  /\ midnight t / us_per_day = t / us_per_day.
Proof.
  unfold midnight, us_per_day.
  pose proof (Z.mod_pos_bound t 86400000000 ltac:(lia)) as Hm.
  pose proof (Z.div_mod t 86400000000 ltac:(lia)) as Hd.
  assert (E : t - t mod 86400000000 = (t / 86400000000) * 86400000000)
    by lia.
  rewrite E. split; [lia|]. split.
  - apply Z.mod_mul. lia.
  - apply Z.div_mul. lia.
Qed.

Lemma datetime_max_value : datetime_max = 315537897599999999.
Proof. vm_compute. reflexivity. Qed.

Lemma midnight_nonneg (t : Z) : 0 <= t -> 0 <= midnight t.
Proof.
  intros H. unfold midnight, us_per_day.
  pose proof (Z.mod_le t 86400000000 H ltac:(lia)). lia.
Qed.

Lemma digit_value (c : ascii) :
  Validators.is_digit c = true -> 0 <= Z.of_nat (nat_of_ascii c) - 48 <= 9.
Proof.
  unfold Validators.is_digit. cbv zeta. intros H.
  apply andb_prop in H. destruct H as [H1 H2].
  apply Nat.leb_le in H1, H2. lia.
Qed.

Lemma decimal_from_nonneg (ds : string) :
  all_chars Validators.is_digit ds = true ->
  forall acc,
    0 <= acc ->
    0 <= fold_left (fun a c => 10 * a + (Z.of_nat (nat_of_ascii c) - 48))
           (list_ascii_of_string ds) acc.
Proof.
  unfold all_chars.
  induction ds as [|c ds IH]; intros Hds acc Hacc;
    cbn [list_ascii_of_string fold_left]; [exact Hacc|].
  cbn [list_ascii_of_string forallb] in Hds.
  apply andb_prop in Hds. destruct Hds as [Hc Hds].
  apply (IH Hds). pose proof (digit_value c Hc). lia.
Qed.

Lemma decimal_nonneg (ds : string) :
  all_chars Validators.is_digit ds = true -> 0 <= decimal ds.
Proof. intros H. apply (decimal_from_nonneg ds H 0). lia. Qed.

Lemma span_digits_digits (s : string) :
  all_chars Validators.is_digit (fst (span_digits s)) = true.
Proof.
  unfold all_chars. induction s as [|c s IH]; cbn [span_digits];
    [reflexivity|].
  destruct (Validators.is_digit c) eqn:E; [|reflexivity].
  destruct (span_digits s) as [ds rest]. cbn in *. now rewrite E.
Qed.

(** The group captured by the pattern is made of decimal digits. *)
Lemma re_match_last_digits (unit : ascii) (s g : string) :
  re_match_last unit s = Some g ->
  all_chars Validators.is_digit g = true.
Proof.
  unfold re_match_last.
  destruct (strip_prefix "last_"%string s) as [rest|]; [|discriminate].
  pose proof (span_digits_digits rest) as H.
  destruct (span_digits rest) as [ds r]. cbn [fst] in H.
  destruct ds as [|d ds]; [discriminate|].
  destruct r as [|c r]; [discriminate|].
  destruct (Ascii.eqb c unit); [|discriminate].
  now intros [= <-].
Qed.

Ltac open_arith :=
  unfold bind, int, minus, timedelta;
  repeat match goal with
         | |- context [if ?b then _ else _] => destruct b eqn:?
         end;
  try discriminate.

(** X22.  Whatever the expression, a window returned by parse_relative_time
    never reaches into the future and is never reversed: its start is not
    after its end, and its end is not after the clock. *)
Theorem parse_relative_time_window (now : Z) (expr : string) (s e : Z) :
  0 <= now ->
  parse_relative_time now expr = Py.Ok (s, e) ->
  0 <= s /\ s <= e /\ e <= now.
Proof.
  intros Hnow. unfold parse_relative_time. cbv zeta.
  set (x := Py.strip (Py.lower expr)).
  destruct (re_match_last "h"%char x) as [h|] eqn:Eh.
  { apply re_match_last_digits, decimal_nonneg in Eh. open_arith.
    intros [= <- <-]. unfold us_per_hour in *. lia. }
  destruct (re_match_last "d"%char x) as [d|] eqn:Ed.
  { apply re_match_last_digits, decimal_nonneg in Ed. open_arith.
    intros [= <- <-]. unfold us_per_day in *. lia. }
  destruct (String.eqb x "last_week"%string).
  { open_arith. intros [= <- <-]. unfold us_per_day in *. lia. }
  destruct (String.eqb x "last_weekend"%string).
  { set (k := if (weekday now + 1) mod 7 =? 0 then 7
              else (weekday now + 1) mod 7).
    assert (Hk : 1 <= k <= 7).
    { unfold k. pose proof (Z.mod_pos_bound (weekday now + 1) 7 ltac:(lia)).
      destruct (Z.eqb_spec ((weekday now + 1) mod 7) 0); lia. }
    unfold bind, minus.
    destruct (now - k * us_per_day <? 0) eqn:E1; [discriminate|].
    destruct (now - k * us_per_day - us_per_day <? 0) eqn:E2;
      [discriminate|].
    intros [= <- <-]. unfold end_of_day.
    pose proof (midnight_bounds (now - k * us_per_day - us_per_day))
      as (H1 & _).
    pose proof (midnight_bounds (now - k * us_per_day)) as (H2 & _).
    apply Z.ltb_ge in E1, E2.
    assert (Hs : midnight (now - k * us_per_day - us_per_day)
                 = midnight (now - k * us_per_day) - us_per_day).
    { unfold midnight.
      replace (now - k * us_per_day - us_per_day)
        with (now - k * us_per_day + (-1) * us_per_day) by lia.
      rewrite Z.mod_add by (unfold us_per_day; lia). lia. }
    pose proof (midnight_nonneg (now - k * us_per_day - us_per_day)
                  ltac:(lia)) as Hm.
    unfold us_per_day in *. lia. }
  destruct (String.eqb x "today"%string).
  { intros [= <- <-]. pose proof (midnight_bounds now) as (H1 & _).
    pose proof (midnight_nonneg now Hnow). lia. }
  destruct (String.eqb x "yesterday"%string).
  { unfold bind, minus.
    destruct (now - us_per_day <? 0) eqn:E1; [discriminate|].
    intros [= <- <-]. unfold end_of_day.
    pose proof (midnight_bounds (now - us_per_day)) as (H1 & _).
    apply Z.ltb_ge in E1.
    pose proof (midnight_nonneg (now - us_per_day) E1).
    unfold us_per_day in *. lia. }
  open_arith. intros [= <- <-]. unfold us_per_day in *. lia.
Qed.

Lemma strip_prefix_app (p s : string) :
  strip_prefix p (p ++ s)%string = Some s.
Proof.
  induction p as [|a p IH]; cbn; [reflexivity|].
  now rewrite Ascii.eqb_refl.
Qed.

Lemma strip_prefix_none (p s : string) :
  String.prefix p s = false -> strip_prefix p s = None.
Proof.
  revert s. induction p as [|a p IH]; intros s H.
  - destruct s; discriminate H.
  - destruct s as [|b s]; [reflexivity|].
    cbn [strip_prefix String.prefix] in *.
    destruct (Ascii.eqb_spec a b) as [->|Hne]; [|reflexivity].
    destruct (ascii_dec b b) as [_|Hn]; [now apply IH | congruence].
Qed.

Lemma span_digits_app (ds : string) (u : ascii) (rest : string) :
  all_chars Validators.is_digit ds = true ->
  Validators.is_digit u = false ->
  span_digits (ds ++ String u rest)%string = (ds, String u rest).
Proof.
  unfold all_chars. intros Hds Hu.
  induction ds as [|c ds IH].
  - cbn. now rewrite Hu.
  - cbn in Hds. apply andb_prop in Hds. destruct Hds as [Hc Hds].
    cbn [append span_digits]. now rewrite Hc, (IH Hds).
Qed.

(** The pattern on "last_", a count and a unit letter: it matches when the
    letter asked for is the one that follows the count, and captures the
    count. *)
Lemma re_match_last_count (u : ascii) (ds rest : string) :
  ds <> EmptyString ->
  all_chars Validators.is_digit ds = true ->
  Validators.is_digit u = false ->
  forall v : ascii,
    re_match_last v ("last_" ++ ds ++ String u rest)%string
    = if Ascii.eqb u v then Some ds else None.
Proof.
  intros Hne Hds Hu v. unfold re_match_last.
  rewrite strip_prefix_app, (span_digits_app ds u rest Hds Hu).
  destruct ds as [|c ds]; [congruence|]. reflexivity.
Qed.

(** X23.  An ASCII expression is read after lower-casing and trimming, and
    only its beginning counts: "last_", a count in decimal digits and the
    letter h or d give the window of that many hours or days up to the
    clock, whatever follows the letter.  A count too large for the calendar
    is refused, and so is a count written with more than 4300 digits. *)
Theorem parse_relative_time_count (now : Z) (expr ds rest : string)
  (days : bool) :
  let unit : ascii := if days then "d"%char else "h"%char in
  let span := decimal ds * (if days then us_per_day else us_per_hour) in
  Py.is_ascii expr = true ->
  Py.strip (Py.lower expr) = ("last_" ++ ds ++ String unit rest)%string ->
  ds <> EmptyString ->
  all_chars Validators.is_digit ds = true ->
  now <= datetime_max ->
  ((String.length ds <= 4300)%nat -> span <= now ->
   parse_relative_time now expr = Py.Ok (now - span, now))
  /\ ((String.length ds <= 4300)%nat -> now < span ->
      exists e, parse_relative_time now expr = Py.Raise e)
  /\ ((4300 < String.length ds)%nat ->
      parse_relative_time now expr = Py.Raise value_error).
Proof.
  intros unit span _ Hx Hne Hds Hmax.
  assert (Hu : Validators.is_digit unit = false)
    by (unfold unit; destruct days; reflexivity).
  pose proof (decimal_nonneg ds Hds) as Hspan.
  unfold parse_relative_time. cbv zeta. rewrite Hx.
  rewrite !(re_match_last_count unit ds rest Hne Hds Hu).
  rewrite datetime_max_value in Hmax.
  assert (Hint : forall A (k : Z -> Py.result A),
             bind (int ds) k
             = if (4300 <? String.length ds)%nat then Py.Raise value_error
               else k (decimal ds)).
  { intros A k. unfold bind, int, int_max_str_digits.
    now destruct (4300 <? String.length ds)%nat. }
  unfold unit, span in *. destruct days; cbn [Ascii.eqb Bool.eqb];
    cbv iota; rewrite Hint; unfold bind, timedelta, minus.
  - split; [|split].
    + intros Hlen Hle. rewrite (proj2 (Nat.ltb_ge _ _) Hlen).
      destruct (Z.ltb_spec 999999999 (decimal ds * us_per_day / us_per_day))
        as [Hbig|_].
      * rewrite Z.div_mul in Hbig by (unfold us_per_day; lia).
        unfold us_per_day in *. lia.
      * destruct (Z.ltb_spec (now - decimal ds * us_per_day) 0);
          [lia | reflexivity].
    + intros Hlen Hlt. rewrite (proj2 (Nat.ltb_ge _ _) Hlen).
      destruct (999999999 <? _); [eexists; reflexivity|].
      destruct (Z.ltb_spec (now - decimal ds * us_per_day) 0);
        [eexists; reflexivity | lia].
    + intros Hlen. now rewrite (proj2 (Nat.ltb_lt _ _) Hlen).
  - split; [|split].
    + intros Hlen Hle. rewrite (proj2 (Nat.ltb_ge _ _) Hlen).
      destruct (Z.ltb_spec 999999999 (decimal ds * us_per_hour / us_per_day))
        as [Hbig|_].
      * assert (decimal ds * us_per_hour / us_per_day
                <= now / us_per_day)
          by (apply Z.div_le_mono; [unfold us_per_day; lia | exact Hle]).
        assert (now / us_per_day <= 3652059).
        { apply Z.div_le_upper_bound; unfold us_per_day in *; lia. }
        lia.
      * destruct (Z.ltb_spec (now - decimal ds * us_per_hour) 0);
          [lia | reflexivity].
    + intros Hlen Hlt. rewrite (proj2 (Nat.ltb_ge _ _) Hlen).
      destruct (999999999 <? _); [eexists; reflexivity|].
      destruct (Z.ltb_spec (now - decimal ds * us_per_hour) 0);
        [eexists; reflexivity | lia].
    + intros Hlen. now rewrite (proj2 (Nat.ltb_lt _ _) Hlen).
Qed.

(** The docstring's example: six hours, written with capitals, a longer
    unit and blanks around. *)
Lemma parse_relative_time_count_witness :
  let now := 63839750400000000 in
  parse_relative_time now "  Last_6Hours "
  = Py.Ok (now - 6 * us_per_hour, now).
Proof.
  cbv zeta.
  destruct (parse_relative_time_count 63839750400000000 "  Last_6Hours "
              "6" "ours" false) as (H & _ & _).
  - reflexivity.
  - vm_compute. reflexivity.
  - discriminate.
  - vm_compute. reflexivity.
  - rewrite datetime_max_value. lia.
  - apply H; [cbn; lia | vm_compute; discriminate].
Defined.

Lemma parse_relative_time_window_witness :
  let now := 63839750400000000 in
  0 <= now - 6 * us_per_hour
  /\ now - 6 * us_per_hour <= now /\ now <= now.
Proof.
  apply (parse_relative_time_window 63839750400000000 "last_6h").
  - lia.
  - vm_compute. reflexivity.
Defined.

(** X24.  For an ASCII expression, "last_weekend" is the last complete
    Saturday and Sunday before today: the window starts on a Saturday at
    midnight, ends on the following Sunday one microsecond before midnight,
    and that Sunday is between one and seven days before today (on a
    Sunday, the weekend of the week before).  An ASCII expression that is
    none of the known ones is not refused: it gives the last 24 hours. *)
Theorem parse_relative_time_weekend (now : Z) (expr : string) :
  Py.is_ascii expr = true ->
  8 * us_per_day <= now ->
  (Py.strip (Py.lower expr) = "last_weekend"%string ->
   exists s e,
     parse_relative_time now expr = Py.Ok (s, e)
     /\ s mod us_per_day = 0
     /\ weekday s = 5
     /\ e = s + 2 * us_per_day - 1
     /\ weekday e = 6
     /\ 1 <= now / us_per_day - e / us_per_day <= 7)
  /\ (String.prefix "last_" (Py.strip (Py.lower expr)) = false ->
      Py.strip (Py.lower expr) <> "today"%string ->
      Py.strip (Py.lower expr) <> "yesterday"%string ->
      parse_relative_time now expr = Py.Ok (now - us_per_day, now)).
Proof.
  intros _ Hnow. unfold parse_relative_time. cbv zeta.
  set (x := Py.strip (Py.lower expr)). split.
  - intros ->.
    change (re_match_last "h" "last_weekend") with (@None string).
    change (re_match_last "d" "last_weekend") with (@None string).
    cbn [String.eqb Ascii.eqb Bool.eqb]. cbv iota.
    set (k := if (weekday now + 1) mod 7 =? 0 then 7
              else (weekday now + 1) mod 7).
    assert (Hk : 1 <= k <= 7 /\ (weekday now + 1 - k) mod 7 = 0).
    { unfold k.
      pose proof (Z.mod_pos_bound (weekday now + 1) 7 ltac:(lia)).
      destruct (Z.eqb_spec ((weekday now + 1) mod 7) 0) as [E|E].
      - split; [lia|].
        replace (weekday now + 1 - 7) with (weekday now + 1 + (-1) * 7)
          by lia.
        now rewrite Z.mod_add by lia.
      - split; [lia|].
        rewrite Zminus_mod, Zmod_mod, Z.sub_diag. reflexivity. }
    destruct Hk as [Hk Hmod].
    unfold bind, minus.
    destruct (Z.ltb_spec (now - k * us_per_day) 0);
      [unfold us_per_day in *; lia|].
    destruct (Z.ltb_spec (now - k * us_per_day - us_per_day) 0);
      [unfold us_per_day in *; lia|].
    eexists. eexists. split; [reflexivity|].
    set (d := now / us_per_day).
    assert (Hday : forall j,
               (now - j * us_per_day) / us_per_day = d - j
               /\ midnight (now - j * us_per_day)
                  = (d - j) * us_per_day).
    { intros j.
      assert (E : (now - j * us_per_day) / us_per_day = d - j).
      { replace (now - j * us_per_day) with (now + (- j) * us_per_day)
          by lia.
        rewrite Z.div_add by (unfold us_per_day; lia). unfold d. lia. }
      split; [exact E|]. unfold midnight.
      pose proof (Z.div_mod (now - j * us_per_day) us_per_day
                    ltac:(unfold us_per_day; lia)) as Hdm.
      rewrite E in Hdm. lia. }
    replace (now - k * us_per_day - us_per_day)
      with (now - (k + 1) * us_per_day) by lia.
    destruct (Hday (k + 1)) as [_ Hsat]. destruct (Hday k) as [_ Hsun].
    unfold end_of_day. rewrite Hsat, Hsun.
    assert (Hw : weekday now = d mod 7) by reflexivity.
    assert (Hdk : (d - k) mod 7 = 6).
    { rewrite Hw in Hmod.
      pose proof (Z.mod_pos_bound d 7 ltac:(lia)).
      pose proof (Z.div_mod d 7 ltac:(lia)).
      pose proof (Z.div_mod (d mod 7 + 1 - k) 7 ltac:(lia)).
      rewrite Hmod in *.
      replace (d - k) with (6 + (d / 7 + (d mod 7 + 1 - k) / 7 - 1) * 7)
        by lia.
      now rewrite Z.mod_add by lia. }
    split; [apply Z.mod_mul; unfold us_per_day; lia|].
    split.
    { unfold weekday. rewrite Z.div_mul by (unfold us_per_day; lia).
      replace (d - (k + 1)) with (d - k + (-1)) by lia.
      rewrite Zplus_mod, Hdk. reflexivity. }
    split; [unfold us_per_day; lia|].
    assert (He : ((d - k) * us_per_day + us_per_day - 1) / us_per_day
                 = d - k).
    { replace ((d - k) * us_per_day + us_per_day - 1)
        with ((us_per_day - 1) + (d - k) * us_per_day) by lia.
      rewrite Z.div_add by (unfold us_per_day; lia).
      rewrite Z.div_small by (unfold us_per_day; lia). lia. }
    split; [unfold weekday; rewrite He; exact Hdk|].
    rewrite He. fold d. lia.
  - intros Hp Ht Hy.
    unfold re_match_last. rewrite (strip_prefix_none _ _ Hp).
    assert (E1 : String.eqb x "last_week" = false).
    { apply String.eqb_neq. intros E. rewrite E in Hp. discriminate Hp. }
    assert (E2 : String.eqb x "last_weekend" = false).
    { apply String.eqb_neq. intros E. rewrite E in Hp. discriminate Hp. }
    rewrite E1, E2, (proj2 (String.eqb_neq _ _) Ht),
      (proj2 (String.eqb_neq _ _) Hy).
    unfold bind, minus.
    destruct (Z.ltb_spec (now - us_per_day) 0);
      [unfold us_per_day in *; lia | reflexivity].
Qed.

(** Wednesday 2024-01-03 at noon: the weekend of 30 and 31 December; and an
    expression in plain words, read as the last 24 hours. *)
Lemma parse_relative_time_weekend_witness :
  let now := 63839880000000000 in
  (exists s e,
      parse_relative_time now "last_weekend" = Py.Ok (s, e)
      /\ s mod us_per_day = 0
      /\ weekday s = 5
      /\ e = s + 2 * us_per_day - 1
      /\ weekday e = 6
      /\ 1 <= now / us_per_day - e / us_per_day <= 7)
  /\ parse_relative_time now "the past six hours"
     = Py.Ok (now - us_per_day, now).
Proof.
  cbv zeta.
  destruct (parse_relative_time_weekend 63839880000000000 "last_weekend"
              eq_refl ltac:(unfold us_per_day; lia)) as [H _].
  destruct (parse_relative_time_weekend 63839880000000000
              "the past six hours" eq_refl ltac:(unfold us_per_day; lia))
    as [_ H'].
  split; [apply H; vm_compute; reflexivity|].
  apply H'; [vm_compute; reflexivity | vm_compute; discriminate
            | vm_compute; discriminate].
Defined.

End RelativeTimeFacts.

(* ================================================================== *)
(** * The keyword scan reaches every text value *)
(* ================================================================== *)

Section KeywordScan.

Import Schemas.
Import PlanValidator.
Import ValidatorChecks.
Local Open Scope string_scope.

Lemma contains_app_l (sub s post : string) :
  Py.contains sub s = true -> Py.contains sub (s ++ post) = true.
Proof.
  intros H. apply contains_inv in H. destruct H as (a & b & ->).
  rewrite !sapp_assoc. apply contains_app.
Qed.

Lemma repr_body_app (q : ascii) (a b : string) :
  Py.repr_body q (a ++ b) = Py.repr_body q a ++ Py.repr_body q b.
Proof.
  induction a as [|c a IH]; cbn [append Py.repr_body]; [reflexivity|].
  now rewrite IH, sapp_assoc.
Qed.

(** A text that [repr] leaves as it is under either quote: no quote, no
    backslash, no control character. *)
Lemma contains_repr_str (k s : string) :
  Py.repr_body Py.squote k = k -> Py.repr_body Py.dquote k = k ->
  Py.contains k s = true -> Py.contains k (Py.repr_str s) = true.
Proof.
  intros Hs Hd H. apply contains_inv in H. destruct H as (a & b & ->).
  unfold Py.repr_str. cbv zeta.
  assert (Hq : forall q, Py.repr_body q k = k ->
             Py.contains k
               (String q (Py.repr_body q (a ++ k ++ b)
                          ++ String q EmptyString)) = true).
  { intros q Hk. rewrite !repr_body_app, Hk.
    change (String q ((Py.repr_body q a ++ k ++ Py.repr_body q b)
                      ++ String q EmptyString))
      with (String q EmptyString
            ++ ((Py.repr_body q a ++ k ++ Py.repr_body q b)
                ++ String q EmptyString)).
    apply contains_app_r, contains_app_l, contains_app. }
  destruct (_ && _); auto.
Qed.

Lemma contains_join (k sep x : string) (items : list string) :
  In x items -> Py.contains k x = true ->
  Py.contains k (Py.join sep items) = true.
Proof.
  intros Hin Hx. induction items as [|y items IH]; [contradiction|].
  destruct items as [|z items].
  - destruct Hin as [->|[]]. exact Hx.
  - change (Py.join sep (y :: z :: items))
      with (y ++ sep ++ Py.join sep (z :: items)).
    destruct Hin as [->|Hin].
    + now apply contains_app_l.
    + apply contains_app_r, contains_app_r, IH, Hin.
Qed.

Lemma unsafe_keywords_plain (k : string) :
  In k unsafe_keywords ->
  Py.repr_body Py.squote k = k /\ Py.repr_body Py.dquote k = k.
Proof.
  unfold unsafe_keywords. cbn [In].
  intros [<-|[<-|[<-|[<-|[<-|[<-|[]]]]]]]; split; vm_compute; reflexivity.
Qed.

Section Scan.

Variable repr_float : Q -> string.
Variable k : string.
Hypothesis Hk : In k unsafe_keywords.

Lemma contains_repr_opt (o : option string) (s : string) :
  In s (texts o) -> Py.contains k s = true ->
  Py.contains k (Py.repr_opt Py.repr_str o) = true.
Proof.
  destruct o as [x|]; [|contradiction]. intros [->|[]] H.
  destruct (unsafe_keywords_plain k Hk) as [H1 H2].
  now apply contains_repr_str.
Qed.

(** Where in a text built by concatenation the keyword is found. *)
Ltac locate :=
  first
    [ eassumption
    | eapply contains_repr_opt; [eassumption | eassumption]
    | apply contains_app_l; locate
    | apply contains_app_r; locate ].

Lemma str_vessel_scan (v : VesselIdentifier) (s : string) :
  In s (texts (imo v) ++ texts (mmsi v) ++ texts (name v))%list ->
  Py.contains k s = true ->
  Py.contains k (str_vessel v) = true.
Proof.
  intros Hin Hs. unfold str_vessel.
  rewrite !in_app_iff in Hin. destruct Hin as [Hin|[Hin|Hin]]; locate.
Qed.

Lemma str_to_dict_scan (i : CanonicalIntent) (s : string) :
  In s (text_values i) -> Py.contains k s = true ->
  Py.contains k (str_to_dict repr_float i) = true.
Proof.
  intros Hin Hs. unfold text_values in Hin.
  rewrite !in_app_iff, in_flat_map in Hin.
  unfold str_to_dict, str_time_constraint, str_spatial_constraint,
    str_execution_mode.
  destruct Hin as [(v & Hv & Hin)|[Hin|[Hin|[Hin|[Hin|[Hin|Hin]]]]]].
  - assert (Hl : Py.contains k
                   (Py.repr_list (List.map str_vessel (vessels i))) = true).
    { unfold Py.repr_list. apply contains_app_r, contains_app_l.
      apply (contains_join k ", " (str_vessel v)).
      - apply in_map. exact Hv.
      - exact (str_vessel_scan v s Hin Hs). }
    locate.
  - locate.
  - locate.
  - locate.
  - locate.
  - locate.
  - locate.
Qed.

End Scan.

(** X25.  The keyword scan of rule 7 reads every free-text value of the intent:
    whenever one of the six tokens occurs in an identifier of a listed
    vessel (IMO number, MMSI or name), in the relative expression, the start
    or the end of the time constraint, in the polygon type or identifier, or
    in the model name, the validator reports that token. *)
Theorem validate_scans_every_text (repr_float : Q -> string)
  (datetime : Type) (fromisoformat : string -> Py.result datetime)
  (datetime_lt : datetime -> datetime -> Py.result bool)
  (i : CanonicalIntent) (k s : string) :
  In k unsafe_keywords ->
  In s (text_values i) ->
  Py.contains k s = true ->
  In ("Unsafe keyword detected: " ++ k)
     (validate repr_float datetime fromisoformat datetime_lt i).
Proof.
  intros Hk Hin Hs. apply validate_In. unfold checks. cbv zeta.
  rewrite !in_app_iff. do 3 right.
  apply in_map_iff. exists k. split; [|exact Hk].
  now rewrite (str_to_dict_scan repr_float k Hk i s Hin Hs).
Qed.

(** A vessel named after the sea god: its name holds the token 'os.'. *)
Lemma validate_scans_every_text_witness :
  let intent :=
    mkCanonicalIntent Domain.trajectory Task.show VesselScope.single
      [mkVesselIdentifier None (Some "123456789") (Some "Okeanos. II")]
      (mkTimeConstraint TimeMode.relative (Some "last_6h") None None)
      (mkSpatialConstraint SpatialType.none None None None)
      (mkExecutionMode DataSource.raw_ais None)
      (mkOutputConfig OutputFormat.table 50) in
  In "Unsafe keyword detected: os."
     (validate (fun _ => "0.0") Z
        (fun _ => Py.Raise "Invalid isoformat string")
        (fun a b => Py.Ok (a <? b)%Z) intent).
Proof.
  cbv zeta.
  apply (validate_scans_every_text (fun _ => "0.0") Z
           (fun _ => Py.Raise "Invalid isoformat string")
           (fun a b => Py.Ok (a <? b)%Z) _ "os." "Okeanos. II").
  - cbn. auto 10.
  - cbn. auto.
  - vm_compute. reflexivity.
Defined.

End KeywordScan.

(* ================================================================== *)
(** * Loitering detector: the events of one vessel in time *)
(* ================================================================== *)

Section DetectorOrder.

Import TrackPoint.
Import LoiteringService.

Variable pd : Pandas.Numerics.

(** More than one hour, in nanoseconds. *)
Lemma gap_gt_iff (a b : Z) :
  (1 < Spec.gap_hours a b)%Q <-> 3600000000000 < b - a.
Proof.
  unfold Spec.gap_hours, hours, Pandas.total_seconds.
  rewrite (Zlt_Qlt 3600000000000 (b - a)).
  set (q := inject_Z (b - a)).
  unfold Qdiv.
  change (/ inject_Z 1000000000)%Q with (1 # 1000000000)%Q.
  change (/ inject_Z 3600)%Q with (1 # 3600)%Q.
  change (inject_Z 3600000000000) with 3600000000000%Q.
  split; intros H; lra.
Qed.

Lemma sorted_weaken (l : list TrackPoint.t) :
  StronglySorted (le_by (fun a b => timestamp a <=? timestamp b)) l ->
  StronglySorted (fun a b => timestamp a <= timestamp b) l.
Proof.
  induction 1 as [|x l Hs IH Hx]; constructor; [exact IH|].
  rewrite Forall_forall in *. intros y Hy. apply Z.leb_le, Hx, Hy.
Qed.

(** The segments of rows in ascending order lie more than one hour apart:
    every row of a later segment is more than an hour after every row of an
    earlier one. *)
Lemma segments_apart (rows : list TrackPoint.t) :
  StronglySorted (fun a b => timestamp a <= timestamp b) rows ->
  StronglySorted
    (fun s1 s2 =>
       forall a b, In a s1 -> In b s2 ->
                   3600000000000 < timestamp b - timestamp a)
    (Spec.segments rows).
Proof.
  induction rows as [|x rows IH]; intros Hs; [constructor|].
  destruct rows as [|y rest]; [repeat constructor|].
  inversion Hs as [|? ? Hs' Hx]; subst.
  specialize (IH Hs').
  assert (Hxy : timestamp x <= timestamp y).
  { rewrite Forall_forall in Hx. apply Hx. now left. }
  assert (Hlater : forall seg b,
             In seg (Spec.segments (y :: rest)) -> In b seg ->
             timestamp y <= timestamp b).
  { intros seg b Hseg Hb.
    pose proof (In_concat_segments _ _ _ Hseg Hb) as [<-|Hin]; [lia|].
    inversion Hs' as [|? ? _ Hy]; subst.
    rewrite Forall_forall in Hy. now apply Hy. }
  rewrite segments_cons2.
  destruct (Spec.gap_exceeds x y) eqn:E.
  - apply gap_exceeds_true, gap_gt_iff in E.
    constructor; [exact IH|].
    apply Forall_forall. intros seg Hseg a b [<-|[]] Hb.
    pose proof (Hlater seg b Hseg Hb). lia.
  - destruct (segments_spec rest y) as (s & ss & Es & _).
    rewrite Es in *.
    inversion IH as [|? ? IHss IHs]; subst.
    constructor; [exact IHss|].
    rewrite Forall_forall in *. intros seg Hseg a b [<-|Ha] Hb.
    + pose proof (IHs seg Hseg y b (or_introl eq_refl) Hb). lia.
    + exact (IHs seg Hseg a b Ha Hb).
Qed.

Lemma flat_map_sorted {A B} (P : A -> A -> Prop) (Q : B -> B -> Prop)
  (f : A -> list B) (l : list A) :
  (forall x y a b, P x y -> In a (f x) -> In b (f y) -> Q a b) ->
  (forall x, StronglySorted Q (f x)) ->
  StronglySorted P l -> StronglySorted Q (flat_map f l).
Proof.
  intros HPQ Hf. induction 1 as [|x l Hs IH Hx]; [constructor|].
  cbn [flat_map].
  assert (Hall : forall a, In a (f x) -> Forall (Q a) (flat_map f l)).
  { intros a Ha. apply Forall_forall. intros b Hb.
    apply in_flat_map in Hb. destruct Hb as (y & Hy & Hb).
    rewrite Forall_forall in Hx. exact (HPQ x y a b (Hx y Hy) Ha Hb). }
  specialize (Hf x). induction Hf as [|a fx Hfx IHfx Ha]; [exact IH|].
  cbn [app]. constructor.
  - apply IHfx. intros a' Ha'. apply Hall. now right.
  - apply Forall_app. split; [exact Ha | apply Hall; now left].
Qed.

(** X26.  The events reported for one vessel never overlap and come in time
    order: each of them starts more than one hour after every earlier one
    has ended. *)
Theorem vessel_events_do_not_overlap (self : LoiteringService.t)
  (df : list TrackPoint.t) (st dw : option Float.t)
  (sc : option Schemas.SpatialConstraint) (m : string) :
  StronglySorted
    (fun e1 e2 =>
       LoiteringEvent.end_time e1 < LoiteringEvent.start_time e2
       /\ (1 < Spec.gap_hours (LoiteringEvent.end_time e1)
                 (LoiteringEvent.start_time e2))%Q)
    (filter (fun e => String.eqb (LoiteringEvent.mmsi e) m)
       (detect_loitering pd self df st dw sc)).
Proof.
  rewrite detect_loitering_of_vessel.
  set (dwell := or_default dw (dwell_time_hours self)).
  set (own := filter _ (filter_slow _ df)).
  unfold vessel_events. rewrite flat_map_snd, event_groups_segments.
  set (sorted := Pandas.sort (fun a b => timestamp a <=? timestamp b) own).
  assert (Hsorted : StronglySorted
                      (fun a b => timestamp a <= timestamp b) sorted).
  { apply sorted_weaken, sort_sorted;
      [apply ts_leb_total | apply ts_leb_trans]. }
  apply (flat_map_sorted
           (fun s1 s2 : list TrackPoint.t =>
              forall a b, In a s1 -> In b s2 ->
                          3600000000000 < timestamp b - timestamp a)).
  - intros s1 s2 e1 e2 H Ha Hb.
    apply event_of_In in Ha, Hb.
    destruct Ha as (_ & lo1 & hi1 & (_ & Hhi1 & _) & _ & ->).
    destruct Hb as (_ & lo2 & hi2 & (Hlo2 & _ & _) & _ & ->).
    cbn [LoiteringEvent.end_time LoiteringEvent.start_time].
    apply in_map_iff in Hhi1, Hlo2.
    destruct Hhi1 as (p & <- & Hp). destruct Hlo2 as (q & <- & Hq).
    pose proof (H p q Hp Hq) as Hgap.
    split; [lia | now apply gap_gt_iff].
  - intros s. unfold event_of.
    destruct (_ <? _)%nat; [constructor|].
    destruct (List.map timestamp s); [constructor|].
    destruct (Float.leb _ _); repeat constructor.
  - exact (segments_apart sorted Hsorted).
Qed.

End DetectorOrder.
